(** * Proxmox-B2-Helper: the dashboard engine of [gui/app.py]

    A shallow embedding of the pure core of [gui/app.py] (size formatting,
    local and remote inventory collectors, the cost estimator, the
    reconciliation view and the run-history reconstructor), and the
    properties its specification states about them.

    Conventions of the embedding.
    - Python [int] is [Z]; Python [float] is IEEE binary64, Rocq's primitive
      [float]; the two meet in [num].
    - Python [str] is [string]; one character stands for one code point.
    - A Python [dict] with string keys is a [gmap string pyval].
    - A Python exception is a value of [exn]; code that may raise returns a
      [result], and [try ... except Exception] is [try_except].
    - External commands are opaque providers: their outcome, the triple
      that [run_cmd] returns, is an input of the model.
    - Library functions whose behaviour depends on the installed version
      ([json.loads], [base64.b64decode], [datetime.fromisoformat] outside
      the format all versions share) are parameters of the sections that
      use them. *)

From Stdlib Require Import ZArith Floats String Ascii List Lia DecimalString.
From stdpp Require Import gmap strings list sorting.

Local Open Scope string_scope.
Local Open Scope Z_scope.
Local Open Scope list_scope.

(** ** Exceptions and results *)

Inductive exn_kind :=
| TypeError | ValueError | OverflowError | AttributeError | JSONDecodeError.

(** An exception: its class and [str(exc)]. *)
Record exn := Exn { exn_class : exn_kind; exn_str : string }.

Inductive result (A : Type) :=
| Ok (a : A)
| Raise (e : exn).
Arguments Ok {A} a.
Arguments Raise {A} e.

Instance result_bind : MBind result := fun A B k m =>
  match m with
  | Ok a => k a
  | Raise e => Raise e
  end.

Instance result_ret : MRet result := @Ok.

(** [try: m except Exception as exc: h exc]. *)
Definition try_except {A} (m : result A) (h : exn -> result A) : result A :=
  match m with
  | Ok a => Ok a
  | Raise e => h e
  end.

Definition raises {A} (m : result A) : Prop :=
  match m with
  | Ok _ => False
  | Raise _ => True
  end.

(** ** Numbers *)

(** A Python number: an [int] or a [float]. *)
Inductive num :=
| NInt (n : Z)
| NFloat (f : float).

(** A Python value, as [json.loads] and the collectors build them. *)
Inductive pyval :=
| VNone
| VBool (b : bool)
| VInt (n : Z)
| VFloat (f : float)
| VStr (s : string)
| VList (l : list pyval)
| VDict (d : gmap string pyval).

(** A Python [dict] with string keys. *)
Abbreviation dict := (gmap string pyval).

(** The number a value is, if it is one ([bool] is a subclass of [int]). *)
Definition num_of (v : pyval) : option num :=
  match v with
  | VBool b => Some (NInt (if b then 1 else 0))
  | VInt n => Some (NInt n)
  | VFloat f => Some (NFloat f)
  | _ => None
  end.

(** [d.get(key, default)]. *)
Definition get (d : dict) (key : string) (default : pyval) : pyval :=
  match d !! key with
  | Some v => v
  | None => default
  end.

(** [m * 2^e] rounded to the nearest binary64, ties to even. *)
Definition round_binary64 (m e : Z) : spec_float :=
  binary_normalize prec emax m e false.

(** [float(n)]: correctly rounded; [OverflowError] beyond the binary64
    range. *)
Definition float_of_int (n : Z) : result float :=
  match round_binary64 n 0 with
  | S754_infinity _ =>
      Raise (Exn OverflowError "int too large to convert to float")
  | sf => Ok (SF2Prim sf)
  end.

Definition to_float (x : num) : result float :=
  match x with
  | NInt n => float_of_int n
  | NFloat f => Ok f
  end.

(** Decimal digits of a natural number. *)
Definition digits (n : Z) : string :=
  NilZero.string_of_uint (N.to_uint (Z.to_N n)).

(** [m * 2^e * 10] rounded to the nearest integer, ties to even. *)
Definition round_tenths (m e : Z) : Z :=
  if 0 <=? e then m * 10 * 2 ^ e
  else
    let d := 2 ^ (- e) in
    let q := (m * 10) / d in
    let r := (m * 10) mod d in
    if 2 * r <? d then q
    else if d <? 2 * r then q + 1
    else if Z.even q then q else q + 1.

(** [format(f, ".1f")] on a float: the exact binary value, correctly
    rounded to one decimal.  (The minimum width 3 of ["3.1f"] never pads:
    every rendering has at least three characters.) *)
Definition format_float_1f (f : float) : string :=
  match Prim2SF f with
  | S754_nan => "nan"
  | S754_infinity s => if s then "-inf" else "inf"
  | S754_zero s => if s then "-0.0" else "0.0"
  | S754_finite s m e =>
      let t := round_tenths (Z.pos m) e in
      (if s then "-" else "") +:+ digits (t / 10) +:+ "." +:+ digits (t mod 10)
  end.

(** [f"{x:.1f}"] on a number: an [int] is first converted to [float]. *)
Definition format_1f (x : num) : result string :=
  f ← to_float x; Ok (format_float_1f f).

(** [x < 1024.0]: Python compares an [int] with a [float] exactly. *)
Definition lt_1024 (x : num) : bool :=
  match x with
  | NInt n => n <? 1024
  | NFloat f => PrimFloat.ltb f 1024
  end.

(** [x / 1024.0]. *)
Definition truediv_1024 (x : num) : result float :=
  f ← to_float x; Ok (PrimFloat.div f 1024).

(** ** [human_size] *)

(** The [for unit in [...]] loop of [human_size], with its early
    [return], and the final [return] of the ["PB"] rendering. *)
Fixpoint human_size_loop (units : list string) (num : num) : result string :=
  match units with
  | [] => s ← format_1f num; Ok (s +:+ " PB")
  | unit :: rest =>
      if lt_1024 num then s ← format_1f num; Ok (s +:+ " " +:+ unit)
      else num' ← truediv_1024 num; human_size_loop rest (NFloat num')
  end.

(** [human_size(num)]: the argument is any Python value; the first
    comparison [num < 1024.0] raises [TypeError] unless it is a number. *)
Definition human_size (num : pyval) : result string :=
  match num_of num with
  | Some n => human_size_loop ["B"; "KB"; "MB"; "GB"; "TB"] n
  | None =>
      Raise (Exn TypeError "'<' not supported between instances of this type and 'float'")
  end.

(** The specification's reading of [human_size]: the value after [k]
    divisions by 1024, and the unit of rank [k]. *)
Fixpoint divided (k : nat) (x : num) : result num :=
  match k with
  | O => Ok x
  | S k' => v ← divided k' x; f ← truediv_1024 v; Ok (NFloat f)
  end.

Definition unit_name (k : nat) : string :=
  nth k ["B"; "KB"; "MB"; "GB"; "TB"; "PB"] "PB".


(** ** [cost_estimates] *)

(** [size_bytes / (1024 * 1024 * 1024)]: true division.  Between two
    [int]s the quotient is correctly rounded, and too large a quotient is
    an [OverflowError]; a [float] dividend is divided by [float(2^30)]. *)
Definition truediv_gib (size_bytes : pyval) : result float :=
  match num_of size_bytes with
  | Some (NInt n) =>
      match round_binary64 n (-30) with
      | S754_infinity _ =>
          Raise (Exn OverflowError "integer division result too large for a float")
      | sf => Ok (SF2Prim sf)
      end
  | Some (NFloat f) => Ok (PrimFloat.div f 1073741824)
  | None => Raise (Exn TypeError "unsupported operand type(s) for /")
  end.

Definition storage_rate : float := 0.005.
Definition egress_rate : float := 0.01.

(** The body of the loop of [cost_estimates] up to the copy: the two
    estimates of one item. *)
Definition cost_item (it : dict) : result (float * float) :=
  let size_bytes := get it "size" (VInt 0) in
  size_gb ← truediv_gib size_bytes;
  let storage := PrimFloat.mul size_gb storage_rate in
  let egress := PrimFloat.mul size_gb egress_rate in
  Ok (storage, egress).

(** [it_copy = dict(it)] with the two annotations set. *)
Definition annotate (it : dict) (storage egress : float) : dict :=
  let it_copy := it in
  let it_copy := <["est_storage" := VFloat storage]> it_copy in
  <["est_egress" := VFloat egress]> it_copy.

(** The loop of [cost_estimates] on the values of the items; the
    accumulators are [est], [total_storage] and [total_egress]. *)
Fixpoint cost_estimates_loop (items : list dict) (est : list dict)
    (total_storage total_egress : float)
  : result (list dict * float * float) :=
  match items with
  | [] => Ok (est, total_storage, total_egress)
  | it :: rest =>
      '(storage, egress) ← cost_item it;
      let total_storage := PrimFloat.add total_storage storage in
      let total_egress := PrimFloat.add total_egress egress in
      cost_estimates_loop rest (est ++ [annotate it storage egress])
        total_storage total_egress
  end.

Definition cost_estimates (items : list dict)
  : result (list dict * float * float) :=
  cost_estimates_loop items [] 0 0.

(** The annotations of a costed item, and the sum of a sequence of
    floats accumulated from [0.0] from left to right. *)
Definition est_storage (d : dict) : float :=
  match d !! "est_storage" with
  | Some (VFloat f) => f
  | _ => 0%float
  end.

Definition est_egress (d : dict) : float :=
  match d !! "est_egress" with
  | Some (VFloat f) => f
  | _ => 0%float
  end.

Definition fsum (l : list float) : float := fold_left PrimFloat.add l 0%float.

(** *** The same function on a store of objects

    [items] is a list of references to dictionaries that the caller
    shares; [dict(it)] allocates a new dictionary, and the two item
    assignments update that new object. *)
Definition loc := nat.
Abbreviation heap := (gmap loc dict).

Definition alloc (h : heap) (d : dict) : loc * heap :=
  let l := fresh (dom h) in (l, <[l := d]> h).

(** [obj[key] = v] on the object at [l]. *)
Definition setitem (h : heap) (l : loc) (key : string) (v : pyval) : heap :=
  match h !! l with
  | Some d => <[l := <[key := v]> d]> h
  | None => h
  end.

Fixpoint cost_estimates_heap_loop (items : list loc) (h : heap)
    (est : list loc) (total_storage total_egress : float)
  : heap * result (list loc * float * float) :=
  match items with
  | [] => (h, Ok (est, total_storage, total_egress))
  | l :: rest =>
      let it := default ∅ (h !! l) in
      match cost_item it with
      | Raise e => (h, Raise e)
      | Ok (storage, egress) =>
          let total_storage := PrimFloat.add total_storage storage in
          let total_egress := PrimFloat.add total_egress egress in
          let '(it_copy, h) := alloc h it in
          let h := setitem h it_copy "est_storage" (VFloat storage) in
          let h := setitem h it_copy "est_egress" (VFloat egress) in
          cost_estimates_heap_loop rest h (est ++ [it_copy])
            total_storage total_egress
      end
  end.

Definition cost_estimates_heap (items : list loc) (h : heap)
  : heap * result (list loc * float * float) :=
  cost_estimates_heap_loop items h [] 0 0.

(** ** Strings *)

(** [sub in s]. *)
Fixpoint contains (sub s : string) : bool :=
  String.prefix sub s
  || match s with
     | EmptyString => false
     | String _ s' => contains sub s'
     end.

(** [s.endswith(suffix)]. *)
Definition endswith (s suffix : string) : bool :=
  let n := String.length s in
  let k := String.length suffix in
  (k <=? n)%nat && String.eqb (String.substring (n - k) k s) suffix.

(** [s.partition(" ")] when a space occurs in [s]: what is before the
    first space and what is after it. *)
Fixpoint partition_space (s : string) : option (string * string) :=
  match s with
  | EmptyString => None
  | String c s' =>
      if Ascii.eqb c " " then Some (EmptyString, s')
      else match partition_space s' with
           | Some (a, b) => Some (String c a, b)
           | None => None
           end
  end.

(** [s.split(" ", maxsplit)]. *)
Fixpoint split_space (maxsplit : nat) (s : string) : list string :=
  match maxsplit with
  | O => [s]
  | S n =>
      match partition_space s with
      | Some (a, b) => a :: split_space n b
      | None => [s]
      end
  end.

(** Two decimal digits, zero padded. *)
Definition pad2 (n : Z) : string :=
  if n <? 10 then "0" +:+ digits n else digits n.

(** ** The local filesystem *)

(** What a path resolves to: a regular file or a directory, with the
    [st_size] and [st_mtime] of its [stat()]; [st_mtime] counts whole
    seconds since the epoch. *)
Inductive node :=
| File (st_size st_mtime : Z)
| Dir (st_size st_mtime : Z) (children : list (string * node)).

(** The paths the collectors are asked about, and what is there. *)
Abbreviation filesystem := (gmap string node).

(** A [pathlib.Path] produced by a glob: [f.name], [str(f)] and the
    node it denotes. *)
Record entry := Entry { e_name : string; e_path : string; e_node : node }.

Definition is_file (f : entry) : bool :=
  match e_node f with
  | File _ _ => true
  | Dir _ _ _ => false
  end.

Definition st_size (f : entry) : Z :=
  match e_node f with
  | File sz _ => sz
  | Dir sz _ _ => sz
  end.

Definition st_mtime (f : entry) : Z :=
  match e_node f with
  | File _ mt => mt
  | Dir _ mt _ => mt
  end.

Definition child_entry (base : string) (c : string * node) : entry :=
  Entry c.1 (base +:+ "/" +:+ c.1) c.2.

(** [p.glob("*.tar.gz")]: the children of a directory whose name ends
    in [.tar.gz]. *)
Definition glob_tar_gz (base : string) (n : node) : list entry :=
  match n with
  | File _ _ => []
  | Dir _ _ children =>
      filter (fun f => Is_true (endswith (e_name f) ".tar.gz"))
             (child_entry base <$> children)
  end.

(** [p.rglob("*")]: every descendant of a directory, the children of a
    directory before the contents of its subdirectories. *)
Fixpoint rglob (base : string) (n : node) : list entry :=
  match n with
  | File _ _ => []
  | Dir _ _ children =>
      (child_entry base <$> children)
      ++ flat_map (fun c => rglob (base +:+ "/" +:+ c.1) c.2) children
  end.

(** [sorted(l, key=key, reverse=True)] where [leb y x] compares the keys,
    [key(y) <= key(x)]: descending, and stable (elements of equal key keep
    their order). *)
Fixpoint insert_desc {A} (leb : A -> A -> bool) (x : A) (l : list A) : list A :=
  match l with
  | [] => [x]
  | y :: l' =>
      if leb y x then x :: y :: l' else y :: insert_desc leb x l'
  end.

Fixpoint sorted_desc {A} (leb : A -> A -> bool) (l : list A) : list A :=
  match l with
  | [] => []
  | x :: l' => insert_desc leb x (sorted_desc leb l')
  end.

(** [sorted(paths)] for paths of one directory: ascending by name. *)
Fixpoint insert_name (x : entry) (l : list entry) : list entry :=
  match l with
  | [] => [x]
  | y :: l' =>
      if String.leb (e_name x) (e_name y) then x :: y :: l'
      else y :: insert_name x l'
  end.

Fixpoint sorted_name (l : list entry) : list entry :=
  match l with
  | [] => []
  | x :: l' => insert_name x (sorted_name l')
  end.

(** [float(z)] for a whole number of seconds. *)
Definition float_of_Z (z : Z) : float := SF2Prim (round_binary64 z 0).

(** ** [list_local] *)

Record local_listing := LocalListing {
  ll_count : Z;
  ll_size : Z;
  ll_items : list dict
}.

(** The loop of [list_local]: [items] and [total] are its accumulators. *)
Fixpoint list_local_loop (files : list entry) (items : list dict) (total : Z)
  : list dict * Z :=
  match files with
  | [] => (items, total)
  | f :: rest =>
      let item : dict :=
        {[ "name" := VStr (e_name f);
           "size" := VInt (st_size f);
           "mtime" := VFloat (float_of_Z (st_mtime f)) ]} in
      list_local_loop rest (items ++ [item]) (total + st_size f)
  end.

Definition list_local (fs : filesystem) (path : string) : local_listing :=
  match fs !! path with
  | None => LocalListing 0 0 []
  | Some p =>
      let '(items, total) :=
        list_local_loop (sorted_name (glob_tar_gz path p)) [] 0 in
      LocalListing (Z.of_nat (length items)) total items
  end.

(** ** Calendar time *)

(** The civil date of a day count since 1970-01-01 (proleptic Gregorian
    calendar): year, month, day. *)
Definition civil_from_days (z : Z) : Z * Z * Z :=
  let z := z + 719468 in
  let era := z / 146097 in
  let doe := z - era * 146097 in
  let yoe := (doe - doe / 1460 + doe / 36524 - doe / 146096) / 365 in
  let doy := doe - (365 * yoe + yoe / 4 - yoe / 100) in
  let mp := (5 * doy + 2) / 153 in
  let d := doy - (153 * mp + 2) / 5 + 1 in
  let m := if mp <? 10 then mp + 3 else mp - 9 in
  let y := yoe + era * 400 + (if m <=? 2 then 1 else 0) in
  (y, m, d).

(** [time.strftime("%Y-%m-%d %H:%M:%S", time.gmtime(t))] for a time [t]
    of the current era (years 1970 to 9999). *)
Definition strftime_gmtime (t : Z) : string :=
  let '(y, m, d) := civil_from_days (t / 86400) in
  let s := t mod 86400 in
  digits y +:+ "-" +:+ pad2 m +:+ "-" +:+ pad2 d +:+ " "
  +:+ pad2 (s / 3600) +:+ ":" +:+ pad2 (s mod 3600 / 60) +:+ ":" +:+ pad2 (s mod 60).

(** ** [list_local_recursive] *)

(** The sort key of the inner loop: [x.stat().st_mtime if x.is_file() else 0]. *)
Definition mtime_key (x : entry) : Z :=
  if is_file x then st_mtime x else 0.

Definition mtime_leb (y x : entry) : bool := mtime_key y <=? mtime_key x.

(** The dictionary built inside the [try] for one file; [human_size] is
    the one call there that can raise. *)
Definition recursive_item (f : entry) : result dict :=
  size_h ← human_size (VInt (st_size f));
  Ok ({[ "name" := VStr (e_name f);
         "path" := VStr (e_path f);
         "size" := VInt (st_size f);
         "size_h" := VStr size_h;
         "time" := VStr (strftime_gmtime (st_mtime f)) ]} : dict).

(** The inner loop over the sorted entries of one root.  The flag is
    [true] when the loop left the function by [return items]. *)
Fixpoint scan_root (files : list entry) (items : list dict) (max_items : Z)
  : list dict * bool :=
  match files with
  | [] => (items, false)
  | f :: rest =>
      if negb (is_file f) then scan_root rest items max_items
      else
        match recursive_item f with
        | Ok item =>
            let items := items ++ [item] in
            if max_items <=? Z.of_nat (length items) then (items, true)
            else scan_root rest items max_items
        | Raise _ => scan_root rest items max_items
        end
  end.

(** The outer loop over the roots. *)
Fixpoint list_local_recursive_loop (fs : filesystem) (paths : list string)
    (items : list dict) (max_items : Z) : list dict :=
  match paths with
  | [] => items
  | base :: rest =>
      match fs !! base with
      | None => list_local_recursive_loop fs rest items max_items
      | Some p =>
          let '(items, returned) :=
            scan_root (sorted_desc mtime_leb (rglob base p)) items max_items in
          if returned then items
          else list_local_recursive_loop fs rest items max_items
      end
  end.

Definition list_local_recursive (fs : filesystem) (paths : list string)
    (max_items : Z) : list dict :=
  list_local_recursive_loop fs paths [] max_items.

(** ** Dynamic operations on Python values *)

Definition type_name (v : pyval) : string :=
  match v with
  | VNone => "NoneType"
  | VBool _ => "bool"
  | VInt _ => "int"
  | VFloat _ => "float"
  | VStr _ => "str"
  | VList _ => "list"
  | VDict _ => "dict"
  end.

Fixpoint chars (s : string) : list pyval :=
  match s with
  | EmptyString => []
  | String c s' => VStr (String c EmptyString) :: chars s'
  end.

(** [iter(v)]: the elements of a list, the keys of a dict, the
    characters of a string. *)
Definition py_iter (v : pyval) : result (list pyval) :=
  match v with
  | VList l => Ok l
  | VDict d => Ok (VStr <$> (map_to_list d).*1)
  | VStr s => Ok (chars s)
  | _ => Raise (Exn TypeError ("'" +:+ type_name v +:+ "' object is not iterable"))
  end.

(** [f.get(key, default)] on an arbitrary value: only a dict has [get]. *)
Definition py_get (f : pyval) (key : string) (default : pyval) : result pyval :=
  match f with
  | VDict d => Ok (get d key default)
  | _ =>
      Raise (Exn AttributeError
               ("'" +:+ type_name f +:+ "' object has no attribute 'get'"))
  end.

(** [a + b] with [a] a number, as [sum] accumulates it. *)
Definition py_add (a b : pyval) : result pyval :=
  match num_of a, num_of b with
  | Some (NInt x), Some (NInt y) => Ok (VInt (x + y))
  | Some x, Some y =>
      fx ← to_float x; fy ← to_float y; Ok (VFloat (PrimFloat.add fx fy))
  | _, _ =>
      Raise (Exn TypeError
               ("unsupported operand type(s) for +: '" +:+ type_name a
                +:+ "' and '" +:+ type_name b +:+ "'"))
  end.

(** [sum(f.get("Size", 0) for f in files)], from the accumulator [acc]. *)
Fixpoint sum_sizes (files : list pyval) (acc : pyval) : result pyval :=
  match files with
  | [] => Ok acc
  | f :: rest =>
      v ← py_get f "Size" (VInt 0);
      acc ← py_add acc v;
      sum_sizes rest acc
  end.

(** [l[:n]]. *)
Definition slice_to {A} (n : Z) (l : list A) : list A :=
  if 0 <=? n then take (Z.to_nat n) l
  else take (length l - Z.to_nat (- n)) l.

(** The order of two sort keys, [a <= b], when Python can compare them:
    two strings, or two integers.  Listings whose [ModTime] fields are
    floats or arrays are outside the model. *)
Definition key_leb (a b : pyval) : option bool :=
  match a, b with
  | VStr x, VStr y => Some (String.leb x y)
  | _, _ =>
      match num_of a, num_of b with
      | Some (NInt x), Some (NInt y) => Some (x <=? y)
      | _, _ => None
      end
  end.

Definition comparable (keys : list pyval) : bool :=
  forallb (fun a => forallb (fun b => bool_decide (is_Some (key_leb a b))) keys) keys.

(** [sorted(files, key=lambda f: f.get("ModTime", ""), reverse=True)]:
    the keys are computed first; comparing them raises [TypeError] when
    two of them have no order. *)
Definition sorted_by_modtime (files : list pyval) : result (list pyval) :=
  keyed ← mapM (fun f => k ← py_get f "ModTime" (VStr ""); Ok (f, k)) files;
  if (length keyed <=? 1)%nat then Ok files
  else if comparable keyed.*2 then
    Ok (sorted_desc (fun y x => default false (key_leb y.2 x.2)) keyed).*1
  else Raise (Exn TypeError "'<' not supported between instances of these types").

(** ** The remote collectors *)

(** What [run_cmd] returns: the exit code, and the stripped standard
    output and standard error of the command. *)
Record cmd_result := CmdResult { code : Z; out : string; err : string }.

(** [a or b] on strings: the empty string is false. *)
Definition or_str (a b : string) : string :=
  if String.eqb a "" then b else a.

Record remote_stats := RemoteStats {
  rs_count : Z;
  rs_size : pyval;
  rs_error : option string
}.

Record remote_listing := RemoteListing {
  rl_error : option string;
  rl_items : list dict;
  rl_total : option pyval
}.

(** The dictionary [b2_list] builds for one listed file. *)
Definition b2_item (f : pyval) : result dict :=
  name ← py_get f "Name" VNone;
  size ← py_get f "Size" (VInt 0);
  size' ← py_get f "Size" (VInt 0);
  size_h ← human_size size';
  time ← py_get f "ModTime" (VStr "");
  Ok ({[ "name" := name;
         "size" := size;
         "size_h" := VStr size_h;
         "time" := time ]} : dict).

Section Remote.

(** [json.loads], Python's JSON decoder: the value a text decodes to,
    or the exception it raises. *)
Variable json_loads : string -> result pyval.

(** [b2_stats(remote, bucket, prefix)], given the outcome [r] of its
    [rclone lsjson] command. *)
Definition b2_stats (r : cmd_result) : result remote_stats :=
  if negb (code r =? 0) then
    Ok (RemoteStats 0 (VInt 0) (Some (or_str (err r) (out r))))
  else
    try_except
      (files ← json_loads (out r);
       elems ← py_iter files;
       total ← sum_sizes elems (VInt 0);
       Ok (RemoteStats (Z.of_nat (length elems)) total None))
      (fun exc => Ok (RemoteStats 0 (VInt 0) (Some (exn_str exc)))).

(** [b2_list(remote, bucket, prefix, max_items)], given the outcome [r]
    of its [rclone lsjson] command. *)
Definition b2_list (r : cmd_result) (max_items : Z) : result remote_listing :=
  if negb (code r =? 0) then
    Ok (RemoteListing (Some (or_str (err r) (out r))) [] None)
  else
    try_except
      (files ← json_loads (out r);
       elems ← py_iter files;
       sorted ← sorted_by_modtime elems;
       let files_sorted := slice_to max_items sorted in
       items ← mapM b2_item files_sorted;
       total ← sum_sizes elems (VInt 0);
       Ok (RemoteListing None items (Some total)))
      (fun exc => Ok (RemoteListing (Some (exn_str exc)) [] None)).

End Remote.

(** ** The reconciliation view: [api_backups] *)

(** One remote tier of the view: [{**b2c, "items": ..., "total_storage":
    ..., "total_egress": ...}]. *)
Record remote_view := RemoteView {
  rv_error : option string;
  rv_total : option pyval;
  rv_items : list dict;
  rv_total_storage : float;
  rv_total_egress : float
}.

(** One local tier of the view. *)
Record local_view := LocalView {
  lv_count : Z;
  lv_size : Z;
  lv_items : list dict;
  lv_total_storage : float;
  lv_total_egress : float
}.

Record dump_view := DumpView {
  dv_items : list dict;
  dv_total_storage : float;
  dv_total_egress : float
}.

Record backups_view := BackupsView {
  b2_configs : remote_view;
  b2_vms : remote_view;
  local_configs : local_view;
  local_vms : local_view;
  local_vms_dump : dump_view
}.

(** [cfg_paths.get(key, default)]. *)
Definition cfg_get (cfg : gmap string string) (key default : string) : string :=
  match cfg !! key with
  | Some v => v
  | None => default
  end.

(** [api_backups()], before [flask.jsonify]: [cfg_paths] is the ["paths"]
    section of the configuration, [fs] the local filesystem, [rc] and
    [rv] the outcomes of the two remote listing commands (configuration
    backups and VM backups). *)
Definition api_backups (json_loads : string -> result pyval)
    (cfg_paths : gmap string string) (fs : filesystem) (rc rv : cmd_result)
  : result backups_view :=
  b2c ← b2_list json_loads rc 200;
  b2v ← b2_list json_loads rv 200;
  '(b2c_costed, b2c_storage, b2c_egress) ← cost_estimates (rl_items b2c);
  '(b2v_costed, b2v_storage, b2v_egress) ← cost_estimates (rl_items b2v);
  let local_c :=
    list_local fs (cfg_get cfg_paths "local_configs" "/var/backups/proxmox-b2/configs") in
  let local_v :=
    list_local fs (cfg_get cfg_paths "local_vms" "/var/backups/proxmox-b2/vms") in
  let local_v_dump :=
    list_local_recursive fs ["/var/lib/vz/dump"; "/mnt/thinner/backups"] 400 in
  '(lc_costed, lc_storage, lc_egress) ← cost_estimates (ll_items local_c);
  '(lv_costed, lv_storage, lv_egress) ← cost_estimates (ll_items local_v);
  '(lvd_costed, lvd_storage, lvd_egress) ← cost_estimates local_v_dump;
  Ok {| b2_configs :=
          RemoteView (rl_error b2c) (rl_total b2c) b2c_costed b2c_storage b2c_egress;
        b2_vms :=
          RemoteView (rl_error b2v) (rl_total b2v) b2v_costed b2v_storage b2v_egress;
        local_configs :=
          LocalView (ll_count local_c) (ll_size local_c) lc_costed lc_storage lc_egress;
        local_vms :=
          LocalView (ll_count local_v) (ll_size local_v) lv_costed lv_storage lv_egress;
        local_vms_dump := DumpView lvd_costed lvd_storage lvd_egress |}.

(** ** [datetime] *)

(** Days from 1970-01-01 to a civil date (proleptic Gregorian calendar). *)
Definition days_from_civil (y m d : Z) : Z :=
  let y := if m <=? 2 then y - 1 else y in
  let era := y / 400 in
  let yoe := y - era * 400 in
  let doy := (153 * (if 2 <? m then m - 3 else m + 9) + 2) / 5 + d - 1 in
  let doe := yoe * 365 + yoe / 4 - yoe / 100 + doy in
  era * 146097 + doe - 719468.

Definition is_leap (y : Z) : bool :=
  (y mod 4 =? 0) && (negb (y mod 100 =? 0) || (y mod 400 =? 0)).

Definition days_in_month (y m : Z) : Z :=
  if m =? 2 then (if is_leap y then 29 else 28)
  else if (m =? 4) || (m =? 6) || (m =? 9) || (m =? 11) then 30
  else 31.

(** A [datetime]: the microseconds from 0001-01-01T00:00:00 to its
    wall-clock fields, and its UTC offset in microseconds when it is
    aware. *)
Record datetime := Datetime { wall_us : Z; utcoffset : option Z }.

Definition digit_val (c : ascii) : option Z :=
  let n := Z.of_nat (nat_of_ascii c) in
  if (48 <=? n) && (n <=? 57) then Some (n - 48) else None.

(** Exactly [k] decimal digits at the head of [s]: their value (after
    the digits [acc] already read) and the rest of [s]. *)
Fixpoint read_digits (k : nat) (acc : Z) (s : string) : option (Z * string) :=
  match k with
  | O => Some (acc, s)
  | S k' =>
      match s with
      | EmptyString => None
      | String c s' =>
          match digit_val c with
          | Some d => read_digits k' (acc * 10 + d) s'
          | None => None
          end
      end
  end.

Definition expect (c : ascii) (s : string) : option string :=
  match s with
  | String c' s' => if Ascii.eqb c c' then Some s' else None
  | EmptyString => None
  end.

(** [HH[:MM[:SS[.fff[fff]]]]] covering the whole of [s]: microseconds
    since midnight. *)
Definition parse_hh_mm_ss_ff (s : string) : option Z :=
  '(hh, s) ← read_digits 2 0 s;
  '(mm, s) ← (if String.eqb s "" then Some (0, s)
              else s ← expect ":" s; read_digits 2 0 s);
  '(ss, s) ← (if String.eqb s "" then Some (0, s)
              else s ← expect ":" s; read_digits 2 0 s);
  us ← (if String.eqb s "" then Some 0
        else s ← expect "." s;
             if (String.length s =? 3)%nat then
               '(ms, _) ← read_digits 3 0 s; Some (ms * 1000)
             else if (String.length s =? 6)%nat then
               '(us, _) ← read_digits 6 0 s; Some us
             else None);
  if (hh <? 24) && (mm <? 60) && (ss <? 60)
  then Some (((hh * 60 + mm) * 60 + ss) * 1000000 + us)
  else None.

(** The position of the first [+] or [-] of a time string: what is
    before it, and the sign and text of the offset after it. *)
Fixpoint split_offset (s : string) : string * option (bool * string) :=
  match s with
  | EmptyString => (EmptyString, None)
  | String c s' =>
      if Ascii.eqb c "+" then (EmptyString, Some (false, s'))
      else if Ascii.eqb c "-" then (EmptyString, Some (true, s'))
      else let '(t, o) := split_offset s' in (String c t, o)
  end.

Section Journal.

(** [datetime.fromisoformat] of the installed library on a text outside
    the format below: which further ISO 8601 forms it reads (offsets
    written [+HHMM], a final [Z], dates without dashes, fractions of other
    lengths) depends on the version of the library, so the development is
    parametric in it. *)
Variable other_isoformat : string -> result datetime.

(** [datetime.fromisoformat(s)].  A text of the format
    [YYYY-MM-DD[*HH[:MM[:SS[.fff[fff]]]][+HH:MM[:SS]]]], which every
    version of the library reads and reads alike, is parsed here; any
    other text is left to [other_isoformat]. *)
Definition fromisoformat (s : string) : result datetime :=
  let parsed : option datetime :=
    '(y, r) ← read_digits 4 0 s;
    r ← expect "-" r;
    '(m, r) ← read_digits 2 0 r;
    r ← expect "-" r;
    '(d, r) ← read_digits 2 0 r;
    if (1 <=? y) && (1 <=? m) && (m <=? 12) && (1 <=? d) && (d <=? days_in_month y m)
    then
      let day_us := (days_from_civil y m d - days_from_civil 1 1 1) * 86400000000 in
      match r with
      | EmptyString => Some (Datetime day_us None)
      | String _ tstr =>
          let '(timestr, off) := split_offset tstr in
          t ← parse_hh_mm_ss_ff timestr;
          match off with
          | None => Some (Datetime (day_us + t) None)
          | Some (neg, tzstr) =>
              if (String.length tzstr =? 5)%nat || (String.length tzstr =? 8)%nat then
                o ← parse_hh_mm_ss_ff tzstr;
                Some (Datetime (day_us + t) (Some (if neg then - o else o)))
              else None
          end
      end
    else None in
  match parsed with
  | Some dt => Ok dt
  | None => other_isoformat s
  end.

(** [t_end - t_start]: the [timedelta], in microseconds. *)
Definition datetime_sub (t_end t_start : datetime) : result Z :=
  match utcoffset t_end, utcoffset t_start with
  | None, None => Ok (wall_us t_end - wall_us t_start)
  | Some oe, Some os => Ok ((wall_us t_end - oe) - (wall_us t_start - os))
  | _, _ =>
      Raise (Exn TypeError "can't subtract offset-naive and offset-aware datetimes")
  end.

Definition exact_sf (n : Z) : spec_float :=
  match n with
  | Z0 => S754_zero false
  | Zpos p => S754_finite false p 0
  | Zneg p => S754_finite true p 0
  end.

(** [timedelta.total_seconds()]: the true division of the microseconds
    by [10**6], correctly rounded. *)
Definition total_seconds (us : Z) : float :=
  SF2Prim (SFdiv prec emax (exact_sf us) (exact_sf 1000000)).

(** ** [recent_runs] *)

(** The line boundaries of [str.splitlines]. *)
Definition is_linebreak (c : ascii) : bool :=
  let n := nat_of_ascii c in
  bool_decide (n ∈ [10; 11; 12; 13; 28; 29; 30; 133]%nat).

(** [s.splitlines()]; a carriage return followed by a line feed is one
    boundary. *)
Fixpoint splitlines (s : string) : list string :=
  match s with
  | EmptyString => []
  | String c s' =>
      if is_linebreak c then
        match s' with
        | String c' s'' =>
            if Ascii.eqb c "013" && Ascii.eqb c' "010"
            then EmptyString :: splitlines s''
            else EmptyString :: splitlines s'
        | EmptyString => [EmptyString]
        end
      else
        match splitlines s' with
        | [] => [String c EmptyString]
        | l :: ls => String c l :: ls
        end
  end.

Inductive note := NStart | NDone | NFail.

(** One classified line: [{"time": ts, "note": ..., "line": line}]. *)
Record log_entry := LogEntry {
  le_time : string;
  le_note : note;
  le_line : string
}.

(** One reconstructed run. *)
Record run := Run {
  run_time : string;
  run_status : string;
  run_duration : string;
  run_note : string
}.

(** [ts, msg = line.split(" ", 1)]: unpacking one element into two names
    is a [ValueError]. *)
Definition split_ts_msg (line : string) : result (string * string) :=
  match split_space 1 line with
  | [ts; msg] => Ok (ts, msg)
  | _ => Raise (Exn ValueError "not enough values to unpack (expected 2, got 1)")
  end.

(** The classification of one line: the entry to append, if any. *)
Definition classify (line : string) : result (option log_entry) :=
  if contains "Starting" line then
    '(ts, msg) ← split_ts_msg line; Ok (Some (LogEntry ts NStart line))
  else if contains "Done." line || contains "Deactivated successfully" line then
    '(ts, msg) ← split_ts_msg line; Ok (Some (LogEntry ts NDone line))
  else if contains "Failed to start" line || contains "exit-code" line then
    '(ts, msg) ← split_ts_msg line; Ok (Some (LogEntry ts NFail line))
  else Ok None.

(** The first loop of [recent_runs], over the reversed lines. *)
Fixpoint parse_entries (lines : list string) (entries : list log_entry)
  : result (list log_entry) :=
  match lines with
  | [] => Ok entries
  | line :: rest =>
      e ← classify line;
      parse_entries rest (match e with
                          | Some e => entries ++ [e]
                          | None => entries
                          end)
  end.

(** The [try] block that computes the duration, and its [except]. *)
Definition duration_of (start e : log_entry) : string :=
  match try_except
          (t_start ← fromisoformat (le_time start);
           t_end ← fromisoformat (le_time e);
           dur ← datetime_sub t_end t_start;
           Ok (format_float_1f (total_seconds dur) +:+ "s"))
          (fun _ => Ok "n/a")
  with
  | Ok duration => duration
  | Raise _ => "n/a"
  end.

(** [e["line"].split(" ", 2)[-1][:80]]. *)
Definition note_of (line : string) : string :=
  String.substring 0 80 (List.last (split_space 2 line) EmptyString).

Definition pair_run (start e : log_entry) : run :=
  let duration := duration_of start e in
  let status := match le_note e with
                | NDone => "ok"
                | _ => "fail"
                end in
  Run (le_time start) status duration (note_of (le_line e)).

(** The second loop of [recent_runs]: [start] is the pending start and
    [runs] the runs emitted so far. *)
Fixpoint pair_entries (entries : list log_entry) (start : option log_entry)
    (runs : list run) (max_items : Z) : list run :=
  match entries with
  | [] => runs
  | e :: rest =>
      let '(start, runs) :=
        match le_note e, start with
        | NStart, _ => (Some e, runs)
        | _, Some s => (None, runs ++ [pair_run s e])
        | _, None => (start, runs)
        end in
      if max_items <=? Z.of_nat (length runs) then runs
      else pair_entries rest start runs max_items
  end.

(** [recent_runs(unit, max_items)], given the outcome [r] of its
    [journalctl] command. *)
Definition recent_runs (r : cmd_result) (max_items : Z) : result (list run) :=
  if negb (code r =? 0) then Ok []
  else
    entries ← parse_entries (rev (splitlines (out r))) [];
    Ok (pair_entries entries None [] max_items).

End Journal.

(** ** Reading the listings *)

(** The entries of a sorted root that [list_local_recursive] turns into
    items: the regular files whose item can be built. *)
Definition listable (f : entry) : bool :=
  is_file f && match recursive_item f with
               | Ok _ => true
               | Raise _ => false
               end.

Definition item_of (f : entry) : dict :=
  match recursive_item f with
  | Ok item => item
  | Raise _ => ∅
  end.

(** What one root contributes, in the order of the inner loop. *)
Definition root_files (fs : filesystem) (base : string) : list entry :=
  match fs !! base with
  | None => []
  | Some p =>
      filter (fun f => Is_true (listable f)) (sorted_desc mtime_leb (rglob base p))
  end.

(** The ["time"] of an item, and what "newest-modified-first across the
    whole result" says of a list of items: a later item never has a later
    time (the texts ["%Y-%m-%d %H:%M:%S"] compare as the times do). *)
Definition item_time (d : dict) : string :=
  match d !! "time" with
  | Some (VStr s) => s
  | _ => EmptyString
  end.

Definition newest_first (items : list dict) : Prop :=
  forall (i j : nat) (a b : dict),
    (i < j)%nat -> items !! i = Some a -> items !! j = Some b ->
    String.leb (item_time b) (item_time a) = true.

(** ** Sample inputs *)

(** Two dump directories: the first holds one archive of 2024-01-01, the
    second a newer one of 2024-01-02. *)
Definition two_roots : filesystem :=
  {[ "/var/lib/vz/dump" :=
       Dir 4096 1704067200 [("vzdump-qemu-100.vma.zst", File 1073741824 1704067200)];
     "/mnt/thinner/backups" :=
       Dir 4096 1704153600 [("vzdump-qemu-101.vma.zst", File 2147483648 1704153600)] ]}.

(** The directory of the configuration archives: three archives, of
    2024-01-01, 2024-01-03 and 2024-01-02 in the order of the directory,
    and a file that is not an archive. *)
Definition config_archives : filesystem :=
  {[ "/var/backups/proxmox-b2/configs" :=
       Dir 4096 1704240000
         [("pve-config-20240101.tar.gz", File 2048 1704067200);
          ("pve-config-20240103.tar.gz", File 4096 1704240000);
          ("notes.txt", File 10 1704250000);
          ("pve-config-20240102.tar.gz", File 3072 1704153600)] ]}.

(** The tiers of the view, each from its own source. *)
Definition remote_tier (json_loads : string -> result pyval) (r : cmd_result)
  : result remote_view :=
  b2 ← b2_list json_loads r 200;
  '(costed, storage, egress) ← cost_estimates (rl_items b2);
  Ok (RemoteView (rl_error b2) (rl_total b2) costed storage egress).

Definition local_tier (fs : filesystem) (path : string) : result local_view :=
  let l := list_local fs path in
  '(costed, storage, egress) ← cost_estimates (ll_items l);
  Ok (LocalView (ll_count l) (ll_size l) costed storage egress).

Definition dump_tier (fs : filesystem) : result dump_view :=
  '(costed, storage, egress) ←
    cost_estimates
      (list_local_recursive fs ["/var/lib/vz/dump"; "/mnt/thinner/backups"] 400);
  Ok (DumpView costed storage egress).

(** A line feed, and a double quote. *)
Definition nl : string := String "010" EmptyString.
Definition dq : string := String (ascii_of_nat 34) EmptyString.

(** A listing of one remote file, as [rclone lsjson] prints it, and a
    decoder that knows this one text. *)
Definition one_file_text : string :=
  "[{" +:+ dq +:+ "Name" +:+ dq +:+ ":" +:+ dq +:+ "pve-config.tar.gz" +:+ dq
  +:+ "," +:+ dq +:+ "Size" +:+ dq +:+ ":1073741824,"
  +:+ dq +:+ "ModTime" +:+ dq +:+ ":" +:+ dq +:+ "2024-01-01T00:00:00Z" +:+ dq +:+ "}]".

Definition one_file_value : pyval :=
  VList [VDict {[ "Name" := VStr "pve-config.tar.gz";
                  "Size" := VInt 1073741824;
                  "ModTime" := VStr "2024-01-01T00:00:00Z" ]}].

Definition sample_json_loads (s : string) : result pyval :=
  if String.eqb s one_file_text then Ok one_file_value
  else Raise (Exn JSONDecodeError "Expecting value: line 1 column 1 (char 0)").

(** A library that reads no other form than the common one. *)
Definition no_other_form (s : string) : result datetime :=
  Raise (Exn ValueError ("Invalid isoformat string: '" +:+ s +:+ "'")).

(** Journal lines. *)
Definition line_start_00 : string := "2024-01-01T00:00:00 Starting unit".
Definition line_done_05 : string := "2024-01-01T00:00:05 Done.".
Definition line_done_00 : string := "2024-01-01T00:00:00 Done.".
Definition line_start_05 : string := "2024-01-01T00:00:05 Starting unit".

(** ** Text helpers of the dashboard *)

(** [s[:n]] on a string. *)
Definition str_slice_to (n : Z) (s : string) : string :=
  if 0 <=? n then String.substring 0 (Z.to_nat n) s
  else String.substring 0 (String.length s - Z.to_nat (- n)) s.

Definition truncated_mark : string := nl +:+ "...[truncated]...".

(** [truncate(text, limit)]; [None] is Python's [None]. *)
Definition truncate (text : option string) (limit : Z) : string :=
  match text with
  | None => EmptyString
  | Some text =>
      if Z.of_nat (String.length text) <=? limit then text
      else str_slice_to limit text +:+ truncated_mark
  end.

(** [journal_tail(unit, lines)] and [timer_status(unit)], given the
    outcome of their command: the error text when the command fails. *)
Definition journal_tail (r : cmd_result) : string :=
  if negb (code r =? 0) then or_str (err r) (out r) else out r.

Definition timer_status (r : cmd_result) : string :=
  if negb (code r =? 0) then or_str (err r) (out r) else out r.

(** ** [timer_info] *)

(** [s.partition(c)] when [c] occurs in [s]. *)
Fixpoint partition_char (c : ascii) (s : string) : option (string * string) :=
  match s with
  | EmptyString => None
  | String c' s' =>
      if Ascii.eqb c' c then Some (EmptyString, s')
      else match partition_char c s' with
           | Some (a, b) => Some (String c' a, b)
           | None => None
           end
  end.

Record timer := Timer { t_next : string; t_last : string; t_unit : string }.

(** One turn of the loop over the lines of [systemctl show]: [data] is
    the dictionary filled so far.  A line without [=] is skipped. *)
Definition timer_line (timer_name : string) (data : gmap string string)
    (line : string) : gmap string string :=
  match partition_char "=" line with
  | None => data
  | Some (k, v) =>
      if String.eqb k "NextElapseUSecRealtime" then <["next" := or_str v "n/a"]> data
      else if String.eqb k "LastTriggerUSecRealtime" then <["last" := or_str v "n/a"]> data
      else if String.eqb k "Unit" then <["unit" := or_str v timer_name]> data
      else data
  end.

(** [timer_info(timer_name)], given the outcome [r] of [systemctl show]. *)
Definition timer_info (timer_name : string) (r : cmd_result) : timer :=
  if negb (code r =? 0) then Timer "n/a" "n/a" timer_name
  else
    let data := fold_left (timer_line timer_name) (splitlines (out r)) ∅ in
    Timer (default "n/a" (data !! "next"))
          (default "n/a" (data !! "last"))
          (default timer_name (data !! "unit")).

(** ** [recent_archives] *)

Definition st_mtime_leb (y x : entry) : bool := st_mtime y <=? st_mtime x.

(** The dictionary built for one archive. *)
Definition archive_item (f : entry) : result dict :=
  size_h ← human_size (VInt (st_size f));
  Ok ({[ "name" := VStr (e_name f);
         "time" := VStr (strftime_gmtime (st_mtime f));
         "size_h" := VStr size_h ]} : dict).

(** The files [recent_archives] shows: the archives of the directory,
    newest first, cut to [max_items]. *)
Definition recent_archive_files (fs : filesystem) (path : string)
    (max_items : Z) : list entry :=
  match fs !! path with
  | None => []
  | Some p => slice_to max_items (sorted_desc st_mtime_leb (glob_tar_gz path p))
  end.

Definition recent_archives (fs : filesystem) (path : string) (max_items : Z)
  : result (list dict) :=
  match fs !! path with
  | None => Ok []
  | Some p =>
      let files :=
        slice_to max_items (sorted_desc st_mtime_leb (glob_tar_gz path p)) in
      mapM archive_item files
  end.

(** ** The run panels of [dashboard] *)

(** [[r for r in runs if r.get("status") == "ok"][:6]]. *)
Definition ok_runs (runs : list run) : list run :=
  take 6 (filter (fun ru => run_status ru = "ok") runs).

(** [runs_cfg] (and [runs_vms]) of [dashboard], given the outcome of the
    unit's [journalctl] command. *)
Definition dashboard_runs (other_isoformat : string -> result datetime)
    (r : cmd_result) : result (list run) :=
  runs_all ← recent_runs other_isoformat r 12;
  Ok (ok_runs runs_all).

(** [logs["configs"]] (and [logs["vms"]]) of [dashboard]. *)
Definition dashboard_log (r : cmd_result) : string :=
  truncate (Some (journal_tail r)) 3000.

(** ** The disk sizes of virtual machines and containers *)

Definition is_digit (c : ascii) : bool :=
  let n := nat_of_ascii c in (48 <=? n)%nat && (n <=? 57)%nat.

(** The character class [[0-9.]]. *)
Definition is_numchar (c : ascii) : bool := is_digit c || Ascii.eqb c ".".

(** The longest head of [s] in [[0-9.]], and what follows it. *)
Fixpoint span_num (s : string) : string * string :=
  match s with
  | EmptyString => (EmptyString, EmptyString)
  | String c s' =>
      if is_numchar c then let '(a, b) := span_num s' in (String c a, b)
      else (EmptyString, s)
  end.

Definition is_unit (c : ascii) : bool :=
  Ascii.eqb c "G" || Ascii.eqb c "T" || Ascii.eqb c "M".

(** [([0-9.]+)([GTM])] at the head of [t].  The class and the unit
    letters are disjoint, so only the longest run of the class can be
    followed by a unit. *)
Definition match_number_unit (t : string) : option (string * ascii) :=
  match span_num t with
  | (EmptyString, _) => None
  | (num, String u _) => if is_unit u then Some (num, u) else None
  | (_, EmptyString) => None
  end.

(** [re.search(r"size=([0-9.]+)([GTM])", text)]: the groups of the
    leftmost match. *)
Fixpoint search_size (text : string) : option (string * ascii) :=
  match text with
  | EmptyString => None
  | String c text' =>
      match (if String.prefix "size=" text
             then match_number_unit (String.substring 5 (String.length text) text)
             else None) with
      | Some m => Some m
      | None => search_size text'
      end
  end.

(** The integer written by a string of decimal digits. *)
Fixpoint int_of_digits (acc : Z) (s : string) : Z :=
  match s with
  | EmptyString => acc
  | String c s' => int_of_digits (acc * 10 + (Z.of_nat (nat_of_ascii c) - 48)) s'
  end.

(** [float(s)] for a text [s] of the class [[0-9.]]: the decimal it
    writes, correctly rounded; a text with no digit or with two points is
    a [ValueError]. *)
Definition float_of_decimal (s : string) : result float :=
  let bad := Raise (Exn ValueError ("could not convert string to float: '" +:+ s +:+ "'")) in
  match partition_char "." s with
  | None =>
      if String.eqb s "" then bad
      else Ok (SF2Prim (SFdiv prec emax (exact_sf (int_of_digits 0 s)) (exact_sf 1)))
  | Some (a, b) =>
      if contains "." b || (String.eqb a "" && String.eqb b "") then bad
      else Ok (SF2Prim (SFdiv prec emax (exact_sf (int_of_digits 0 (a +:+ b)))
                          (exact_sf (10 ^ Z.of_nat (String.length b)))))
  end.

(** [parse_size_gb(text)]. *)
Definition parse_size_gb (text : string) : result float :=
  match search_size text with
  | None => Ok 0%float
  | Some (num, unit) =>
      val ← float_of_decimal num;
      if Ascii.eqb unit "T" then Ok (PrimFloat.mul val 1024)
      else if Ascii.eqb unit "M" then Ok (PrimFloat.div val 1024)
      else Ok val
  end.

(** The loop of [vm_disk_size] and of [ct_disk_size]. *)
Fixpoint disk_size_loop (lines : list string) (size : float) : result float :=
  match lines with
  | [] => Ok size
  | ln :: rest =>
      if contains "size=" ln then
        s ← parse_size_gb ln; disk_size_loop rest (PrimFloat.add size s)
      else disk_size_loop rest size
  end.

(** [vm_disk_size(vmid)], given the outcome of [qm config vmid]. *)
Definition vm_disk_size (r : cmd_result) : result float :=
  if negb (code r =? 0) then Ok 0%float
  else disk_size_loop (splitlines (out r)) 0.

(** [ct_disk_size(vmid)], given the outcome of [pct config vmid]. *)
Definition ct_disk_size (r : cmd_result) : result float :=
  if negb (code r =? 0) then Ok 0%float
  else disk_size_loop (splitlines (out r)) 0.

(** The white space of [str.split()]. *)
Definition is_whitespace (c : ascii) : bool :=
  let n := nat_of_ascii c in
  ((9 <=? n)%nat && (n <=? 13)%nat) || ((28 <=? n)%nat && (n <=? 32)%nat)
  || (n =? 133)%nat || (n =? 160)%nat.

(** [s.split()]: the maximal runs of characters that are not white
    space; [cur] is the run being read. *)
Fixpoint split_whitespace_go (cur : string) (s : string) : list string :=
  match s with
  | EmptyString => if String.eqb cur "" then [] else [cur]
  | String c s' =>
      if is_whitespace c then
        (if String.eqb cur "" then [] else [cur]) ++ split_whitespace_go "" s'
      else split_whitespace_go (cur +:+ String c "") s'
  end.

Definition split_whitespace (s : string) : list string :=
  split_whitespace_go "" s.

Definition STORAGE_RATE : float := 0.005.

(** The dictionary of one machine. *)
Definition vm_row (vid name status type : string) (sz : float) : dict :=
  {[ "id" := VStr vid;
     "name" := VStr name;
     "status" := VStr status;
     "type" := VStr type;
     "size_gb" := VFloat sz;
     "est_storage" := VFloat (PrimFloat.mul sz STORAGE_RATE) ]}.

Section Hypervisor.

(** The outcomes of [qm config vmid] and of [pct config vmid]. *)
Variable qm_config : string -> cmd_result.
Variable pct_config : string -> cmd_result.

(** The loop over the lines of [qm list], inside its [try]: an exception
    ends the loop and keeps what was appended. *)
Fixpoint qm_rows (lines : list string) (vms : list dict) : list dict :=
  match lines with
  | [] => vms
  | ln :: rest =>
      match split_whitespace ln with
      | vid :: name :: status :: _ =>
          match vm_disk_size (qm_config vid) with
          | Ok sz => qm_rows rest (vms ++ [vm_row vid name status "qemu" sz])
          | Raise _ => vms
          end
      | _ => qm_rows rest vms
      end
  end.

(** The loop over the lines of [pct list]: the status is the second
    field and the name the third. *)
Fixpoint pct_rows (lines : list string) (vms : list dict) : list dict :=
  match lines with
  | [] => vms
  | ln :: rest =>
      match split_whitespace ln with
      | vid :: status :: name :: _ =>
          match ct_disk_size (pct_config vid) with
          | Ok sz => pct_rows rest (vms ++ [vm_row vid name status "lxc" sz])
          | Raise _ => vms
          end
      | _ => pct_rows rest vms
      end
  end.

(** [list_vms_and_cts()], given the outcomes of [qm list] and of
    [pct list]. *)
Definition list_vms_and_cts (qm_list pct_list : cmd_result) : list dict :=
  let vms := [] in
  let vms :=
    if code qm_list =? 0 then qm_rows (drop 1 (splitlines (out qm_list))) vms
    else vms in
  if code pct_list =? 0 then pct_rows (drop 1 (splitlines (out pct_list))) vms
  else vms.

End Hypervisor.

(** ** Authentication *)

(** The truth value of a Python value. *)
Definition truthy (v : pyval) : bool :=
  match v with
  | VNone => false
  | VBool b => b
  | VInt n => negb (n =? 0)
  | VFloat f => negb (PrimFloat.eqb f 0)
  | VStr s => negb (String.eqb s "")
  | VList l => negb (bool_decide (l = []))
  | VDict d => negb (bool_decide (dom d = ∅))
  end.

(** [text == v] for a string [text]: only an equal string is equal. *)
Definition str_eq (text : string) (v : pyval) : bool :=
  match v with
  | VStr s => String.eqb text s
  | _ => false
  end.

Section Auth.

(** [base64.b64decode(payload).decode("utf-8")], of Python's library:
    the decoded text, or the exception raised. *)
Variable b64decode_utf8 : string -> result string.

(** [basic_auth()]: [auth] is the ["auth"] section of the configuration
    (empty when absent), [header] the [Authorization] header of the
    request when it has one.  The results are [None], [False], [True]. *)
Definition basic_auth (auth : dict) (header : option string) : option bool :=
  if negb (truthy (get auth "basic_enabled" VNone)) then None
  else
    let username := get auth "username" (VStr "") in
    let password := get auth "password" (VStr "") in
    let auth_header := default "" header in
    if negb (String.prefix "Basic " auth_header) then Some false
    else
      match try_except
              (decoded ← b64decode_utf8
                           (List.nth 1 (split_space 1 auth_header) EmptyString);
               match partition_char ":" decoded with
               | Some (user, pwd) => Ok (str_eq user username && str_eq pwd password)
               | None =>
                   Raise (Exn ValueError
                            "not enough values to unpack (expected 2, got 1)")
               end)
              (fun _ => Ok false)
      with
      | Ok b => Some b
      | Raise _ => Some false
      end.

(** [enforce_auth()]: the status of the response that stops the request,
    or [None] when the request goes on to its handler. *)
Definition enforce_auth (auth : dict) (header : option string) : option Z :=
  match basic_auth auth header with
  | None => None
  | Some ok => if negb ok then Some 401 else None
  end.

End Auth.

(** ** The targets of the remote commands *)

(** [s.rstrip("/")]. *)
Fixpoint rstrip_slash (s : string) : string :=
  match s with
  | EmptyString => EmptyString
  | String c s' =>
      match rstrip_slash s' with
      | EmptyString => if Ascii.eqb c "/" then EmptyString else String c EmptyString
      | r => String c r
      end
  end.

Definition rclone_conf : string := "/root/.config/rclone/rclone.conf".

(** The listing target of [api_backups] for the VM backups: the target
    [b2_list] builds from [prefix_vms]. *)
Definition b2_vms_list_target (b2_cfg : gmap string string) : string :=
  rstrip_slash (cfg_get b2_cfg "remote" "proxmox-b2" +:+ ":"
                +:+ cfg_get b2_cfg "bucket" "" +:+ "/"
                +:+ cfg_get b2_cfg "prefix_vms" "proxmox/vms").

(** The command of [delete_b2(remote, bucket, prefix, name)]. *)
Definition delete_b2 (remote bucket prefix name : string) : list string :=
  let target := rstrip_slash (remote +:+ ":" +:+ bucket +:+ "/" +:+ prefix
                              +:+ "/" +:+ name) in
  ["rclone"; "deletefile"; target; "--config"; rclone_conf].

(** [api_delete_b2()] up to its call of [run_cmd]: the command it runs,
    or the text of its 400 response.  [scope] and [name] are the form
    fields when present. *)
Definition api_delete_b2 (b2_cfg : gmap string string)
    (scope name : option string) : list string + string :=
  let scope := default "configs" scope in
  let name := default "" name in
  if String.eqb name "" then inr "name required"
  else
    let remote := cfg_get b2_cfg "remote" "proxmox-b2" in
    let bucket := cfg_get b2_cfg "bucket" "" in
    let prefix :=
      cfg_get b2_cfg
        (if String.eqb scope "configs" then "prefix_configs" else "prefix_vms")
        "proxmox/configs" in
    inl (delete_b2 remote bucket prefix name).

(** The directory [api_delete_local()] deletes from. *)
Definition api_delete_local_base (cfg_paths : gmap string string)
    (scope : option string) : string :=
  let scope := default "configs" scope in
  cfg_get cfg_paths
    (if String.eqb scope "configs" then "local_configs" else "local_vms")
    "/var/backups/proxmox-b2/configs".

(** The command of [upload_local_to_b2(scope, local_path)]. *)
Definition upload_local_to_b2 (b2_cfg : gmap string string)
    (scope local_path : string) : list string :=
  let remote := cfg_get b2_cfg "remote" "proxmox-b2" in
  let bucket := cfg_get b2_cfg "bucket" "" in
  let prefix :=
    if String.eqb scope "configs"
    then cfg_get b2_cfg "prefix_configs" "proxmox/configs"
    else cfg_get b2_cfg "prefix_vms" "proxmox/vms" in
  let target := remote +:+ ":" +:+ bucket +:+ "/" +:+ prefix in
  ["rclone"; "copy"; local_path; target; "--config"; rclone_conf; "--b2-hard-delete"].

(** ** Reading the journal *)

(** The lines the first loop of [recent_runs] classifies: a start line
    holds [Starting]; a terminal line holds one of the four other markers
    and not [Starting]; a marked line is one or the other. *)
Definition is_start_line (line : string) : bool := contains "Starting" line.

Definition is_terminal_line (line : string) : bool :=
  negb (contains "Starting" line)
  && (contains "Done." line || contains "Deactivated successfully" line
      || contains "Failed to start" line || contains "exit-code" line).

Definition is_marked (line : string) : bool :=
  is_start_line line || is_terminal_line line.

Instance note_eq_dec : EqDecision note.
Proof. solve_decision. Defined.

(** ** Notions used by the properties *)

(** Older entries follow newer ones. *)
Definition not_newer (a b : entry) : Prop := mtime_key b <= mtime_key a.

(** What the second loop emits: each new run pairs a pending start with a
    later terminal entry of the scanned sequence. *)
Definition paired_in (other_isoformat : string -> result datetime)
    (all : list log_entry) (ru : run) : Prop :=
  exists s e,
    s ∈ all /\ e ∈ all
    /\ le_note s = NStart /\ le_note e <> NStart
    /\ ru = pair_run other_isoformat s e.

(** The ["size"] and the ["name"] of an item of a listing. *)
Definition item_size (d : dict) : Z :=
  match d !! "size" with
  | Some (VInt n) => n
  | _ => 0
  end.

Definition item_name (d : dict) : string :=
  match d !! "name" with
  | Some (VStr s) => s
  | _ => EmptyString
  end.

(** The item [list_local] builds for one archive. *)
Definition local_item (f : entry) : dict :=
  {[ "name" := VStr (e_name f);
     "size" := VInt (st_size f);
     "mtime" := VFloat (float_of_Z (st_mtime f)) ]}.

(** The order of [sorted(p.glob(...))]: by name. *)
Definition name_le (a b : entry) : Prop := String.le (e_name a) (e_name b).

(** The numbers of start entries and of terminal entries. *)
Definition starts (entries : list log_entry) : nat :=
  length (filter (fun e => le_note e = NStart) entries).

Definition terminals (entries : list log_entry) : nat :=
  length (filter (fun e => le_note e <> NStart) entries).

(** The text after the prefix [p] of [s], when [s] starts with [p]. *)
Fixpoint strip_prefix (p s : string) : option string :=
  match p, s with
  | EmptyString, _ => Some s
  | String a p', String b s' => if Ascii.eqb a b then strip_prefix p' s' else None
  | String _ _, EmptyString => None
  end.

(** The value of a line that reads [key=value]. *)
Definition setting_of (key line : string) : option string :=
  strip_prefix (key +:+ "=") line.

(** The value that the lines of [systemctl show] give to the property
    [key]: that of the last line reading [key=value]. *)
Definition last_setting (key : string) (lines : list string) : option string :=
  last (omap (setting_of key) lines).

(** What is shown for a property: its value, and the fallback when no
    line sets it or its value is empty. *)
Definition shown (setting : option string) (fallback : string) : string :=
  match setting with
  | Some (String c v) => String c v
  | Some EmptyString | None => fallback
  end.

(** [t] starts with a declaration [size=<number><unit>]: [size=], one or
    more characters of [[0-9.]], and one of the letters [G], [T], [M]. *)
Definition declares_size (t : string) : Prop :=
  exists (num : string) (u : ascii) (rest : string),
    t = "size=" +:+ num +:+ String u rest
    /\ num <> EmptyString
    /\ Forall (fun c => is_numchar c = true) (list_ascii_of_string num)
    /\ is_unit u = true.

(** The scale of a unit letter: terabytes, megabytes and gigabytes in
    gigabytes. *)
Definition scale_gb (u : ascii) (val : float) : float :=
  if Ascii.eqb u "T" then PrimFloat.mul val 1024
  else if Ascii.eqb u "M" then PrimFloat.div val 1024
  else val.

(** * Properties *)

(** ** Results and the error monad *)

Lemma bind_Ok {A B} (m : result A) (k : A -> result B) (b : B) :
  (m ≫= k) = Ok b -> exists a, m = Ok a /\ k a = Ok b.
Proof. destruct m as [a|e]; simpl; [eauto | discriminate]. Qed.

(** ** [human_size] *)

Lemma divided_S_Ok (k : nat) (x v : num) :
  divided (S k) x = Ok v ->
  exists vk f, divided k x = Ok vk /\ truediv_1024 vk = Ok f /\ v = NFloat f.
Proof.
  simpl. intros H.
  apply bind_Ok in H as (vk & Hk & H).
  apply bind_Ok in H as (f & Hf & H).
  exists vk, f. repeat split; congruence.
Qed.

(** As long as no earlier value is below 1024, the loop has consumed one
    unit per division. *)
Lemma human_size_loop_skip (k : nat) :
  forall (units : list string) (x v : num),
    (k <= length units)%nat ->
    divided k x = Ok v ->
    (forall j vj, (j < k)%nat -> divided j x = Ok vj -> lt_1024 vj = false) ->
    human_size_loop units x = human_size_loop (drop k units) v.
Proof.
  induction k as [|k IH]; intros units x v Hlen Hdiv Hge.
  - simpl in Hdiv. injection Hdiv as ->. by rewrite drop_0.
  - apply divided_S_Ok in Hdiv as (vk & f & Hk & Hf & ->).
    rewrite (IH units x vk); [| lia | done | intros j vj ? ?; apply (Hge j); [lia | done]].
    destruct (drop k units) as [|u rest] eqn:Hd.
    + apply (f_equal length) in Hd. rewrite length_drop in Hd. simpl in Hd. lia.
    + assert (drop (S k) units = rest) as ->.
      { replace (S k) with (k + 1)%nat by lia. by rewrite <- drop_drop, Hd. }
      simpl. rewrite (Hge k vk); [| lia | done]. by rewrite Hf.
Qed.

(** C6. [human_size] renders a size in base 1024: the value is divided by
    1024 until it is below 1024, at most five times (no division beyond
    PB), and the value reached after [k] divisions is rendered with one
    decimal and the unit of rank [k] among B, KB, MB, GB, TB, PB.  In
    particular [human_size(0) = "0.0 B"], [human_size(1024) = "1.0 KB"] and
    [human_size(1024**4) = "1.0 TB"]. *)
Theorem human_size_base_1024 :
  (forall (x : pyval) (n v : num) (k : nat),
      num_of x = Some n ->
      (k <= 5)%nat ->
      divided k n = Ok v ->
      (forall j vj, (j < k)%nat -> divided j n = Ok vj -> lt_1024 vj = false) ->
      k = 5%nat \/ lt_1024 v = true ->
      human_size x = (s ← format_1f v; Ok (s +:+ " " +:+ unit_name k)))
  /\ human_size (VInt 0) = Ok "0.0 B"
  /\ human_size (VInt 1024) = Ok "1.0 KB"
  /\ human_size (VInt (1024 ^ 4)) = Ok "1.0 TB".
Proof.
  split; [| repeat split; vm_compute; reflexivity].
  intros x n v k Hx Hk Hdiv Hge Hstop.
  unfold human_size. rewrite Hx.
  rewrite (human_size_loop_skip k _ n v); [| simpl; lia | done | done].
  do 5 (destruct k as [|k];
          [destruct Hstop as [?|Hlt]; [lia | simpl; by rewrite Hlt] |]).
  destruct k as [|k]; [reflexivity | lia].
Qed.

Lemma human_size_base_1024_witness :
  human_size (VInt 1536000) = Ok "1.5 MB".
Proof.
  rewrite (proj1 human_size_base_1024 (VInt 1536000) (NInt 1536000)
             (NFloat 1.46484375) 2%nat).
  - vm_compute. reflexivity.
  - reflexivity.
  - lia.
  - vm_compute. reflexivity.
  - intros j vj Hj Hd.
    destruct j as [|[|j]]; [| | lia];
      vm_compute in Hd; injection Hd as <-; vm_compute; reflexivity.
  - right. vm_compute. reflexivity.
Defined.

(** ** Conversions to binary64 stay finite on machine-sized integers *)

Lemma shr_1_m (mrs : shr_record) :
  0 <= shr_m mrs -> 0 <= shr_m (shr_1 mrs) <= shr_m mrs.
Proof. destruct mrs as [[|[p|p|]|p] r s]; simpl; lia. Qed.

Lemma iter_shr_1_m (p : positive) :
  forall mrs : shr_record,
    0 <= shr_m mrs -> 0 <= shr_m (SpecFloat.iter_pos shr_1 p mrs) <= shr_m mrs.
Proof.
  induction p as [p IH|p IH|]; intros mrs Hm; simpl.
  - pose proof (shr_1_m mrs Hm) as H1.
    pose proof (IH (shr_1 mrs) (proj1 H1)) as H2.
    pose proof (IH _ (proj1 H2)). lia.
  - pose proof (IH mrs Hm) as H1. pose proof (IH _ (proj1 H1)). lia.
  - by apply shr_1_m.
Qed.

Lemma shr_record_of_loc_m (m : Z) (l : location) :
  shr_m (shr_record_of_loc m l) = m.
Proof. by destruct l as [|[]]. Qed.

Lemma shr_fexp_bounds (m e : Z) (l : location) :
  0 <= m ->
  0 <= shr_m (shr_fexp prec emax m e l).1 <= m
  /\ (shr_fexp prec emax m e l).2 <= Z.max e (fexp prec emax (Zdigits2 m + e)).
Proof.
  intros Hm. unfold shr_fexp, shr.
  destruct (fexp prec emax (Zdigits2 m + e) - e) as [|p|p] eqn:Hn; simpl;
    rewrite ?shr_record_of_loc_m; try lia.
  pose proof (iter_shr_1_m p (shr_record_of_loc m l)) as H.
  rewrite shr_record_of_loc_m in H. specialize (H Hm). lia.
Qed.

Lemma round_nearest_even_bounds (m : Z) (l : location) :
  m <= round_nearest_even m l <= m + 1.
Proof. destruct l as [|[]]; simpl; try destruct (Z.even m); lia. Qed.

Lemma digits2_pos_le (p : positive) :
  forall k : Z, 0 <= k -> Z.pos p < 2 ^ k -> Z.pos (digits2_pos p) <= k.
Proof.
  induction p as [p IH|p IH|]; intros k Hk Hp; simpl.
  - assert (k <> 0) by (intros ->; simpl in Hp; lia).
    replace k with (Z.succ (k - 1)) in Hp by lia.
    rewrite Z.pow_succ_r in Hp by lia.
    specialize (IH (k - 1)). lia.
  - assert (k <> 0) by (intros ->; simpl in Hp; lia).
    replace k with (Z.succ (k - 1)) in Hp by lia.
    rewrite Z.pow_succ_r in Hp by lia.
    specialize (IH (k - 1)). lia.
  - assert (k <> 0) by (intros ->; simpl in Hp; lia). lia.
Qed.

Lemma Zdigits2_le (m k : Z) : 0 <= m < 2 ^ k -> 0 <= k -> 0 <= Zdigits2 m <= k.
Proof.
  intros [H0 Hm] Hk. destruct m as [|p|p]; simpl; [lia | | lia].
  pose proof (digits2_pos_le p k Hk Hm). lia.
Qed.

Lemma iter_xO_pow (p d : positive) :
  Z.pos (Pos.iter xO p d) = Z.pos p * 2 ^ Z.pos d.
Proof.
  induction d as [|d IH] using Pos.peano_ind.
  - simpl. lia.
  - rewrite Pos.iter_succ, Pos2Z.inj_succ, Z.pow_succ_r by lia.
    rewrite Pos2Z.inj_xO, IH. lia.
Qed.

(** An integer below [2^64] in magnitude, scaled by [2^e] with
    [-100 <= e <= 0], rounds to a finite binary64 or to zero. *)
Lemma round_binary64_finite (n e : Z) :
  - 2 ^ 64 < n < 2 ^ 64 -> -100 <= e <= 0 ->
  forall s, round_binary64 n e <> S754_infinity s.
Proof.
  intros Hn He s. unfold round_binary64, binary_normalize.
  assert (forall sx p, Z.pos p < 2 ^ 64 ->
            binary_round prec emax sx p e <> S754_infinity s) as Hp.
  { clear n Hn. intros sx p Hp.
    unfold binary_round.
    destruct (shl_align p e _) as [mz ez] eqn:Hsh.
    assert (Z.pos mz < 2 ^ 117 /\ ez <= e) as [Hmz Hez].
    { unfold shl_align in Hsh.
      pose proof (digits2_pos_le p 64 ltac:(lia) Hp) as Hd.
      destruct (fexp prec emax (Z.pos (digits2_pos p) + e) - e) as [|d|d] eqn:Hn;
        injection Hsh as <- <-; try (split; [change (2^117) with (2^64 * 2^53)|]; lia).
      split.
      - rewrite iter_xO_pow.
        assert (Z.pos d <= 53) by (unfold fexp, emin, prec, emax in Hn; lia).
        assert (2 ^ Z.pos d <= 2 ^ 53) by (apply Z.pow_le_mono_r; lia).
        change (2 ^ 117) with (2 ^ 64 * 2 ^ 53). nia.
      - lia. }
    unfold binary_round_aux.
    pose proof (shr_fexp_bounds (Z.pos mz) ez loc_Exact ltac:(lia)) as [Hm1 He1].
    destruct (shr_fexp prec emax (Z.pos mz) ez loc_Exact) as [mrs' e'].
    simpl in Hm1, He1.
    pose proof (round_nearest_even_bounds (shr_m mrs') (loc_of_shr_record mrs')) as Hr.
    set (mr := round_nearest_even (shr_m mrs') (loc_of_shr_record mrs')) in *.
    pose proof (shr_fexp_bounds mr e' loc_Exact ltac:(lia)) as [Hm2 He2].
    destruct (shr_fexp prec emax mr e' loc_Exact) as [mrs'' e''].
    simpl in Hm2, He2.
    pose proof (Zdigits2_le (Z.pos mz) 117 ltac:(lia) ltac:(lia)) as Hd1.
    pose proof (Zdigits2_le mr 118 ltac:(change (2^118) with (2 * 2^117); lia) ltac:(lia)) as Hd2.
    assert (e'' <= emax - prec) as Hle
      by (simpl in Hd1; unfold fexp, emin, prec, emax in *; lia).
    destruct (shr_m mrs''); [done | | done].
    apply Z.leb_le in Hle. rewrite Hle. done. }
  destruct n as [|p|p]; [done | apply Hp; lia | apply Hp; lia].
Qed.

(** ** [cost_estimates] *)

Lemma truediv_gib_machine_int (n : Z) :
  - 2 ^ 64 < n < 2 ^ 64 ->
  truediv_gib (VInt n) = Ok (SF2Prim (round_binary64 n (-30))).
Proof.
  intros Hn. unfold truediv_gib. simpl.
  pose proof (round_binary64_finite n (-30) Hn ltac:(lia)) as Hfin.
  destruct (round_binary64 n (-30)); try done. by destruct (Hfin s).
Qed.

(** The loop, in closed form: the per-item estimates are computed
    independently, appended in order, and added to the running totals. *)
Lemma cost_estimates_loop_eq (items : list dict) :
  forall (est : list dict) (ts te : float),
    cost_estimates_loop items est ts te =
    (cs ← mapM cost_item items;
     Ok (est ++ zip_with (fun it c => annotate it c.1 c.2) items cs,
         fold_left PrimFloat.add cs.*1 ts,
         fold_left PrimFloat.add cs.*2 te)).
Proof.
  induction items as [|it items IH]; intros est ts te; simpl.
  - by rewrite app_nil_r.
  - destruct (cost_item it) as [[s e]|x]; simpl; [| done].
    rewrite IH.
    destruct (mapM cost_item items) as [cs|x]; simpl; [| done].
    by rewrite <- app_assoc.
Qed.

Lemma mapM_cons {A B} (f : A -> result B) (a : A) (l : list A) :
  mapM f (a :: l) = (y ← f a; k ← mapM f l; Ok (y :: k)).
Proof. reflexivity. Qed.

Lemma mapM_result_Forall2 {A B} (f : A -> result B) (l : list A) (k : list B) :
  mapM f l = Ok k -> Forall2 (fun a b => f a = Ok b) l k.
Proof.
  revert k. induction l as [|a l IH]; intros k H; simpl in H.
  - injection H as <-. constructor.
  - destruct (f a) as [b|x] eqn:Hf; simpl in H; [| done].
    destruct (mapM f l) as [k'|x]; simpl in H; [| done].
    injection H as <-. constructor; [done | by apply IH].
Qed.

Lemma est_storage_annotate (it : dict) (s e : float) :
  est_storage (annotate it s e) = s.
Proof.
  unfold est_storage, annotate.
  rewrite lookup_insert_ne by done. by rewrite lookup_insert_eq.
Qed.

Lemma est_egress_annotate (it : dict) (s e : float) :
  est_egress (annotate it s e) = e.
Proof. unfold est_egress, annotate. by rewrite lookup_insert_eq. Qed.

Lemma annotated_estimates (items : list dict) (cs : list (float * float)) :
  length items = length cs ->
  est_storage <$> zip_with (fun it c => annotate it c.1 c.2) items cs = cs.*1
  /\ est_egress <$> zip_with (fun it c => annotate it c.1 c.2) items cs = cs.*2.
Proof.
  revert cs. induction items as [|it items IH]; intros [|c cs] Hlen;
    simpl in Hlen; try done.
  destruct (IH cs ltac:(lia)) as [IHs IHe].
  csimpl. by rewrite est_storage_annotate, est_egress_annotate, IHs, IHe.
Qed.

Lemma cost_estimates_Ok (items est : list dict) (ts te : float) :
  cost_estimates items = Ok (est, ts, te) ->
  Forall2 (fun it c => exists s e, cost_item it = Ok (s, e) /\ c = annotate it s e)
          items est
  /\ ts = fsum (est_storage <$> est)
  /\ te = fsum (est_egress <$> est).
Proof.
  unfold cost_estimates. rewrite cost_estimates_loop_eq. intros H.
  destruct (mapM cost_item items) as [cs|x] eqn:Hcs; simpl in H; [| done].
  injection H as <- <- <-.
  apply mapM_result_Forall2 in Hcs.
  pose proof (Forall2_length _ _ _ Hcs) as Hlen.
  destruct (annotated_estimates items cs Hlen) as [-> ->].
  split; [| done].
  clear Hlen. induction Hcs as [|it [s e] items cs Hc _ IH]; simpl; constructor.
  - by exists s, e.
  - done.
Qed.

Lemma cost_estimates_total (items : list dict) :
  Forall (fun it : dict => exists n, get it "size" (VInt 0) = VInt n
                           /\ - 2 ^ 64 < n < 2 ^ 64) items ->
  exists r, cost_estimates items = Ok r.
Proof.
  intros H. unfold cost_estimates. rewrite cost_estimates_loop_eq.
  assert (exists cs, mapM cost_item items = Ok cs) as [cs ->]; [| by eexists].
  induction H as [|it items (n & Hsz & Hn) _ [cs IH]].
  - by eexists.
  - assert (exists c, cost_item it = Ok c) as [c Hc].
    { unfold cost_item. rewrite Hsz, truediv_gib_machine_int by done. by eexists. }
    rewrite mapM_cons, Hc, IH. by eexists.
Qed.

(** C5. The cost estimator takes each item's [size] (0 when absent),
    divides it by [2^30] and multiplies the quotient by the rates 0.005
    (storage) and 0.01 (egress); the returned totals are the sums, from
    left to right, of the estimates attached to the returned items; on
    sizes of machine integers it always returns; and an item of exactly
    1073741824 bytes is estimated at 0.005 and 0.01. *)
Theorem cost_estimates_rates_and_totals :
  storage_rate = 0.005%float /\ egress_rate = 0.01%float
  /\ (forall it : dict,
        cost_item it =
        (size_gb ← truediv_gib (get it "size" (VInt 0));
         Ok (PrimFloat.mul size_gb storage_rate, PrimFloat.mul size_gb egress_rate)))
  /\ (forall n : Z, - 2 ^ 64 < n < 2 ^ 64 ->
        truediv_gib (VInt n) = Ok (SF2Prim (round_binary64 n (-30))))
  /\ (forall (items est : list dict) (ts te : float),
        cost_estimates items = Ok (est, ts, te) ->
        Forall2 (fun it c => exists s e, cost_item it = Ok (s, e) /\ c = annotate it s e)
                items est
        /\ ts = fsum (est_storage <$> est)
        /\ te = fsum (est_egress <$> est))
  /\ (forall items : list dict,
        Forall (fun it : dict => exists n, get it "size" (VInt 0) = VInt n
                                 /\ - 2 ^ 64 < n < 2 ^ 64) items ->
        exists r, cost_estimates items = Ok r)
  /\ cost_estimates [ {[ "size" := VInt 1073741824 ]} ] =
     Ok ([ annotate {[ "size" := VInt 1073741824 ]} 0.005 0.01 ],
         0.005%float, 0.01%float).
Proof.
  split; [reflexivity |]. split; [reflexivity |]. split; [reflexivity |].
  split; [exact truediv_gib_machine_int |].
  split; [exact cost_estimates_Ok |].
  split; [exact cost_estimates_total |].
  vm_compute. reflexivity.
Qed.

Lemma cost_estimates_rates_and_totals_witness :
  exists r, cost_estimates [ {[ "size" := VInt 5368709120 ]}; ∅ ] = Ok r.
Proof.
  apply (proj1 (proj2 (proj2 (proj2 (proj2 (proj2
           cost_estimates_rates_and_totals)))))).
  repeat constructor.
  - exists 5368709120. split; [reflexivity | lia].
  - exists 0. split; [reflexivity | lia].
Defined.

(** *** The store: [cost_estimates] does not touch the caller's items *)

Lemma alloc_fresh (h : heap) (d : dict) : h !! (alloc h d).1 = None.
Proof.
  unfold alloc. simpl. apply not_elem_of_dom. apply is_fresh.
Qed.

(** One iteration allocates the copy and writes only to it. *)
Lemma copy_annotated (h : heap) (it : dict) (s e : float) :
  let l := (alloc h it).1 in
  setitem (setitem (alloc h it).2 l "est_storage" (VFloat s))
          l "est_egress" (VFloat e)
  = <[l := annotate it s e]> h.
Proof.
  unfold alloc, setitem, annotate. simpl.
  rewrite lookup_insert_eq. rewrite lookup_insert_eq.
  by rewrite !insert_insert_eq.
Qed.

Lemma heap_loop_frame (items : list loc) :
  forall (h : heap) (est : list loc) (ts te : float) (l : loc) (d : dict),
    h !! l = Some d ->
    (cost_estimates_heap_loop items h est ts te).1 !! l = Some d.
Proof.
  induction items as [|i items IH]; intros h est ts te l d Hl;
    cbn [cost_estimates_heap_loop]; [done |].
  destruct (cost_item (default ∅ (h !! i))) as [[s e]|x]; [| done].
  pose proof (copy_annotated h (default ∅ (h !! i)) s e) as Hc.
  pose proof (alloc_fresh h (default ∅ (h !! i))) as Hf.
  destruct (alloc h (default ∅ (h !! i))) as [l' h1]. cbn [fst snd] in Hc, Hf.
  rewrite Hc. apply IH.
  rewrite lookup_insert_ne; [done | congruence].
Qed.

(** The store version computes what the value version computes, on new
    objects. *)
Lemma heap_loop_refines (items : list loc) :
  forall (ds : list dict) (h : heap) (est : list loc) (estv : list dict)
         (ts te : float),
    Forall2 (fun l d => h !! l = Some d) items ds ->
    Forall2 (fun l d => h !! l = Some d) est estv ->
    match cost_estimates_loop ds estv ts te with
    | Ok (estv', s, e) =>
        exists est',
          (cost_estimates_heap_loop items h est ts te).2 = Ok (est ++ est', s, e)
          /\ Forall2 (fun l d =>
                        (cost_estimates_heap_loop items h est ts te).1 !! l = Some d)
                     (est ++ est') estv'
          /\ Forall (fun l => h !! l = None) est'
    | Raise x => (cost_estimates_heap_loop items h est ts te).2 = Raise x
    end.
Proof.
  induction items as [|i items IH]; intros ds h est estv ts te Hin Hest.
  - apply Forall2_nil_inv_l in Hin as ->. simpl.
    exists []. rewrite app_nil_r. repeat split; [done | constructor].
  - apply Forall2_cons_inv_l in Hin as (d & ds' & Hi & Hin & ->).
    cbn [cost_estimates_heap_loop cost_estimates_loop].
    rewrite Hi. change (default ∅ (Some d)) with d.
    destruct (cost_item d) as [[s e]|x]; cbn [mbind result_bind]; [| done].
    pose proof (copy_annotated h d s e) as Hc.
    pose proof (alloc_fresh h d) as Hf.
    destruct (alloc h d) as [l' h1]. cbn [fst snd] in Hc, Hf. rewrite Hc.
    assert (forall l d0, h !! l = Some d0 ->
                         <[l' := annotate d s e]> h !! l = Some d0) as Hframe.
    { intros l d0 Hl. rewrite lookup_insert_ne; [done | congruence]. }
    specialize (IH ds' (<[l' := annotate d s e]> h) (est ++ [l'])
                  (estv ++ [annotate d s e])
                  (PrimFloat.add ts s) (PrimFloat.add te e)).
    destruct (cost_estimates_loop ds' _ _ _) as [[[estv' s'] e']|x].
    + destruct IH as (est' & Hres & Hmap & Hnew).
      * eapply Forall2_impl; [exact Hin | auto].
      * apply Forall2_app; [eapply Forall2_impl; [exact Hest | auto] |].
        constructor; [apply lookup_insert_eq | constructor].
      * exists (l' :: est'). rewrite <- app_assoc in Hres, Hmap.
        split; [done |]. split; [done |].
        constructor; [done |].
        eapply Forall_impl; [exact Hnew |]. intros l Hl. simpl in Hl.
        destruct (decide (l' = l)) as [->|Hne]; [done |].
        by rewrite lookup_insert_ne in Hl.
    + apply IH.
      * eapply Forall2_impl; [exact Hin | auto].
      * apply Forall2_app; [eapply Forall2_impl; [exact Hest | auto] |].
        constructor; [apply lookup_insert_eq | constructor].
Qed.

(** C10. [cost_estimates] leaves its input unchanged: every object of
    the store, and so every dictionary of the item list, holds after the
    call what it held before; the annotations [est_storage] and
    [est_egress] go to newly allocated copies, which the returned list
    references. *)
Theorem cost_estimates_leaves_items_unchanged (items : list loc) (h : heap) :
  (forall l d, h !! l = Some d -> (cost_estimates_heap items h).1 !! l = Some d)
  /\ (forall ds : list dict,
        Forall2 (fun l d => h !! l = Some d) items ds ->
        Forall2 (fun l d => (cost_estimates_heap items h).1 !! l = Some d) items ds
        /\ match cost_estimates ds with
           | Ok (estv, s, e) =>
               exists est,
                 (cost_estimates_heap items h).2 = Ok (est, s, e)
                 /\ Forall2 (fun l d => (cost_estimates_heap items h).1 !! l = Some d)
                            est estv
                 /\ Forall (fun l => h !! l = None) est
           | Raise x => (cost_estimates_heap items h).2 = Raise x
           end).
Proof.
  split.
  - intros l d Hl. by apply heap_loop_frame.
  - intros ds Hin. split.
    + eapply Forall2_impl; [exact Hin |].
      intros l d Hl. by apply heap_loop_frame.
    + apply (heap_loop_refines items ds h [] [] 0%float 0%float Hin).
      constructor.
Qed.

Lemma cost_estimates_leaves_items_unchanged_witness :
  let h : heap := {[ 7%nat := {[ "size" := VInt 1073741824 ]} ]} in
  (cost_estimates_heap [7%nat; 7%nat] h).1 !! 7%nat
  = Some ({[ "size" := VInt 1073741824 ]} : dict).
Proof.
  intros h.
  apply (proj1 (cost_estimates_leaves_items_unchanged [7%nat; 7%nat] h)).
  reflexivity.
Defined.

(** ** [list_local] *)

(** C9. For a path at which nothing exists, [list_local] returns
    [{"count": 0, "size": 0, "items": []}]; it is a value, not an error. *)
Theorem list_local_missing_directory (fs : filesystem) (path : string) :
  fs !! path = None -> list_local fs path = LocalListing 0 0 [].
Proof. intros H. unfold list_local. by rewrite H. Qed.

Lemma list_local_missing_directory_witness :
  list_local two_roots "/var/backups/proxmox-b2/configs" = LocalListing 0 0 [].
Proof.
  apply list_local_missing_directory. vm_compute. reflexivity.
Defined.

(** ** [list_local_recursive] *)

Lemma insert_desc_perm {A} (leb : A -> A -> bool) (x : A) (l : list A) :
  insert_desc leb x l ≡ₚ x :: l.
Proof.
  induction l as [|y l IH]; simpl; [done |].
  destruct (leb y x); [done |]. rewrite IH. apply Permutation_swap.
Qed.

Lemma sorted_desc_perm {A} (leb : A -> A -> bool) (l : list A) :
  sorted_desc leb l ≡ₚ l.
Proof.
  induction l as [|x l IH]; simpl; [done |].
  by rewrite insert_desc_perm, IH.
Qed.

Lemma insert_desc_sorted (x : entry) (l : list entry) :
  StronglySorted not_newer l ->
  StronglySorted not_newer (insert_desc mtime_leb x l).
Proof.
  induction 1 as [|y l Hl IH Hy]; simpl.
  - repeat constructor.
  - unfold mtime_leb at 1. destruct (Z.leb_spec (mtime_key y) (mtime_key x)).
    + constructor; [by constructor |].
      constructor; [done |].
      eapply Forall_impl; [exact Hy |]. unfold not_newer. intros; lia.
    + constructor; [done |].
      rewrite insert_desc_perm. constructor; [unfold not_newer; lia | done].
Qed.

Lemma sorted_desc_sorted (l : list entry) :
  StronglySorted not_newer (sorted_desc mtime_leb l).
Proof.
  induction l as [|x l IH]; simpl; [constructor | by apply insert_desc_sorted].
Qed.

Lemma StronglySorted_filter_impl {A} (R R' : A -> A -> Prop) (P : A -> Prop)
    `{!forall x, Decision (P x)} (l : list A) :
  (forall a b, P a -> P b -> R a b -> R' a b) ->
  StronglySorted R l -> StronglySorted R' (filter P l).
Proof.
  intros HR. induction 1 as [|x l Hl IH Hx]; [constructor |].
  rewrite filter_cons. destruct (decide (P x)) as [Hp|]; [| done].
  constructor; [done |].
  apply Forall_forall. intros y Hy.
  apply list_elem_of_filter in Hy as [Hpy Hy].
  rewrite Forall_forall in Hx. auto.
Qed.

Lemma listable_item (f : entry) :
  listable f = true -> is_file f = true /\ recursive_item f = Ok (item_of f).
Proof.
  unfold listable, item_of. destruct (is_file f); [| done].
  by destruct (recursive_item f).
Qed.

(** The inner loop appends the items of the listable entries, and
    returns from the function as soon as [max_items] items are there. *)
Lemma scan_root_spec (max_items : Z) (files : list entry) :
  forall items : list dict,
    Z.of_nat (length items) < max_items ->
    let all := items ++ (item_of <$> filter (fun f => Is_true (listable f)) files) in
    scan_root files items max_items =
    if Z.of_nat (length all) <? max_items then (all, false)
    else (take (Z.to_nat max_items) all, true).
Proof.
  induction files as [|f files IH]; intros items Hlen; cbn zeta.
  - cbn [scan_root]. rewrite filter_nil. csimpl. rewrite app_nil_r.
    by destruct (Z.ltb_spec (Z.of_nat (length items)) max_items); [| lia].
  - cbn [scan_root]. rewrite filter_cons.
    destruct (decide (Is_true (listable f))) as [Hl|Hl].
    + apply Is_true_true in Hl. destruct (listable_item f Hl) as [Hf Hitem].
      rewrite Hf, Hitem. cbn [negb]. csimpl.
      destruct (Z.leb_spec max_items (Z.of_nat (length (items ++ [item_of f]))))
        as [Hfull|Hroom].
      * rewrite length_app in Hfull. simpl in Hfull.
        destruct (Z.ltb_spec (Z.of_nat (length (items ++ item_of f ::
                   (item_of <$> filter (fun f => Is_true (listable f)) files)))) max_items)
          as [Habs|_].
        { rewrite length_app in Habs. simpl in Habs. lia. }
        replace (items ++ item_of f :: (item_of <$> filter (fun f => Is_true (listable f)) files))
          with ((items ++ [item_of f]) ++ (item_of <$> filter (fun f => Is_true (listable f)) files))
          by by rewrite <- app_assoc.
        rewrite take_app_length'; [done |]. rewrite length_app. simpl. lia.
      * rewrite (IH (items ++ [item_of f]) Hroom). cbn zeta.
        by rewrite <- app_assoc.
    + assert (scan_root files items max_items =
              (if negb (is_file f) then scan_root files items max_items
               else match recursive_item f with
                    | Ok item =>
                        if max_items <=? Z.of_nat (length (items ++ [item]))
                        then (items ++ [item], true)
                        else scan_root files (items ++ [item]) max_items
                    | Raise _ => scan_root files items max_items
                    end)) as <-.
      { apply Is_true_false in Hl. unfold listable in Hl.
        destruct (is_file f); [| done].
        destruct (recursive_item f); [done | done]. }
      by apply IH.
Qed.

Lemma list_local_recursive_loop_spec (fs : filesystem) (max_items : Z)
    (paths : list string) :
  forall items : list dict,
    Z.of_nat (length items) < max_items ->
    list_local_recursive_loop fs paths items max_items =
    take (Z.to_nat max_items)
         (items ++ (item_of <$> concat (root_files fs <$> paths))).
Proof.
  induction paths as [|base paths IH]; intros items Hlen;
    cbn [list_local_recursive_loop]; csimpl.
  - rewrite app_nil_r, take_ge; [done | lia].
  - unfold root_files at 1. destruct (fs !! base) as [p|]; [| by apply IH].
    rewrite (scan_root_spec max_items _ items Hlen). cbn zeta.
    set (new := item_of <$> filter _ _).
    rewrite fmap_app, app_assoc. fold new.
    destruct (Z.ltb_spec (Z.of_nat (length (items ++ new))) max_items) as [Hroom|Hfull].
    + by apply IH.
    + symmetry. apply take_app_le. lia.
Qed.

Lemma root_files_sorted (fs : filesystem) (base : string) :
  Forall (fun f => is_file f = true /\ recursive_item f = Ok (item_of f))
         (root_files fs base)
  /\ StronglySorted (fun a b => st_mtime b <= st_mtime a) (root_files fs base).
Proof.
  unfold root_files. destruct (fs !! base) as [p|]; [| by repeat constructor].
  split.
  - apply Forall_forall. intros f Hf.
    apply list_elem_of_filter in Hf as [Hl _].
    apply Is_true_true in Hl. by apply listable_item.
  - eapply StronglySorted_filter_impl; [| apply sorted_desc_sorted].
    intros a b Ha Hb. apply Is_true_true in Ha, Hb.
    apply listable_item in Ha as [Ha _]. apply listable_item in Hb as [Hb _].
    unfold not_newer, mtime_key. by rewrite Ha, Hb.
Qed.

(** C4, as the code has it.  For a maximum of at least one item,
    [list_local_recursive] returns the first [max_items] items of the
    roots' contributions taken one root after the other, in the order the
    roots are given; a root that does not exist contributes nothing (so
    the result is empty when no root exists); and within the
    contribution of one root the files are ordered newest-modified
    first. *)
Theorem list_local_recursive_per_root (fs : filesystem) (paths : list string)
    (max_items : Z) :
  1 <= max_items ->
  list_local_recursive fs paths max_items
  = (item_of <$> take (Z.to_nat max_items) (concat (root_files fs <$> paths)))
  /\ Z.of_nat (length (list_local_recursive fs paths max_items)) <= max_items
  /\ (forall base, fs !! base = None -> root_files fs base = [])
  /\ (Forall (fun base => fs !! base = None) paths ->
      list_local_recursive fs paths max_items = [])
  /\ (forall base,
        Forall (fun f => is_file f = true /\ recursive_item f = Ok (item_of f))
               (root_files fs base)
        /\ StronglySorted (fun a b => st_mtime b <= st_mtime a) (root_files fs base)).
Proof.
  intros Hmax.
  assert (list_local_recursive fs paths max_items
          = (item_of <$> take (Z.to_nat max_items) (concat (root_files fs <$> paths))))
    as Heq.
  { unfold list_local_recursive.
    rewrite list_local_recursive_loop_spec by (simpl; lia).
    by rewrite app_nil_l, fmap_take. }
  split; [exact Heq |]. split.
  { rewrite Heq, length_fmap, length_take. lia. }
  split.
  { intros base Hb. unfold root_files. by rewrite Hb. }
  split; [| exact (root_files_sorted fs)].
  intros Hnone.
  assert (concat (root_files fs <$> paths) = []) as Hc.
  { clear Heq. induction Hnone as [|base paths Hb _ IH]; csimpl; [done |].
    unfold root_files at 1. by rewrite Hb, IH. }
  by rewrite Heq, Hc, take_nil.
Qed.

Lemma list_local_recursive_per_root_witness :
  Z.of_nat (length (list_local_recursive two_roots
                      ["/var/lib/vz/dump"; "/nowhere"; "/mnt/thinner/backups"] 400))
  <= 400.
Proof.
  apply (list_local_recursive_per_root two_roots
           ["/var/lib/vz/dump"; "/nowhere"; "/mnt/thinner/backups"] 400).
  lia.
Defined.

(** C4 as stated fails twice: with a maximum of 0 one item is returned,
    and across two roots an older file of the first root precedes a newer
    file of the second. *)
Lemma list_local_recursive_counterexample :
  ~ (Z.of_nat (length (list_local_recursive two_roots ["/var/lib/vz/dump"] 0)) <= 0)
  /\ ~ newest_first (list_local_recursive two_roots
                       ["/var/lib/vz/dump"; "/mnt/thinner/backups"] 400).
Proof.
  split.
  - assert (length (list_local_recursive two_roots ["/var/lib/vz/dump"] 0) = 1%nat)
      as -> by (vm_compute; reflexivity).
    lia.
  - intros H.
    destruct (list_local_recursive two_roots _ 400) as [|a [|b l]] eqn:E;
      [vm_compute in E; discriminate .. |].
    specialize (H 0%nat 1%nat a b ltac:(lia) eq_refl eq_refl).
    vm_compute in E. injection E as <- <- _.
    vm_compute in H. discriminate.
Qed.

(** ** The remote collectors *)

Lemma or_str_empty (a b : string) :
  or_str a b = EmptyString <-> a = EmptyString /\ b = EmptyString.
Proof.
  unfold or_str. destruct (String.eqb_spec a "") as [->|Hne].
  - split; [by intros -> | by intros [_ ->]].
  - split; [by intros -> | by intros [-> _]].
Qed.

Lemma b2_list_total (json_loads : string -> result pyval) (r : cmd_result)
    (max_items : Z) :
  exists l, b2_list json_loads r max_items = Ok l.
Proof.
  unfold b2_list. destruct (negb (code r =? 0)); [by eexists |].
  unfold try_except. destruct (_ ≫= _); by eexists.
Qed.

Lemma b2_stats_total (json_loads : string -> result pyval) (r : cmd_result) :
  exists s, b2_stats json_loads r = Ok s.
Proof.
  unfold b2_stats. destruct (negb (code r =? 0)); [by eexists |].
  unfold try_except. destruct (_ ≫= _); by eexists.
Qed.

(** C8. When the listing command ends with a non-zero code, [b2_stats]
    returns count 0 and size 0 and [b2_list] returns no items, both with
    the [error] field set to the command's standard error, or to its
    standard output when the standard error is empty (a text that is
    empty only when both are); neither raises. *)
Theorem remote_failure_is_annotated (json_loads : string -> result pyval)
    (r : cmd_result) (max_items : Z) :
  code r <> 0 ->
  b2_stats json_loads r
  = Ok (RemoteStats 0 (VInt 0) (Some (or_str (err r) (out r))))
  /\ b2_list json_loads r max_items
     = Ok (RemoteListing (Some (or_str (err r) (out r))) [] None)
  /\ (or_str (err r) (out r) = EmptyString
      <-> err r = EmptyString /\ out r = EmptyString).
Proof.
  intros Hc. apply Z.eqb_neq in Hc.
  unfold b2_stats, b2_list. rewrite Hc. simpl.
  split; [reflexivity |]. split; [reflexivity |]. apply or_str_empty.
Qed.

Lemma remote_failure_is_annotated_witness :
  b2_stats sample_json_loads (CmdResult 3 "" "directory not found")
  = Ok (RemoteStats 0 (VInt 0) (Some "directory not found"))
  /\ b2_list sample_json_loads (CmdResult 3 "" "directory not found") 200
     = Ok (RemoteListing (Some "directory not found") [] None).
Proof.
  pose proof (remote_failure_is_annotated sample_json_loads
                (CmdResult 3 "" "directory not found") 200) as H.
  simpl in H. destruct H as (H1 & H2 & _); [lia |]. by split.
Defined.

(** ** The reconciliation view *)

(** The view is the five tiers, each computed from its own source. *)
Lemma api_backups_tiers (json_loads : string -> result pyval)
    (cfg_paths : gmap string string) (fs : filesystem) (rc rv : cmd_result) :
  api_backups json_loads cfg_paths fs rc rv =
  (a ← remote_tier json_loads rc;
   b ← remote_tier json_loads rv;
   c ← local_tier fs (cfg_get cfg_paths "local_configs" "/var/backups/proxmox-b2/configs");
   d ← local_tier fs (cfg_get cfg_paths "local_vms" "/var/backups/proxmox-b2/vms");
   e ← dump_tier fs;
   Ok (BackupsView a b c d e)).
Proof.
  unfold api_backups, remote_tier, local_tier, dump_tier.
  set (pc := cfg_get cfg_paths "local_configs" _).
  set (pv := cfg_get cfg_paths "local_vms" _).
  destruct (b2_list_total json_loads rc 200) as [b2c ->].
  destruct (b2_list_total json_loads rv 200) as [b2v ->].
  cbn [mbind result_bind].
  destruct (cost_estimates (rl_items b2c)) as [[[? ?] ?]|]; [| reflexivity].
  cbn [mbind result_bind].
  destruct (cost_estimates (rl_items b2v)) as [[[? ?] ?]|]; [| reflexivity].
  cbn [mbind result_bind].
  destruct (cost_estimates (ll_items (list_local fs pc))) as [[[? ?] ?]|];
    [| reflexivity].
  cbn [mbind result_bind].
  destruct (cost_estimates (ll_items (list_local fs pv))) as [[[? ?] ?]|];
    [| reflexivity].
  cbn [mbind result_bind].
  destruct (cost_estimates (list_local_recursive fs _ 400)) as [[[? ?] ?]|]; reflexivity.
Qed.

Lemma remote_tier_failed (json_loads : string -> result pyval) (r : cmd_result) :
  code r <> 0 ->
  remote_tier json_loads r
  = Ok (RemoteView (Some (or_str (err r) (out r))) None [] 0%float 0%float).
Proof.
  intros Hc. apply Z.eqb_neq in Hc.
  unfold remote_tier, b2_list. by rewrite Hc.
Qed.

Lemma api_backups_Ok (json_loads : string -> result pyval)
    (cfg_paths : gmap string string) (fs : filesystem) (rc rv : cmd_result)
    (v : backups_view) :
  api_backups json_loads cfg_paths fs rc rv = Ok v ->
  remote_tier json_loads rc = Ok (b2_configs v)
  /\ remote_tier json_loads rv = Ok (b2_vms v)
  /\ local_tier fs (cfg_get cfg_paths "local_configs" "/var/backups/proxmox-b2/configs")
     = Ok (local_configs v)
  /\ local_tier fs (cfg_get cfg_paths "local_vms" "/var/backups/proxmox-b2/vms")
     = Ok (local_vms v)
  /\ dump_tier fs = Ok (local_vms_dump v).
Proof.
  rewrite api_backups_tiers. intros H.
  apply bind_Ok in H as (a & -> & H).
  apply bind_Ok in H as (b & -> & H).
  apply bind_Ok in H as (c & -> & H).
  apply bind_Ok in H as (d & -> & H).
  apply bind_Ok in H as (e & -> & H).
  by injection H as <-.
Qed.

(** C7. In the combined view each tier is computed from its own source
    alone; when the view is produced and the remote listing of one tier
    fails instead, the view is still produced, the failing tier is empty
    and carries the error, and every other tier is exactly what it was. *)
Theorem tier_summaries_are_independent (json_loads : string -> result pyval)
    (cfg_paths : gmap string string) (fs : filesystem) (rc rv : cmd_result)
    (v : backups_view) :
  api_backups json_loads cfg_paths fs rc rv = Ok v ->
  (remote_tier json_loads rc = Ok (b2_configs v)
   /\ remote_tier json_loads rv = Ok (b2_vms v)
   /\ local_tier fs (cfg_get cfg_paths "local_configs" "/var/backups/proxmox-b2/configs")
      = Ok (local_configs v)
   /\ local_tier fs (cfg_get cfg_paths "local_vms" "/var/backups/proxmox-b2/vms")
      = Ok (local_vms v)
   /\ dump_tier fs = Ok (local_vms_dump v))
  /\ (forall rc', code rc' <> 0 ->
        api_backups json_loads cfg_paths fs rc' rv
        = Ok (BackupsView
                (RemoteView (Some (or_str (err rc') (out rc'))) None [] 0%float 0%float)
                (b2_vms v) (local_configs v) (local_vms v) (local_vms_dump v)))
  /\ (forall rv', code rv' <> 0 ->
        api_backups json_loads cfg_paths fs rc rv'
        = Ok (BackupsView
                (b2_configs v)
                (RemoteView (Some (or_str (err rv') (out rv'))) None [] 0%float 0%float)
                (local_configs v) (local_vms v) (local_vms_dump v))).
Proof.
  intros H. pose proof (api_backups_Ok _ _ _ _ _ _ H) as (Ha & Hb & Hc & Hd & He).
  split; [done |]. split.
  - intros rc' Hf. rewrite api_backups_tiers.
    by rewrite (remote_tier_failed _ _ Hf), Hb, Hc, Hd, He.
  - intros rv' Hf. rewrite api_backups_tiers.
    by rewrite (remote_tier_failed _ _ Hf), Ha, Hc, Hd, He.
Qed.

Lemma tier_summaries_are_independent_witness :
  exists v,
    api_backups sample_json_loads ∅ two_roots
      (CmdResult 0 one_file_text "") (CmdResult 0 one_file_text "") = Ok v
    /\ length (rv_items (b2_vms v)) = 1%nat
    /\ api_backups sample_json_loads ∅ two_roots
         (CmdResult 124 "" "timeout after 12s") (CmdResult 0 one_file_text "")
       = Ok (BackupsView
               (RemoteView (Some "timeout after 12s") None [] 0%float 0%float)
               (b2_vms v) (local_configs v) (local_vms v) (local_vms_dump v)).
Proof.
  destruct (api_backups sample_json_loads ∅ two_roots
              (CmdResult 0 one_file_text "") (CmdResult 0 one_file_text ""))
    as [v|x] eqn:E; [| vm_compute in E; discriminate].
  exists v. split; [reflexivity |]. split.
  - vm_compute in E. injection E as <-. reflexivity.
  - apply (proj1 (proj2 (tier_summaries_are_independent _ _ _ _ _ _ E))
             (CmdResult 124 "" "timeout after 12s")).
    simpl. lia.
Defined.

(** ** [recent_runs] *)

Lemma duration_of_spec (lib : string -> result datetime) (start e : log_entry) :
  duration_of lib start e =
  match fromisoformat lib (le_time start), fromisoformat lib (le_time e) with
  | Ok t_start, Ok t_end =>
      match datetime_sub t_end t_start with
      | Ok dur => format_float_1f (total_seconds dur) +:+ "s"
      | Raise _ => "n/a"
      end
  | _, _ => "n/a"
  end.
Proof.
  unfold duration_of.
  destruct (fromisoformat lib (le_time start)) as [ts|]; [| done].
  destruct (fromisoformat lib (le_time e)) as [te|]; [| done].
  cbn [mbind result_bind]. by destruct (datetime_sub te ts).
Qed.

(** A text outside the common format is read by the library: an offset
    written [+0000] and a final [Z] are such texts. *)
Lemma fromisoformat_other_forms (lib : string -> result datetime) :
  fromisoformat lib "2024-01-01T00:00:05+0000" = lib "2024-01-01T00:00:05+0000"
  /\ fromisoformat lib "2024-01-01T00:00:05Z" = lib "2024-01-01T00:00:05Z".
Proof. split; reflexivity. Qed.

(** On timestamps with the offset [+0000], where the library reads them,
    the duration is the difference of what the library returns. *)
Lemma duration_of_short_iso (lib : string -> result datetime) (n1 n2 : note)
    (l1 l2 : string) :
  lib "2024-01-01T00:00:00+0000" = Ok (Datetime 63839664000000000 (Some 0)) ->
  lib "2024-01-01T00:00:05+0000" = Ok (Datetime 63839664005000000 (Some 0)) ->
  duration_of lib (LogEntry "2024-01-01T00:00:00+0000" n1 l1)
                  (LogEntry "2024-01-01T00:00:05+0000" n2 l2) = "5.0s".
Proof.
  intros H0 H5. rewrite duration_of_spec. cbn [le_time].
  change (fromisoformat lib "2024-01-01T00:00:00+0000")
    with (lib "2024-01-01T00:00:00+0000").
  change (fromisoformat lib "2024-01-01T00:00:05+0000")
    with (lib "2024-01-01T00:00:05+0000").
  rewrite H0, H5. vm_compute. reflexivity.
Qed.

(** Whatever the library reads besides, a completion followed by the next
    run's start is paired with it and given a negative duration. *)
Lemma negative_duration_any_library (lib : string -> result datetime) :
  recent_runs lib (CmdResult 0 (line_done_00 +:+ nl +:+ line_start_05) "") 6
  = Ok [Run "2024-01-01T00:00:05" "ok" "-5.0s" "Done."]
  /\ fromisoformat lib "2024-01-01T00:00:05" = Ok (Datetime 63839664005000000 None)
  /\ fromisoformat lib "2024-01-01T00:00:00" = Ok (Datetime 63839664000000000 None).
Proof. repeat split; vm_compute; reflexivity. Qed.

(** A rendered duration ends in [s]: it is never the text [n/a]. *)
Lemma rendered_not_na (x : string) : x +:+ "s" <> "n/a".
Proof.
  destruct x as [|a [|b [|c [|d x]]]]; vm_compute; congruence.
Qed.

Lemma pair_entries_paired (lib : string -> result datetime) (all : list log_entry) (max_items : Z)
    (entries : list log_entry) :
  forall (start : option log_entry) (runs : list run),
    entries ⊆ all ->
    (forall s, start = Some s -> s ∈ all /\ le_note s = NStart) ->
    Forall (paired_in lib all) runs ->
    Forall (paired_in lib all) (pair_entries lib entries start runs max_items).
Proof.
  induction entries as [|e entries IH]; intros start runs Hsub Hstart Hruns;
    cbn [pair_entries]; [done |].
  assert (e ∈ all) as He by (apply Hsub; left).
  assert (entries ⊆ all) as Hsub' by (intros x Hx; apply Hsub; by right).
  destruct (le_note e) eqn:Hn.
  - destruct (max_items <=? _); [done |].
    apply IH; [done | | done]. intros s [= <-]. by split.
  - destruct start as [s|].
    + destruct (Hstart s eq_refl) as [Hs Hsn].
      assert (Forall (paired_in lib all) (runs ++ [pair_run lib s e])) as Hruns'.
      { apply Forall_app. split; [done |]. constructor; [| done].
        exists s, e. repeat split; try done. congruence. }
      destruct (max_items <=? _); [done |]. by apply IH.
    + destruct (max_items <=? _); [done |]. by apply IH.
  - destruct start as [s|].
    + destruct (Hstart s eq_refl) as [Hs Hsn].
      assert (Forall (paired_in lib all) (runs ++ [pair_run lib s e])) as Hruns'.
      { apply Forall_app. split; [done |]. constructor; [| done].
        exists s, e. repeat split; try done. congruence. }
      destruct (max_items <=? _); [done |]. by apply IH.
    + destruct (max_items <=? _); [done |]. by apply IH.
Qed.

(** The entries of the first loop are the classifications of the lines. *)
Lemma parse_entries_lines (lines : list string) :
  forall acc entries : list log_entry,
    parse_entries lines acc = Ok entries ->
    forall e, e ∈ entries ->
              e ∈ acc \/ (le_line e ∈ lines /\ classify (le_line e) = Ok (Some e)).
Proof.
  induction lines as [|line lines IH]; intros acc entries H e He;
    cbn [parse_entries] in H.
  - injection H as <-. by left.
  - apply bind_Ok in H as (c & Hc & H).
    destruct (IH _ _ H e He) as [Hacc|[Hin Hcl]].
    + destruct c as [e'|]; [| by left].
      apply elem_of_app in Hacc as [Hacc|Hnew]; [by left |].
      apply list_elem_of_singleton in Hnew as ->. right.
      assert (le_line e' = line) as Hline.
      { unfold classify in Hc.
        repeat (destruct (_ : bool) in Hc;
                [apply bind_Ok in Hc as ([ts msg] & _ & Hc); by injection Hc as <- |]).
        done. }
      rewrite Hline. split; [left | done].
    + right. split; [by right | done].
Qed.

(** C2, as the code has it.  Every emitted run pairs a start line with a
    terminal line of the batch and carries the start's time; whenever
    both timestamps parse and can be subtracted its duration is the
    difference terminal minus start, in seconds with one decimal, whatever
    its sign; and the duration is ["n/a"] exactly when a timestamp does
    not parse or the two cannot be subtracted. *)
Theorem run_duration_is_signed_difference (lib : string -> result datetime) (r : cmd_result) (max_items : Z)
    (runs : list run) :
  recent_runs lib r max_items = Ok runs ->
  Forall (fun ru =>
            exists s e,
              (le_line s ∈ splitlines (out r) /\ classify (le_line s) = Ok (Some s))
              /\ (le_line e ∈ splitlines (out r) /\ classify (le_line e) = Ok (Some e))
              /\ le_note s = NStart /\ le_note e <> NStart
              /\ run_time ru = le_time s
              /\ (forall t_start t_end dur,
                    fromisoformat lib (le_time s) = Ok t_start ->
                    fromisoformat lib (le_time e) = Ok t_end ->
                    datetime_sub t_end t_start = Ok dur ->
                    run_duration ru = format_float_1f (total_seconds dur) +:+ "s")
              /\ (run_duration ru = "n/a" <->
                  raises (fromisoformat lib (le_time s))
                  \/ raises (fromisoformat lib (le_time e))
                  \/ exists t_start t_end,
                       fromisoformat lib (le_time s) = Ok t_start
                       /\ fromisoformat lib (le_time e) = Ok t_end
                       /\ raises (datetime_sub t_end t_start)))
         runs.
Proof.
  unfold recent_runs. destruct (negb (code r =? 0)).
  { intros [= <-]. constructor. }
  intros H. apply bind_Ok in H as (entries & Hparse & H). injection H as <-.
  eapply Forall_impl.
  { apply (pair_entries_paired lib entries); [done | done | constructor]. }
  intros ru (s & e & Hs & He & Hsn & Hen & ->).
  exists s, e.
  assert (forall x, x ∈ entries ->
            le_line x ∈ splitlines (out r) /\ classify (le_line x) = Ok (Some x))
    as Hlines.
  { intros x Hx.
    destruct (parse_entries_lines _ _ _ Hparse x Hx) as [Habs|[Hin Hcl]].
    - by apply elem_of_nil in Habs.
    - split; [| done]. by apply list_elem_of_In, in_rev, list_elem_of_In. }
  split; [by apply Hlines |]. split; [by apply Hlines |].
  split; [done |]. split; [done |]. split; [reflexivity |].
  cbn [pair_run run_duration]. rewrite duration_of_spec. split.
  - intros ts te dur -> -> ->. reflexivity.
  - destruct (fromisoformat lib (le_time s)) as [ts|x1]; cbn [raises].
    2: { split; [by left | done]. }
    destruct (fromisoformat lib (le_time e)) as [te|x2]; cbn [raises].
    2: { split; [by right; left | done]. }
    destruct (datetime_sub te ts) as [dur|x3] eqn:Hsub.
    + split.
      * intros Hna. by apply rendered_not_na in Hna.
      * intros [[]|[[]|(ts' & te' & [= <-] & [= <-] & Hr)]].
        rewrite Hsub in Hr. destruct Hr.
    + split; [| done]. intros _. right. right.
      exists ts, te. by rewrite Hsub.
Qed.

Lemma run_duration_is_signed_difference_witness :
  Forall (fun ru => exists s e,
            le_note s = NStart /\ le_note e <> NStart /\ run_time ru = le_time s)
         [Run "2024-01-01T00:00:05" "ok" "-5.0s" "Done."].
Proof.
  eapply Forall_impl.
  - apply (run_duration_is_signed_difference no_other_form
             (CmdResult 0 (line_done_00 +:+ nl +:+ line_start_05) "") 6).
    vm_compute. reflexivity.
  - intros ru (s & e & _ & _ & Hs & He & Ht & _). by exists s, e.
Defined.

(** C2 as stated fails: in the journal's own order a run's completion
    precedes the next run's start; the reconstructor pairs the two, both
    timestamps parse, the start is the later one, and the duration is the
    negative ["-5.0s"], not ["n/a"].  Both timestamps are of the format
    that every version of the library reads, so the run is the same
    whatever the library reads besides ([negative_duration_any_library]). *)
Lemma recent_runs_negative_duration :
  exists ru t_start t_end,
    recent_runs no_other_form (CmdResult 0 (line_done_00 +:+ nl +:+ line_start_05) "") 6 = Ok [ru]
    /\ fromisoformat no_other_form (run_time ru) = Ok t_start
    /\ fromisoformat no_other_form "2024-01-01T00:00:00" = Ok t_end
    /\ wall_us t_end < wall_us t_start
    /\ run_duration ru = "-5.0s"
    /\ run_duration ru <> "n/a".
Proof.
  destruct (negative_duration_any_library no_other_form) as (Hruns & Hs & He).
  exists (Run "2024-01-01T00:00:05" "ok" "-5.0s" "Done."),
         (Datetime 63839664005000000 None), (Datetime 63839664000000000 None).
  repeat split; try done.
Qed.

(** C1. The journal delivers the two lines newest first; the
    reconstructor reads them as delivered and produces exactly one run:
    started at 00:00:00, status [ok], duration ["5.0s"]. *)
Theorem recent_runs_two_lines (lib : string -> result datetime) (err : string) (max_items : Z) :
  1 <= max_items ->
  splitlines (line_done_05 +:+ nl +:+ line_start_00)
  = ["2024-01-01T00:00:05 Done."; "2024-01-01T00:00:00 Starting unit"]
  /\ recent_runs lib (CmdResult 0 (line_done_05 +:+ nl +:+ line_start_00) err) max_items
     = Ok [Run "2024-01-01T00:00:00" "ok" "5.0s" "Done."].
Proof.
  intros Hmax. split; [vm_compute; reflexivity |].
  unfold recent_runs. cbn [code out].
  replace (parse_entries (rev (splitlines (line_done_05 +:+ nl +:+ line_start_00))) [])
    with (Ok [LogEntry "2024-01-01T00:00:00" NStart line_start_00;
              LogEntry "2024-01-01T00:00:05" NDone line_done_05])
    by (vm_compute; reflexivity).
  cbn [negb Z.eqb mbind result_bind pair_entries le_note].
  replace (pair_run lib _ _) with (Run "2024-01-01T00:00:00" "ok" "5.0s" "Done.")
    by (vm_compute; reflexivity).
  cbn [app length].
  destruct (Z.leb_spec max_items (Z.of_nat 0)); [simpl in *; lia |].
  by destruct (max_items <=? Z.of_nat 1).
Qed.

Lemma recent_runs_two_lines_witness :
  recent_runs no_other_form (CmdResult 0 (line_done_05 +:+ nl +:+ line_start_00) "") 6
  = Ok [Run "2024-01-01T00:00:00" "ok" "5.0s" "Done."].
Proof.
  apply (recent_runs_two_lines no_other_form "" 6). lia.
Defined.

(** C3 fails on the code: a line that holds the marker [Starting] and no
    space makes the unpacking of [line.split(" ", 1)] raise, and the
    exception leaves [recent_runs]; the same batch without that line
    gives its run. *)
Theorem recent_runs_malformed_line_raises (lib : string -> result datetime) :
  recent_runs lib (CmdResult 0 (line_done_05 +:+ nl +:+ "Starting" +:+ nl +:+ line_start_00) "") 6
  = Raise (Exn ValueError "not enough values to unpack (expected 2, got 1)")
  /\ recent_runs lib (CmdResult 0 (line_done_05 +:+ nl +:+ line_start_00) "") 6
     = Ok [Run "2024-01-01T00:00:00" "ok" "5.0s" "Done."].
Proof. split; vm_compute; reflexivity. Qed.

(** * Further properties of the code *)

(** ** [human_size] returns on every size a file can have *)

Lemma float_of_int_machine (n : Z) :
  - 2 ^ 64 < n < 2 ^ 64 -> exists f, float_of_int n = Ok f.
Proof.
  intros Hn. unfold float_of_int.
  pose proof (round_binary64_finite n 0 Hn ltac:(lia)) as Hfin.
  destruct (round_binary64 n 0); try by eexists. by destruct (Hfin s).
Qed.

Lemma human_size_loop_float (units : list string) :
  forall f : float, exists s, human_size_loop units (NFloat f) = Ok s.
Proof.
  induction units as [|u units IH]; intros f; cbn [human_size_loop].
  - by eexists.
  - destruct (lt_1024 (NFloat f)); [by eexists |]. apply IH.
Qed.

(** X1. [human_size] never raises on a float, nor on an integer below
    [2^64] in magnitude (every [st_size] and every JSON size of a real
    listing); it raises [TypeError] on a value that is not a number. *)
Theorem human_size_returns_on_sizes (v : pyval) :
  match v with
  | VFloat _ => exists s, human_size v = Ok s
  | VInt n => - 2 ^ 64 < n < 2 ^ 64 -> exists s, human_size v = Ok s
  | VBool _ => exists s, human_size v = Ok s
  | _ => exists msg, human_size v = Raise (Exn TypeError msg)
  end.
Proof.
  assert (forall n, - 2 ^ 64 < n < 2 ^ 64 -> exists s, human_size (VInt n) = Ok s)
    as Hint.
  { intros n Hn. unfold human_size. cbn [num_of human_size_loop].
    destruct (float_of_int_machine n Hn) as [f Hf].
    destruct (lt_1024 (NInt n)).
    - unfold format_1f. cbn [to_float]. rewrite Hf. by eexists.
    - unfold truediv_1024. cbn [to_float]. rewrite Hf. cbn [mbind result_bind].
      exact (human_size_loop_float ["KB"; "MB"; "GB"; "TB"] _). }
  destruct v as [|b|n|f|s|l|d]; try by eexists.
  - destruct b; vm_compute; by eexists.
  - exact (Hint n).
  - unfold human_size. cbn [num_of]. apply human_size_loop_float.
Qed.

Lemma human_size_returns_on_sizes_witness :
  exists s, human_size (VInt 18446744073709551615) = Ok s.
Proof.
  apply (human_size_returns_on_sizes (VInt 18446744073709551615)). lia.
Defined.

(** ** [cost_estimates]: what it keeps, and what makes it fail *)

Lemma annotate_other_keys (it : dict) (s e : float) (key : string) :
  key <> "est_storage" -> key <> "est_egress" ->
  annotate it s e !! key = it !! key.
Proof.
  intros H1 H2. unfold annotate.
  rewrite lookup_insert_ne by done. by rewrite lookup_insert_ne.
Qed.

(** X2. The costed list has one item per input item, in the same order; each
    costed item has every other key of its input item with the same
    value, and carries the two estimates. *)
Theorem cost_estimates_keeps_items (items est : list dict) (ts te : float) :
  cost_estimates items = Ok (est, ts, te) ->
  length est = length items
  /\ forall (i : nat) (it c : dict),
       items !! i = Some it -> est !! i = Some c ->
       (forall key, key <> "est_storage" -> key <> "est_egress" ->
                    c !! key = it !! key)
       /\ c !! "est_storage" = Some (VFloat (est_storage c))
       /\ c !! "est_egress" = Some (VFloat (est_egress c)).
Proof.
  intros H. apply cost_estimates_Ok in H as (Hall & _ & _).
  split; [symmetry; by eapply Forall2_length |].
  intros i it c Hi Hc.
  destruct (Forall2_lookup_lr _ _ _ _ _ _ Hall Hi Hc) as (s & e & _ & ->).
  split; [intros key; apply annotate_other_keys |].
  rewrite est_storage_annotate, est_egress_annotate. unfold annotate.
  rewrite lookup_insert_ne by done. by rewrite !lookup_insert_eq.
Qed.

Lemma cost_estimates_keeps_items_witness :
  length [ annotate {[ "size" := VInt 1073741824 ]} 0.005 0.01 ] = 1%nat.
Proof.
  apply (cost_estimates_keeps_items [ {[ "size" := VInt 1073741824 ]} ] _
           0.005%float 0.01%float).
  vm_compute. reflexivity.
Defined.

Lemma mapM_raises {A B} (f : A -> result B) (l : list A) (a : A) :
  a ∈ l -> raises (f a) -> raises (mapM f l).
Proof.
  intros Hin Hr. induction l as [|x l IH]; [by apply elem_of_nil in Hin |].
  rewrite mapM_cons. apply elem_of_cons in Hin as [<-|Hin].
  - by destruct (f a).
  - destruct (f x); [| done]. cbn [mbind result_bind].
    specialize (IH Hin). by destruct (mapM f l).
Qed.

(** X3. One item whose [size] is not a number makes the whole call raise: no
    partial list of estimates is returned. *)
Theorem cost_estimates_bad_size_raises (items : list dict) (it : dict) :
  it ∈ items ->
  num_of (get it "size" (VInt 0)) = None ->
  raises (cost_estimates items).
Proof.
  intros Hin Hsz. unfold cost_estimates. rewrite cost_estimates_loop_eq.
  assert (raises (mapM cost_item items)) as Hr.
  { apply (mapM_raises _ _ it Hin). unfold cost_item, truediv_gib. by rewrite Hsz. }
  by destruct (mapM cost_item items).
Qed.

Lemma cost_estimates_bad_size_raises_witness :
  raises (cost_estimates [ {[ "size" := VInt 1 ]}; {[ "size" := VStr "12" ]} ]).
Proof.
  apply (cost_estimates_bad_size_raises _ {[ "size" := VStr "12" ]}).
  - set_solver.
  - reflexivity.
Defined.

(** ** [list_local]: the summary agrees with the items *)

Lemma local_item_fields (f : entry) :
  item_size (local_item f) = st_size f /\ item_name (local_item f) = e_name f.
Proof.
  unfold item_size, item_name, local_item. split.
  - rewrite lookup_insert_ne by done. by rewrite lookup_insert_eq.
  - by rewrite lookup_insert_eq.
Qed.

Lemma list_local_loop_spec (files : list entry) :
  forall (items : list dict) (total : Z),
    list_local_loop files items total
    = (items ++ (local_item <$> files), total + foldr Z.add 0 (st_size <$> files)).
Proof.
  induction files as [|f files IH]; intros items total; cbn [list_local_loop]; csimpl.
  - by rewrite app_nil_r, Z.add_0_r.
  - rewrite IH. fold (local_item f). rewrite <- app_assoc. f_equal. lia.
Qed.

Lemma insert_name_perm (x : entry) (l : list entry) : insert_name x l ≡ₚ x :: l.
Proof.
  induction l as [|y l IH]; simpl; [done |].
  destruct (String.leb _ _); [done |]. rewrite IH. apply Permutation_swap.
Qed.

Lemma sorted_name_perm (l : list entry) : sorted_name l ≡ₚ l.
Proof.
  induction l as [|x l IH]; simpl; [done |]. by rewrite insert_name_perm, IH.
Qed.

Lemma insert_name_sorted (x : entry) (l : list entry) :
  StronglySorted name_le l -> StronglySorted name_le (insert_name x l).
Proof.
  induction 1 as [|y l Hl IH Hy]; simpl.
  - repeat constructor.
  - destruct (String.leb (e_name x) (e_name y)) eqn:Hxy.
    + constructor; [by constructor |].
      assert (name_le x y) as Hle by (unfold name_le, String.le; by rewrite Hxy).
      constructor; [done |].
      eapply Forall_impl; [exact Hy |]. intros z Hz.
      unfold name_le in *. by etrans.
    + constructor; [done |].
      rewrite insert_name_perm. constructor; [| done].
      unfold name_le. destruct (total String.le (e_name y) (e_name x)) as [|Hc];
        [done |]. unfold String.le in Hc. rewrite Hxy in Hc. done.
Qed.

Lemma sorted_name_sorted (l : list entry) : StronglySorted name_le (sorted_name l).
Proof.
  induction l as [|x l IH]; simpl; [constructor | by apply insert_name_sorted].
Qed.

(** X4. The count of a local listing is the number of its items, its size is
    the sum of their sizes, every item is an archive ([*.tar.gz]), and the
    items are in ascending order of name. *)
Theorem list_local_summary_agrees (fs : filesystem) (path : string) :
  let r := list_local fs path in
  ll_count r = Z.of_nat (length (ll_items r))
  /\ ll_size r = foldr Z.add 0 (item_size <$> ll_items r)
  /\ Forall (fun d => endswith (item_name d) ".tar.gz" = true) (ll_items r)
  /\ StronglySorted (fun a b => String.le (item_name a) (item_name b)) (ll_items r).
Proof.
  cbn zeta. unfold list_local. destruct (fs !! path) as [p|];
    [| repeat split; constructor].
  rewrite list_local_loop_spec. cbn [ll_count ll_size ll_items app].
  set (files := sorted_name (glob_tar_gz path p)).
  assert (Forall (fun f => endswith (e_name f) ".tar.gz" = true) files) as Hgz.
  { unfold files. rewrite sorted_name_perm. unfold glob_tar_gz.
    destruct p as [|? ? children]; [constructor |].
    apply Forall_forall. intros f Hf.
    apply list_elem_of_filter in Hf as [Hf _]. by apply Is_true_true. }
  pose proof (sorted_name_sorted (glob_tar_gz path p)) as Hs. fold files in Hs.
  split; [done |]. split; [| split].
  - rewrite Z.add_0_l. f_equal. rewrite <- list_fmap_compose.
    apply list_fmap_ext. intros i f _. symmetry. apply local_item_fields.
  - rewrite Forall_fmap. eapply Forall_impl; [exact Hgz |].
    intros f Hf. cbn. by rewrite (proj2 (local_item_fields f)).
  - clear Hgz. induction Hs as [|f l Hl IH Hf]; csimpl; constructor; [done |].
    rewrite Forall_fmap. eapply Forall_impl; [exact Hf |].
    intros g Hg. cbn. by rewrite !(proj2 (local_item_fields _)).
Qed.

(** ** [list_local_recursive] with a maximum of zero or less *)

Lemma scan_root_no_room (max_items : Z) (files : list entry) :
  max_items <= 0 ->
  scan_root files [] max_items =
  match filter (fun f => Is_true (listable f)) files with
  | [] => ([], false)
  | f :: _ => ([item_of f], true)
  end.
Proof.
  intros Hmax. induction files as [|f files IH]; [done |].
  cbn [scan_root]. rewrite filter_cons.
  destruct (decide (Is_true (listable f))) as [Hl|Hl].
  - apply Is_true_true in Hl. destruct (listable_item f Hl) as [Hf Hitem].
    rewrite Hf, Hitem. cbn [negb app length].
    by destruct (Z.leb_spec max_items (Z.of_nat 1)); [| lia].
  - apply Is_true_false in Hl. unfold listable in Hl.
    destruct (is_file f); [| exact IH].
    destruct (recursive_item f); [done | exact IH].
Qed.

(** X5. The length test follows the append: with a maximum of zero or less,
    the listing is not empty but holds the first item found, the newest
    file of the first root that has one. *)
Theorem list_local_recursive_zero_max (fs : filesystem) (paths : list string)
    (max_items : Z) :
  max_items <= 0 ->
  list_local_recursive fs paths max_items
  = take 1 (item_of <$> concat (root_files fs <$> paths)).
Proof.
  intros Hmax. unfold list_local_recursive.
  induction paths as [|base paths IH]; [done |].
  cbn [list_local_recursive_loop]. csimpl. unfold root_files at 1.
  destruct (fs !! base) as [p|]; [| exact IH].
  rewrite (scan_root_no_room max_items _ Hmax).
  destruct (filter _ _) as [|f l]; [exact IH | done].
Qed.

Lemma list_local_recursive_zero_max_witness :
  length (list_local_recursive two_roots
            ["/var/lib/vz/dump"; "/mnt/thinner/backups"] 0) = 1%nat.
Proof.
  rewrite (list_local_recursive_zero_max two_roots _ 0); [| lia].
  vm_compute. reflexivity.
Defined.

(** ** The remote collectors on an answer that does not decode *)

(** X6. Whatever the command answered and whatever the decoder does,
    [b2_stats] and [b2_list] return a value; when the command succeeded
    and its output does not decode, the value is the empty one, with the
    text of the exception as [error]. *)
Theorem remote_collectors_never_raise (json_loads : string -> result pyval)
    (r : cmd_result) (max_items : Z) :
  (exists s, b2_stats json_loads r = Ok s)
  /\ (exists l, b2_list json_loads r max_items = Ok l)
  /\ (forall exc,
        code r = 0 -> json_loads (out r) = Raise exc ->
        b2_stats json_loads r = Ok (RemoteStats 0 (VInt 0) (Some (exn_str exc)))
        /\ b2_list json_loads r max_items
           = Ok (RemoteListing (Some (exn_str exc)) [] None)).
Proof.
  split; [apply b2_stats_total |]. split; [apply b2_list_total |].
  intros exc Hc Hj. unfold b2_stats, b2_list. by rewrite Hc, Hj.
Qed.

Lemma remote_collectors_never_raise_witness :
  b2_stats sample_json_loads (CmdResult 0 "<html>" "")
  = Ok (RemoteStats 0 (VInt 0) (Some "Expecting value: line 1 column 1 (char 0)")).
Proof.
  apply (proj2 (proj2 (remote_collectors_never_raise sample_json_loads
                         (CmdResult 0 "<html>" "") 200))
           (Exn JSONDecodeError "Expecting value: line 1 column 1 (char 0)")).
  - reflexivity.
  - reflexivity.
Defined.

(** ** [b2_list] against [b2_stats] *)

Lemma sorted_by_modtime_perm (files sorted : list pyval) :
  sorted_by_modtime files = Ok sorted -> sorted ≡ₚ files.
Proof.
  unfold sorted_by_modtime. intros H.
  apply bind_Ok in H as (keyed & Hk & H).
  assert (keyed.*1 = files) as Hfst.
  { apply mapM_result_Forall2 in Hk. clear H.
    induction Hk as [|f [f' k] files keyed Hf _ IH]; csimpl; [done |].
    apply bind_Ok in Hf as (k' & _ & [= <- _]). by rewrite IH. }
  destruct (length keyed <=? 1)%nat; [by injection H as <- |].
  destruct (comparable keyed.*2); [| done].
  injection H as <-. by rewrite sorted_desc_perm, Hfst.
Qed.

Lemma slice_to_length {A} (n : Z) (l : list A) :
  0 <= n -> (length (slice_to n l) <= Z.to_nat n)%nat
            /\ (length (slice_to n l) <= length l)%nat.
Proof.
  intros Hn. unfold slice_to.
  destruct (Z.leb_spec 0 n); [| lia]. rewrite length_take. lia.
Qed.

(** X7. When [b2_list] lists without error, at most [max_items] items are
    listed (for a maximum that is not negative), [b2_stats] succeeds on the
    same answer, its size is the [total] of the listing, and its count, the
    number of remote files, is at least the number of listed items: the
    total covers the files cut off by the maximum. *)
Theorem b2_list_agrees_with_b2_stats (json_loads : string -> result pyval)
    (r : cmd_result) (max_items : Z) (l : remote_listing) :
  0 <= max_items ->
  b2_list json_loads r max_items = Ok l ->
  rl_error l = None ->
  Z.of_nat (length (rl_items l)) <= max_items
  /\ exists count total,
       b2_stats json_loads r = Ok (RemoteStats count total None)
       /\ rl_total l = Some total
       /\ Z.of_nat (length (rl_items l)) <= count.
Proof.
  intros Hmax H Herr. unfold b2_list in H. unfold b2_stats.
  destruct (negb (code r =? 0)).
  { injection H as <-. done. }
  unfold try_except in H.
  destruct (json_loads (out r)) as [files|x]; cbn [mbind result_bind] in *.
  2: { injection H as <-. done. }
  destruct (py_iter files) as [elems|x]; cbn [mbind result_bind] in *.
  2: { injection H as <-. done. }
  destruct (sorted_by_modtime elems) as [sorted|x] eqn:Hs;
    cbn [mbind result_bind] in *.
  2: { injection H as <-. done. }
  destruct (mapM b2_item (slice_to max_items sorted)) as [items|x] eqn:Hi;
    cbn [mbind result_bind] in *.
  2: { injection H as <-. done. }
  destruct (sum_sizes elems (VInt 0)) as [total|x]; cbn [mbind result_bind] in *.
  2: { injection H as <-. done. }
  injection H as <-. cbn [rl_items rl_total].
  apply mapM_result_Forall2, Forall2_length in Hi. rewrite <- Hi.
  destruct (slice_to_length max_items sorted Hmax) as [H1 H2].
  apply sorted_by_modtime_perm, Permutation_length in Hs.
  split; [lia |]. exists (Z.of_nat (length elems)), total.
  repeat split. lia.
Qed.

Lemma b2_list_agrees_with_b2_stats_witness :
  exists count total,
    b2_stats sample_json_loads (CmdResult 0 one_file_text "")
    = Ok (RemoteStats count total None)
    /\ total = VInt 1073741824.
Proof.
  destruct (b2_list sample_json_loads (CmdResult 0 one_file_text "") 0)
    as [l|x] eqn:E; [| vm_compute in E; discriminate].
  assert (rl_error l = None /\ rl_total l = Some (VInt 1073741824)) as [Herr Ht].
  { vm_compute in E. injection E as <-. by split. }
  destruct (b2_list_agrees_with_b2_stats sample_json_loads
              (CmdResult 0 one_file_text "") 0 l ltac:(lia) E Herr)
    as (_ & count & total & Hst & Htot & _).
  exists count, total. split; [exact Hst | congruence].
Defined.

(** ** [recent_runs]: when it raises *)

Lemma split_ts_msg_raises (line : string) :
  raises (split_ts_msg line) <-> partition_space line = None.
Proof.
  unfold split_ts_msg. cbn [split_space].
  destruct (partition_space line) as [[a b]|]; cbn; split; done.
Qed.

Lemma classify_raises (line : string) :
  raises (classify line) <->
  is_marked line = true /\ partition_space line = None.
Proof.
  unfold classify, is_marked, is_start_line, is_terminal_line.
  pose proof (split_ts_msg_raises line) as Hs.
  destruct (contains "Starting" line); cbn [negb andb orb].
  { destruct (split_ts_msg line) as [[ts msg]|]; cbn in *; naive_solver. }
  destruct (contains "Done." line || contains "Deactivated successfully" line);
    cbn [orb].
  { destruct (split_ts_msg line) as [[ts msg]|]; cbn in *; naive_solver. }
  destruct (contains "Failed to start" line || contains "exit-code" line).
  { destruct (split_ts_msg line) as [[ts msg]|]; cbn in *; naive_solver. }
  cbn. naive_solver.
Qed.

Lemma parse_entries_raises (lines : list string) :
  forall acc, raises (parse_entries lines acc) <->
              exists line, line ∈ lines /\ raises (classify line).
Proof.
  induction lines as [|line lines IH]; intros acc; cbn [parse_entries].
  - split; [done |]. intros (l & Hl & _). by apply elem_of_nil in Hl.
  - destruct (classify line) as [c|x] eqn:Hc; cbn [mbind result_bind].
    + rewrite IH. split.
      * intros (l & Hl & Hr). exists l. split; [by right | done].
      * intros (l & Hl & Hr). apply elem_of_cons in Hl as [->|Hl].
        -- by rewrite Hc in Hr.
        -- by exists l.
    + split; [| done]. intros _. exists line. split; [left |]. by rewrite Hc.
Qed.

(** X8. [recent_runs] raises exactly when the command succeeded and some
    line of its output holds a marker and no space; on every other
    output it returns its runs. *)
Theorem recent_runs_raises_iff (lib : string -> result datetime) (r : cmd_result) (max_items : Z) :
  raises (recent_runs lib r max_items) <->
  code r = 0
  /\ exists line, line ∈ splitlines (out r)
                  /\ is_marked line = true /\ partition_space line = None.
Proof.
  unfold recent_runs. destruct (Z.eqb_spec (code r) 0) as [Hc|Hc]; cbn [negb].
  - pose proof (parse_entries_raises (rev (splitlines (out r))) []) as Hp.
    destruct (parse_entries (rev (splitlines (out r))) []) as [entries|x];
      cbn [mbind result_bind raises] in *.
    + split; [done |]. intros (_ & line & Hl & Hm).
      apply Hp. exists line. split; [| by apply classify_raises].
      by apply list_elem_of_In, in_rev, list_elem_of_In in Hl.
    + split; [| done]. intros _. split; [done |].
      destruct (proj1 Hp I) as (line & Hl & Hr).
      exists line. split; [| by apply classify_raises].
      by apply list_elem_of_In, in_rev, list_elem_of_In.
  - cbn. split; [done | by intros [? _]].
Qed.

(** ** [recent_runs]: how many runs, and what they hold *)

Lemma classify_Some (line : string) (e : log_entry) :
  classify line = Ok (Some e) ->
  le_line e = line
  /\ is_marked line = true
  /\ (le_note e = NStart <-> is_start_line line = true)
  /\ (le_note e <> NStart <-> is_terminal_line line = true).
Proof.
  unfold classify, is_marked, is_start_line, is_terminal_line.
  destruct (contains "Starting" line); cbn [negb andb orb].
  { intros H. apply bind_Ok in H as ([ts msg] & _ & [= <-]). cbn. naive_solver. }
  destruct (contains "Done." line || contains "Deactivated successfully" line)
    eqn:Hd; cbn [orb].
  { intros H. apply bind_Ok in H as ([ts msg] & _ & [= <-]). cbn. naive_solver. }
  destruct (contains "Failed to start" line || contains "exit-code" line) eqn:Hf.
  { intros H. apply bind_Ok in H as ([ts msg] & _ & [= <-]). cbn. naive_solver. }
  done.
Qed.

Lemma classify_None (line : string) :
  classify line = Ok None -> is_start_line line = false /\ is_terminal_line line = false.
Proof.
  unfold classify, is_start_line, is_terminal_line.
  destruct (contains "Starting" line); cbn [negb andb orb].
  { intros H. by apply bind_Ok in H as ([ts msg] & _ & ?). }
  destruct (contains "Done." line || contains "Deactivated successfully" line)
    eqn:Hd; cbn [orb].
  { intros H. by apply bind_Ok in H as ([ts msg] & _ & ?). }
  destruct (contains "Failed to start" line || contains "exit-code" line) eqn:Hf.
  { intros H. by apply bind_Ok in H as ([ts msg] & _ & ?). }
  done.
Qed.

(** The entries count the start lines and the terminal lines. *)
Lemma parse_entries_counts (lines : list string) :
  forall acc entries,
    parse_entries lines acc = Ok entries ->
    starts entries
    = (starts acc + length (filter (fun l => is_start_line l = true) lines))%nat
    /\ terminals entries
       = (terminals acc + length (filter (fun l => is_terminal_line l = true) lines))%nat.
Proof.
  induction lines as [|line lines IH]; intros acc entries H; cbn [parse_entries] in H.
  - injection H as <-. rewrite !filter_nil. simpl. lia.
  - apply bind_Ok in H as (c & Hc & H). apply IH in H as [Hs Ht].
    rewrite Hs, Ht, !filter_cons. clear Hs Ht. unfold starts, terminals.
    destruct c as [e|].
    + apply classify_Some in Hc as (_ & _ & Hst & Hte).
      rewrite !filter_app, !length_app, !filter_cons, !filter_nil.
      repeat case_decide; simpl; try lia; exfalso; naive_solver.
    + apply classify_None in Hc as [Hst Hte].
      repeat case_decide; simpl; try lia; congruence.
Qed.

Lemma pair_entries_bounds (lib : string -> result datetime) (max_items : Z) (entries : list log_entry) :
  forall (start : option log_entry) (runs : list run),
    let out := pair_entries lib entries start runs max_items in
    (length out <= length runs + terminals entries)%nat
    /\ (length out <= length runs + starts entries
                      + match start with Some _ => 1 | None => 0 end)%nat
    /\ (Z.of_nat (length runs) < max_items \/ (start = None /\ runs = []) ->
        Z.of_nat (length out) <= Z.max 0 max_items).
Proof.
  induction entries as [|e entries IH]; intros start runs; cbn zeta;
    cbn [pair_entries].
  - unfold starts, terminals. rewrite !filter_nil. simpl.
    repeat split; [lia | destruct start; lia |].
    intros [?|[_ ->]]; simpl; lia.
  - assert (starts (e :: entries)
            = (match le_note e with NStart => 1 | _ => 0 end + starts entries)%nat
            /\ terminals (e :: entries)
               = (match le_note e with NStart => 0 | _ => 1 end + terminals entries)%nat)
      as [-> ->].
    { unfold starts, terminals. rewrite !filter_cons.
      destruct (le_note e); repeat case_decide; simpl; try congruence; by split. }
    pose proof (IH (Some e) runs) as IHs.
    pose proof (IH None runs) as IHn.
    destruct (le_note e), start as [s|];
      try (pose proof (IH None (runs ++ [pair_run lib s e])) as IHp;
           cbn zeta in IHp; rewrite length_app in IHp; simpl in IHp);
      cbn zeta in IHs, IHn;
      match goal with
      | |- context [Z.leb max_items ?n] => destruct (Z.leb_spec max_items n)
      end;
      rewrite ?length_app in *; simpl in *;
      (repeat split; [lia | lia |]; intros [?|[? ?]]; subst; simpl in *;
       try discriminate; lia).
Qed.

Lemma length_filter_rev {A} (P : A -> Prop) `{!forall x, Decision (P x)}
    (l : list A) :
  length (filter P (rev l)) = length (filter P l).
Proof.
  apply Permutation_length. apply filter_Permutation.
  symmetry. apply Permutation_rev.
Qed.

Lemma recent_runs_length_bounds (lib : string -> result datetime) (r : cmd_result) (max_items : Z) (runs : list run) :
  recent_runs lib r max_items = Ok runs ->
  Z.of_nat (length runs) <= Z.max 0 max_items
  /\ (length runs
      <= length (filter (fun l => is_terminal_line l = true) (splitlines (out r))))%nat
  /\ (length runs
      <= length (filter (fun l => is_start_line l = true) (splitlines (out r))))%nat.
Proof.
  unfold recent_runs. destruct (negb (code r =? 0)).
  { intros [= <-]. simpl. repeat split; lia. }
  intros H. apply bind_Ok in H as (entries & Hp & [= <-]).
  apply parse_entries_counts in Hp as [Hs Ht].
  rewrite length_filter_rev in Hs, Ht.
  pose proof (pair_entries_bounds lib max_items entries None []) as (H1 & H2 & H3).
  cbn zeta in *. unfold starts, terminals in Hs, Ht. rewrite !filter_nil in Hs, Ht.
  simpl in *. fold (starts entries) in Hs. fold (terminals entries) in Ht.
  repeat split; [apply H3; by right | lia | lia].
Qed.

(** X9. The number of runs is at most [max_items] (none for a maximum of
    zero or less), at most the number of terminal lines of the output, and
    at most the number of its start lines: a terminal line without a
    pending start gives no run, and a start is paired at most once. *)
Theorem recent_runs_count (lib : string -> result datetime) (r : cmd_result) (max_items : Z) (runs : list run) :
  recent_runs lib r max_items = Ok runs ->
  Z.of_nat (length runs) <= Z.max 0 max_items
  /\ (length runs
      <= length (filter (fun l => is_terminal_line l = true) (splitlines (out r))))%nat
  /\ (length runs
      <= length (filter (fun l => is_start_line l = true) (splitlines (out r))))%nat.
Proof. apply recent_runs_length_bounds. Qed.

Lemma recent_runs_count_witness :
  Z.of_nat (length [Run "2024-01-01T00:00:00" "ok" "5.0s" "Done."]) <= Z.max 0 6.
Proof.
  apply (recent_runs_count no_other_form
           (CmdResult 0 (line_done_05 +:+ nl +:+ line_start_00) "") 6).
  vm_compute. reflexivity.
Defined.

Lemma substring_length_le (n : nat) :
  forall s : string, (String.length (String.substring 0 n s) <= n)%nat.
Proof.
  induction n as [|n IH]; intros [|c s]; simpl; try lia.
  specialize (IH s). lia.
Qed.

(** X10. Every run has the status ["ok"] or ["fail"], ["ok"] exactly when its
    terminal line holds [Done.] or [Deactivated successfully], and a note
    of at most 80 characters. *)
Theorem recent_runs_fields (lib : string -> result datetime) (r : cmd_result) (max_items : Z) (runs : list run) :
  recent_runs lib r max_items = Ok runs ->
  Forall (fun ru =>
            (run_status ru = "ok" \/ run_status ru = "fail")
            /\ (String.length (run_note ru) <= 80)%nat
            /\ exists e,
                 le_line e ∈ splitlines (out r)
                 /\ is_terminal_line (le_line e) = true
                 /\ run_note ru = note_of (le_line e)
                 /\ (run_status ru = "ok" <->
                     contains "Done." (le_line e)
                     || contains "Deactivated successfully" (le_line e) = true))
         runs.
Proof.
  unfold recent_runs. destruct (negb (code r =? 0)).
  { intros [= <-]. constructor. }
  intros H. apply bind_Ok in H as (entries & Hparse & [= <-]).
  eapply Forall_impl.
  { apply (pair_entries_paired lib entries); [done | done | constructor]. }
  intros ru (s & e & _ & He & _ & Hen & ->).
  destruct (parse_entries_lines _ _ _ Hparse e He) as [Habs|[Hin Hcl]];
    [by apply elem_of_nil in Habs |].
  apply list_elem_of_In, in_rev, list_elem_of_In in Hin.
  cbn [pair_run run_status run_note]. split; [destruct (le_note e); auto |].
  split; [apply substring_length_le |].
  exists e. split; [done |].
  pose proof (classify_Some _ _ Hcl) as (_ & _ & _ & Hte).
  split; [by apply Hte |]. split; [done |].
  unfold classify in Hcl.
  destruct (contains "Starting" (le_line e)).
  { apply bind_Ok in Hcl as ([ts msg] & _ & [= Heq]). by rewrite <- Heq in Hen. }
  destruct (contains "Done." (le_line e)
            || contains "Deactivated successfully" (le_line e)).
  { apply bind_Ok in Hcl as ([ts msg] & _ & [= Heq]). by rewrite <- Heq. }
  destruct (contains "Failed to start" (le_line e) || contains "exit-code" (le_line e));
    [| done].
  apply bind_Ok in Hcl as ([ts msg] & _ & [= Heq]). rewrite <- Heq. cbn.
  split; [discriminate | done].
Qed.

Lemma recent_runs_fields_witness :
  Forall (fun ru => run_status ru = "ok" \/ run_status ru = "fail")
         [Run "2024-01-01T00:00:00" "ok" "5.0s" "Done."].
Proof.
  eapply Forall_impl.
  - apply (recent_runs_fields no_other_form
             (CmdResult 0 (line_done_05 +:+ nl +:+ line_start_00) "") 6).
    vm_compute. reflexivity.
  - intros ru [H _]. exact H.
Defined.

(** ** The run panels of the dashboard *)

(** X11. A run panel shows at most six runs, all of status ["ok"], taken in
    order from the at most twelve runs reconstructed: failed runs among
    the twelve take the place of older successful ones. *)
Theorem dashboard_runs_shows_ok (lib : string -> result datetime) (r : cmd_result) (runs : list run) :
  dashboard_runs lib r = Ok runs ->
  (length runs <= 6)%nat
  /\ Forall (fun ru => run_status ru = "ok") runs
  /\ exists runs_all,
       recent_runs lib r 12 = Ok runs_all
       /\ (length runs_all <= 12)%nat
       /\ runs `sublist_of` runs_all.
Proof.
  unfold dashboard_runs. intros H.
  apply bind_Ok in H as (runs_all & Hall & [= <-]). unfold ok_runs.
  split; [rewrite length_take; lia |]. split.
  - apply Forall_take, Forall_forall. intros ru Hru.
    by apply list_elem_of_filter in Hru as [? _].
  - exists runs_all. split; [done |]. split.
    + apply recent_runs_length_bounds in Hall as [Hc _]. lia.
    + etrans; [apply sublist_take | apply sublist_filter].
Qed.

Lemma dashboard_runs_shows_ok_witness :
  (length [Run "2024-01-01T00:00:00" "ok" "5.0s" "Done."] <= 6)%nat.
Proof.
  apply (dashboard_runs_shows_ok no_other_form
           (CmdResult 0 (line_done_05 +:+ nl +:+ line_start_00) "")).
  vm_compute. reflexivity.
Defined.

(** ** [truncate] *)

Lemma substring_length (n : nat) :
  forall s : string,
    String.length (String.substring 0 n s) = Nat.min n (String.length s).
Proof.
  induction n as [|n IH]; intros [|c s]; simpl; try done. by rewrite IH.
Qed.

Lemma append_length (a b : string) :
  String.length (a +:+ b) = (String.length a + String.length b)%nat.
Proof. induction a as [|c a IH]; simpl; [done | by rewrite IH]. Qed.

Lemma substring_append_prefix (n : nat) :
  forall a b : string,
    (n <= String.length a)%nat ->
    String.substring 0 n (a +:+ b) = String.substring 0 n a.
Proof.
  induction n as [|n IH]; intros [|c a] b Hn; simpl in *; try done; try lia.
  - by destruct b.
  - rewrite IH; [done | lia].
Qed.

Lemma substring_idem (n : nat) :
  forall s : string,
    String.substring 0 n (String.substring 0 n s) = String.substring 0 n s.
Proof.
  induction n as [|n IH]; intros [|c s]; simpl; try done. by rewrite IH.
Qed.

Lemma truncate_spec (text : string) (limit : Z) :
  0 <= limit ->
  truncate None limit = EmptyString
  /\ Z.of_nat (String.length (truncate (Some text) limit)) <= limit + 18
  /\ (Z.of_nat (String.length text) <= limit -> truncate (Some text) limit = text)
  /\ (limit < Z.of_nat (String.length text) ->
      truncate (Some text) limit
      = String.substring 0 (Z.to_nat limit) text +:+ truncated_mark)
  /\ String.substring 0 (Z.to_nat limit) (truncate (Some text) limit)
     = String.substring 0 (Z.to_nat limit) text.
Proof.
  intros Hl. unfold truncate, str_slice_to.
  destruct (Z.leb_spec 0 limit); [| lia].
  destruct (Z.leb_spec (Z.of_nat (String.length text)) limit) as [Hshort|Hlong].
  - repeat split; try done; lia.
  - split; [done |]. split.
    { rewrite append_length, substring_length.
      change (String.length truncated_mark) with 18%nat. lia. }
    split; [lia |]. split; [done |].
    rewrite substring_append_prefix; [apply substring_idem |].
    rewrite substring_length. lia.
Qed.

(** X12. For a limit that is not negative, [truncate] returns a text of at
    most [limit] characters plus the 18 of the mark; a text within the
    limit is returned as it is, a longer one keeps exactly its first
    [limit] characters before the mark; [None] gives the empty text. *)
Theorem truncate_bounds (text : string) (limit : Z) :
  0 <= limit ->
  truncate None limit = EmptyString
  /\ Z.of_nat (String.length (truncate (Some text) limit)) <= limit + 18
  /\ (Z.of_nat (String.length text) <= limit -> truncate (Some text) limit = text)
  /\ (limit < Z.of_nat (String.length text) ->
      truncate (Some text) limit
      = String.substring 0 (Z.to_nat limit) text +:+ truncated_mark)
  /\ String.substring 0 (Z.to_nat limit) (truncate (Some text) limit)
     = String.substring 0 (Z.to_nat limit) text.
Proof. apply truncate_spec. Qed.

Lemma truncate_bounds_witness :
  truncate (Some "0123456789") 4 = "0123" +:+ truncated_mark.
Proof.
  apply (proj1 (proj2 (proj2 (proj2 (truncate_bounds "0123456789" 4 ltac:(lia)))))).
  simpl. lia.
Defined.

(** X13. The log panel of the dashboard holds at most 3018 characters, and
    shows the command's error text when the journal command failed. *)
Theorem dashboard_log_bounds (r : cmd_result) :
  (String.length (dashboard_log r) <= 3018)%nat
  /\ (code r <> 0 -> dashboard_log r = truncate (Some (or_str (err r) (out r))) 3000).
Proof.
  unfold dashboard_log. split.
  - pose proof (truncate_spec (journal_tail r) 3000 ltac:(lia)) as (_ & H & _). lia.
  - intros Hc. apply Z.eqb_neq in Hc. unfold journal_tail. by rewrite Hc.
Qed.

Lemma dashboard_log_bounds_witness :
  dashboard_log (CmdResult 1 "" "No journal files were found.")
  = truncate (Some "No journal files were found.") 3000.
Proof.
  apply (proj2 (dashboard_log_bounds (CmdResult 1 "" "No journal files were found."))).
  simpl. lia.
Defined.

(** ** [timer_info] *)

Lemma or_str_nonempty (a b : string) : b <> EmptyString -> or_str a b <> EmptyString.
Proof. intros Hb H. apply or_str_empty in H as [_ ?]. done. Qed.

(** The dictionary filled by the loop never holds an empty [next] or
    [last], and holds an empty [unit] only for an empty timer name. *)
Lemma timer_data_nonempty (timer_name : string) (lines : list string) :
  forall data : gmap string string,
    (forall v, data !! "next" = Some v -> v <> EmptyString) ->
    (forall v, data !! "last" = Some v -> v <> EmptyString) ->
    (forall v, data !! "unit" = Some v -> v = EmptyString -> timer_name = EmptyString) ->
    let data' := fold_left (timer_line timer_name) lines data in
    (forall v, data' !! "next" = Some v -> v <> EmptyString)
    /\ (forall v, data' !! "last" = Some v -> v <> EmptyString)
    /\ (forall v, data' !! "unit" = Some v -> v = EmptyString -> timer_name = EmptyString).
Proof.
  induction lines as [|line lines IH]; intros data Hn Hl Hu; cbn zeta; [done |].
  cbn [fold_left]. apply IH; unfold timer_line;
    destruct (partition_char "=" line) as [[k v]|]; try done;
    repeat (destruct (String.eqb k _); [
      intros w Hw;
      (rewrite lookup_insert_ne in Hw by done; eauto)
      || (rewrite lookup_insert_eq in Hw; injection Hw as <-;
          first [ by apply or_str_nonempty
                | intros He; apply or_str_empty in He as [_ ->]; done ]) |]);
    done.
Qed.

(** Reduce an append whose first argument starts with a constructor. *)
Ltac red_append H := unfold String.append in H; fold String.append in H.

Lemma partition_char_Some (c : ascii) (s a b : string) :
  partition_char c s = Some (a, b) <->
  s = a +:+ String c b /\ Forall (fun x => x <> c) (list_ascii_of_string a).
Proof.
  revert a. induction s as [|x s IH]; intros a; cbn [partition_char].
  - split; [done |]. intros [H _]. by destruct a.
  - destruct (Ascii.eqb_spec x c) as [->|Hne].
    + split.
      * intros [= <- <-]. split; [done | constructor].
      * intros [H Ha]. destruct a as [|y a]; red_append H.
        -- by injection H as <-.
        -- injection H as <- _. apply Forall_cons in Ha as [? _]. done.
    + destruct (partition_char c s) as [[a' b']|] eqn:E; split.
      * intros [= <- <-]. destruct (proj1 (IH a') eq_refl) as [-> Ha'].
        split; [done | by constructor].
      * intros [H Ha]. destruct a as [|y a]; red_append H; [congruence |].
        injection H as <- H. apply Forall_cons in Ha as [_ Ha].
        by pose proof (proj2 (IH a) (conj H Ha)) as [= -> ->].
      * done.
      * intros [H Ha]. destruct a as [|y a]; red_append H; [congruence |].
        injection H as <- H. apply Forall_cons in Ha as [_ Ha].
        by pose proof (proj2 (IH a) (conj H Ha)).
Qed.

Lemma append_assoc (a b c : string) : (a +:+ b) +:+ c = a +:+ (b +:+ c).
Proof.
  induction a as [|x a IH]; [done |].
  unfold String.append; fold String.append. by rewrite IH.
Qed.

Lemma strip_prefix_Some (p s v : string) :
  strip_prefix p s = Some v <-> s = p +:+ v.
Proof.
  revert s. induction p as [|a p IH]; intros s; cbn [strip_prefix].
  - split; [by intros [= ->] | by intros ->].
  - unfold String.append; fold String.append. destruct s as [|b s].
    + split; done.
    + destruct (Ascii.eqb_spec a b) as [<-|Hne].
      * rewrite IH. split; [by intros -> | by intros [= ->]].
      * split; [done | by intros [= ? _]].
Qed.

(** For a key without [=], a line reads [key=value] exactly when its
    first [=] splits it into [key] and [value]. *)
Lemma setting_of_partition (key line v : string) :
  Forall (fun x => x <> "="%char) (list_ascii_of_string key) ->
  setting_of key line = Some v <-> partition_char "=" line = Some (key, v).
Proof.
  intros Hkey. unfold setting_of.
  rewrite strip_prefix_Some, partition_char_Some, append_assoc.
  change ("=" +:+ v) with (String "=" v). naive_solver.
Qed.

Lemma key_next_plain :
  Forall (fun x => x <> "="%char) (list_ascii_of_string "NextElapseUSecRealtime").
Proof. repeat constructor; discriminate. Qed.

Lemma key_last_plain :
  Forall (fun x => x <> "="%char) (list_ascii_of_string "LastTriggerUSecRealtime").
Proof. repeat constructor; discriminate. Qed.

Lemma key_unit_plain :
  Forall (fun x => x <> "="%char) (list_ascii_of_string "Unit").
Proof. repeat constructor; discriminate. Qed.

(** One turn of the loop, seen from each of the three keys. *)
Lemma timer_line_next (timer_name : string) (data : gmap string string) (line : string) :
  timer_line timer_name data line !! "next"
  = match setting_of "NextElapseUSecRealtime" line with
    | Some v => Some (or_str v "n/a")
    | None => data !! "next"
    end.
Proof.
  destruct (setting_of "NextElapseUSecRealtime" line) as [v|] eqn:E.
  - apply (setting_of_partition _ _ _ key_next_plain) in E.
    unfold timer_line. rewrite E.
    change (String.eqb "NextElapseUSecRealtime" "NextElapseUSecRealtime") with true.
    cbv iota. by rewrite lookup_insert_eq.
  - unfold timer_line.
    destruct (partition_char "=" line) as [[k v]|] eqn:P; [| done].
    destruct (String.eqb_spec k "NextElapseUSecRealtime") as [->|_].
    { apply (setting_of_partition _ _ _ key_next_plain) in P. congruence. }
    destruct (String.eqb k "LastTriggerUSecRealtime");
      [by rewrite lookup_insert_ne |].
    destruct (String.eqb k "Unit"); [by rewrite lookup_insert_ne | done].
Qed.

Lemma timer_line_last (timer_name : string) (data : gmap string string) (line : string) :
  timer_line timer_name data line !! "last"
  = match setting_of "LastTriggerUSecRealtime" line with
    | Some v => Some (or_str v "n/a")
    | None => data !! "last"
    end.
Proof.
  destruct (setting_of "LastTriggerUSecRealtime" line) as [v|] eqn:E.
  - apply (setting_of_partition _ _ _ key_last_plain) in E.
    unfold timer_line. rewrite E.
    change (String.eqb "LastTriggerUSecRealtime" "NextElapseUSecRealtime") with false.
    change (String.eqb "LastTriggerUSecRealtime" "LastTriggerUSecRealtime") with true.
    cbv iota. by rewrite lookup_insert_eq.
  - unfold timer_line.
    destruct (partition_char "=" line) as [[k v]|] eqn:P; [| done].
    destruct (String.eqb k "NextElapseUSecRealtime");
      [by rewrite lookup_insert_ne |].
    destruct (String.eqb_spec k "LastTriggerUSecRealtime") as [->|_].
    { apply (setting_of_partition _ _ _ key_last_plain) in P. congruence. }
    destruct (String.eqb k "Unit"); [by rewrite lookup_insert_ne | done].
Qed.

Lemma timer_line_unit (timer_name : string) (data : gmap string string) (line : string) :
  timer_line timer_name data line !! "unit"
  = match setting_of "Unit" line with
    | Some v => Some (or_str v timer_name)
    | None => data !! "unit"
    end.
Proof.
  destruct (setting_of "Unit" line) as [v|] eqn:E.
  - apply (setting_of_partition _ _ _ key_unit_plain) in E.
    unfold timer_line. rewrite E.
    change (String.eqb "Unit" "NextElapseUSecRealtime") with false.
    change (String.eqb "Unit" "LastTriggerUSecRealtime") with false.
    change (String.eqb "Unit" "Unit") with true.
    cbv iota. by rewrite lookup_insert_eq.
  - unfold timer_line.
    destruct (partition_char "=" line) as [[k v]|] eqn:P; [| done].
    destruct (String.eqb k "NextElapseUSecRealtime");
      [by rewrite lookup_insert_ne |].
    destruct (String.eqb k "LastTriggerUSecRealtime");
      [by rewrite lookup_insert_ne |].
    destruct (String.eqb_spec k "Unit") as [->|_]; [| done].
    apply (setting_of_partition _ _ _ key_unit_plain) in P. congruence.
Qed.

(** A loop that, at each line reading [name=value], stores [g value]
    under [key] and otherwise leaves [key] alone, ends with the value of
    the last such line under [key]. *)
Lemma fold_last_setting (f : gmap string string -> string -> gmap string string)
    (key name : string) (g : string -> string) :
  (forall data line,
     f data line !! key
     = match setting_of name line with
       | Some v => Some (g v)
       | None => data !! key
       end) ->
  forall (lines : list string) (data : gmap string string),
    fold_left f lines data !! key
    = match last_setting name lines with
      | Some v => Some (g v)
      | None => data !! key
      end.
Proof.
  intros Hf. unfold last_setting.
  induction lines as [|line lines IH]; intros data; [done |].
  cbn [fold_left omap list_omap]. rewrite IH, Hf.
  destruct (setting_of name line) as [v|]; [| done].
  rewrite last_cons. by destruct (last (omap (setting_of name) lines)).
Qed.

(** X14. [timer_info] never shows an empty [next] or [last], and a failed
    command gives exactly the fallbacks.  After a successful command each
    field is the value of the last line that sets its property; where no
    line sets the property, and where the value is empty, [next] and
    [last] read ["n/a"] and [unit] is the timer's name. *)
Theorem timer_info_fallbacks (timer_name : string) (r : cmd_result) :
  t_next (timer_info timer_name r) <> EmptyString
  /\ t_last (timer_info timer_name r) <> EmptyString
  /\ (timer_name <> EmptyString -> t_unit (timer_info timer_name r) <> EmptyString)
  /\ (code r <> 0 -> timer_info timer_name r = Timer "n/a" "n/a" timer_name)
  /\ (code r = 0 ->
      timer_info timer_name r
      = Timer (shown (last_setting "NextElapseUSecRealtime" (splitlines (out r))) "n/a")
              (shown (last_setting "LastTriggerUSecRealtime" (splitlines (out r))) "n/a")
              (shown (last_setting "Unit" (splitlines (out r))) timer_name)).
Proof.
  unfold timer_info. destruct (Z.eqb_spec (code r) 0) as [Hc|Hc]; cbn [negb].
  - pose proof (timer_data_nonempty timer_name (splitlines (out r)) ∅) as H.
    cbn zeta in H. destruct H as (Hn & Hl & Hu); try (intros v Hv; done).
    cbn [t_next t_last t_unit].
    repeat split; try done.
    + destruct (_ !! "next") as [v|] eqn:E; cbn; [by apply Hn | done].
    + destruct (_ !! "last") as [v|] eqn:E; cbn; [by apply Hl | done].
    + intros Ht. destruct (_ !! "unit") as [v|] eqn:E; cbn; [| done].
      intros He. by apply Ht, (Hu v).
    + intros _. cbv zeta.
      rewrite (fold_last_setting _ "next" "NextElapseUSecRealtime"
                 (fun v => or_str v "n/a") (timer_line_next timer_name)).
      rewrite (fold_last_setting _ "last" "LastTriggerUSecRealtime"
                 (fun v => or_str v "n/a") (timer_line_last timer_name)).
      rewrite (fold_last_setting _ "unit" "Unit"
                 (fun v => or_str v timer_name) (timer_line_unit timer_name)).
      rewrite !lookup_empty.
      by repeat (destruct (last_setting _ _) as [[|? ?]|]).
  - cbn. repeat split; done.
Qed.

(** A failed command; and a successful one whose output sets
    [NextElapseUSecRealtime] to the empty text, has no line for
    [LastTriggerUSecRealtime], and sets [Unit] twice, last to the empty
    text. *)
Lemma timer_info_fallbacks_witness :
  timer_info "proxmox-config-b2.timer" (CmdResult 1 "" "Unit not found.")
  = Timer "n/a" "n/a" "proxmox-config-b2.timer"
  /\ timer_info "proxmox-config-b2.timer"
       (CmdResult 0 ("Unit=a.timer" +:+ nl +:+ "NextElapseUSecRealtime="
                     +:+ nl +:+ "Unit=") "")
     = Timer "n/a" "n/a" "proxmox-config-b2.timer"
  /\ timer_info "proxmox-config-b2.timer"
       (CmdResult 0 ("NextElapseUSecRealtime=Tue 2024-01-02 02:00:00 UTC" +:+ nl
                     +:+ "LastTriggerUSecRealtime=Mon 2024-01-01 02:00:00 UTC" +:+ nl
                     +:+ "Unit=proxmox-config-b2.service") "")
     = Timer "Tue 2024-01-02 02:00:00 UTC" "Mon 2024-01-01 02:00:00 UTC"
             "proxmox-config-b2.service".
Proof.
  split; [| split].
  - apply (proj1 (proj2 (proj2 (proj2 (timer_info_fallbacks "proxmox-config-b2.timer"
                                         (CmdResult 1 "" "Unit not found.")))))).
    simpl. lia.
  - rewrite (proj2 (proj2 (proj2 (proj2 (timer_info_fallbacks "proxmox-config-b2.timer"
               (CmdResult 0 ("Unit=a.timer" +:+ nl +:+ "NextElapseUSecRealtime="
                             +:+ nl +:+ "Unit=") "")))))) by reflexivity.
    vm_compute. reflexivity.
  - rewrite (proj2 (proj2 (proj2 (proj2 (timer_info_fallbacks "proxmox-config-b2.timer"
               (CmdResult 0 ("NextElapseUSecRealtime=Tue 2024-01-02 02:00:00 UTC" +:+ nl
                     +:+ "LastTriggerUSecRealtime=Mon 2024-01-01 02:00:00 UTC" +:+ nl
                     +:+ "Unit=proxmox-config-b2.service") "")))))) by reflexivity.
    vm_compute. reflexivity.
Defined.

(** ** [recent_archives] *)

Lemma sorted_desc_by_key {A} (key : A -> Z) (leb : A -> A -> bool) (l : list A) :
  (forall y x, leb y x = (key y <=? key x)) ->
  StronglySorted (fun a b => key b <= key a) (sorted_desc leb l).
Proof.
  intros Hleb. induction l as [|x l IH]; simpl; [constructor |].
  induction IH as [|y l' Hl' IH' Hy]; simpl.
  - repeat constructor.
  - rewrite Hleb. destruct (Z.leb_spec (key y) (key x)).
    + constructor; [by constructor |].
      constructor; [done |].
      eapply Forall_impl; [exact Hy |]. cbn. intros; lia.
    + constructor; [done |].
      rewrite insert_desc_perm. constructor; [lia | done].
Qed.

(** X15. [recent_archives] shows at most [max_items] archives (for a maximum
    that is not negative), newest first, and they are the newest of the
    directory: an archive left out is not newer than any archive shown.
    A directory that does not exist gives the empty list. *)
Theorem recent_archives_newest (fs : filesystem) (path : string)
    (max_items : Z) (items : list dict) :
  0 <= max_items ->
  recent_archives fs path max_items = Ok items ->
  let files := recent_archive_files fs path max_items in
  Forall2 (fun f item => archive_item f = Ok item) files items
  /\ Z.of_nat (length items) <= max_items
  /\ StronglySorted (fun a b => st_mtime b <= st_mtime a) files
  /\ (forall p f g,
        fs !! path = Some p ->
        f ∈ files -> g ∈ glob_tar_gz path p -> g ∉ files ->
        st_mtime g <= st_mtime f)
  /\ (fs !! path = None -> items = []).
Proof.
  intros Hmax H. cbn zeta. unfold recent_archives, recent_archive_files in *.
  destruct (fs !! path) as [p|].
  2: { injection H as <-.
       split; [constructor |]. split; [simpl; lia |]. split; [constructor |].
       split; [intros ? ? ? [=] | done]. }
  apply mapM_result_Forall2 in H.
  pose proof (sorted_desc_by_key st_mtime st_mtime_leb (glob_tar_gz path p)
                (fun _ _ => eq_refl)) as Hs.
  set (sorted := sorted_desc st_mtime_leb (glob_tar_gz path p)) in *.
  assert (slice_to max_items sorted = take (Z.to_nat max_items) sorted) as Hsl.
  { unfold slice_to. by destruct (Z.leb_spec 0 max_items); [| lia]. }
  rewrite Hsl in *.
  split; [done |]. split.
  { apply Forall2_length in H. rewrite <- H, length_take. lia. }
  split.
  { rewrite <- (take_drop (Z.to_nat max_items) sorted) in Hs.
    by apply StronglySorted_app_1_l in Hs. }
  split; [| done].
  intros p' f g [= <-] Hf Hg Hng.
  assert (g ∈ drop (Z.to_nat max_items) sorted) as Hgd.
  { assert (g ∈ sorted) as Hgs by (unfold sorted; by rewrite sorted_desc_perm).
    rewrite <- (take_drop (Z.to_nat max_items) sorted) in Hgs.
    apply elem_of_app in Hgs as [?|?]; done. }
  rewrite <- (take_drop (Z.to_nat max_items) sorted) in Hs.
  exact (StronglySorted_app_1_elem_of _ _ _ _ _ Hs Hf Hgd).
Qed.

(** A directory of three archives, of which the two newest are shown,
    the newest first; the oldest, left out, is not newer than either. *)
Lemma recent_archives_newest_witness :
  exists items,
    recent_archives config_archives "/var/backups/proxmox-b2/configs" 2 = Ok items
    /\ item_name <$> items = ["pve-config-20240103.tar.gz"; "pve-config-20240102.tar.gz"]
    /\ Forall2 (fun f item => archive_item f = Ok item)
         (recent_archive_files config_archives "/var/backups/proxmox-b2/configs" 2)
         items
    /\ Z.of_nat (length items) <= 2
    /\ StronglySorted (fun a b => st_mtime b <= st_mtime a)
         (recent_archive_files config_archives "/var/backups/proxmox-b2/configs" 2)
    /\ (forall f,
          f ∈ recent_archive_files config_archives "/var/backups/proxmox-b2/configs" 2 ->
          st_mtime (Entry "pve-config-20240101.tar.gz"
                      "/var/backups/proxmox-b2/configs/pve-config-20240101.tar.gz"
                      (File 2048 1704067200))
          <= st_mtime f).
Proof.
  destruct (recent_archives config_archives "/var/backups/proxmox-b2/configs" 2)
    as [items|x] eqn:E; [| vm_compute in E; discriminate].
  exists items. split; [reflexivity |].
  destruct (recent_archives_newest config_archives "/var/backups/proxmox-b2/configs"
              2 items ltac:(lia) E) as (H1 & H2 & H3 & H4 & _).
  split; [vm_compute in E; injection E as <-; vm_compute; reflexivity |].
  split; [exact H1 |]. split; [exact H2 |]. split; [exact H3 |].
  intros f Hf.
  apply (H4 (Dir 4096 1704240000
               [("pve-config-20240101.tar.gz", File 2048 1704067200);
                ("pve-config-20240103.tar.gz", File 4096 1704240000);
                ("notes.txt", File 10 1704250000);
                ("pve-config-20240102.tar.gz", File 3072 1704153600)]) f);
    [reflexivity | exact Hf | |].
  - vm_compute. left.
  - vm_compute. intros Hin.
    repeat (apply elem_of_cons in Hin as [Hin|Hin]; [discriminate Hin |]).
    by apply elem_of_nil in Hin.
Defined.

(** ** Disk sizes *)

Lemma span_num_unit (num : string) (u : ascii) (rest : string) :
  Forall (fun c => is_numchar c = true) (list_ascii_of_string num) ->
  is_numchar u = false ->
  span_num (num +:+ String u rest) = (num, String u rest).
Proof.
  intros Hnum Hu. induction num as [|c num IH]; simpl.
  - by rewrite Hu.
  - apply Forall_cons in Hnum as [Hc Hnum]. rewrite Hc, IH; done.
Qed.

Lemma is_unit_not_numchar (u : ascii) : is_unit u = true -> is_numchar u = false.
Proof.
  unfold is_unit. intros H.
  apply orb_true_iff in H as [H|H]; [apply orb_true_iff in H as [H|H] |];
    apply Ascii.eqb_eq in H as ->; reflexivity.
Qed.

Lemma substring_5_size (rest : string) :
  String.substring 5 (String.length ("size=" +:+ rest)) ("size=" +:+ rest) = rest.
Proof.
  simpl. induction rest as [|c rest IH]; simpl; [done |].
  f_equal. destruct rest; [done |]. simpl in *. by injection IH as ->.
Qed.

Lemma search_size_here (num : string) (u : ascii) (rest : string) :
  num <> EmptyString ->
  Forall (fun c => is_numchar c = true) (list_ascii_of_string num) ->
  is_unit u = true ->
  search_size ("size=" +:+ num +:+ String u rest) = Some (num, u).
Proof.
  intros Hne Hnum Hu.
  change ("size=" +:+ num +:+ String u rest)
    with (String "s" ("ize=" +:+ num +:+ String u rest)).
  cbn [search_size].
  change (String "s" ("ize=" +:+ num +:+ String u rest))
    with ("size=" +:+ (num +:+ String u rest)).
  assert (String.prefix "size=" ("size=" +:+ (num +:+ String u rest)) = true) as ->.
  { generalize (num +:+ String u rest). intros [|? ?]; reflexivity. }
  rewrite substring_5_size. unfold match_number_unit.
  rewrite span_num_unit by (try done; by apply is_unit_not_numchar).
  destruct num; [done |]. by rewrite Hu.
Qed.

Lemma prefix_inv (p h : string) :
  String.prefix p h = true -> exists rest, h = p +:+ rest.
Proof.
  revert h. induction p as [|c p IH]; intros h H; [by exists h |].
  destruct h as [|c' h]; [done |]. cbn [String.prefix] in H.
  destruct (ascii_dec c c') as [<-|]; [| done].
  destruct (IH h H) as [rest ->]. by exists rest.
Qed.

Lemma span_num_spec (s : string) :
  forall a b : string,
    span_num s = (a, b) ->
    s = a +:+ b /\ Forall (fun c => is_numchar c = true) (list_ascii_of_string a).
Proof.
  induction s as [|c s IH]; intros a b; cbn [span_num].
  - intros [= <- <-]. split; [done | constructor].
  - destruct (is_numchar c) eqn:Hc.
    + destruct (span_num s) as [a' b'] eqn:E. intros [= <- <-].
      destruct (IH a' b' eq_refl) as [-> Ha]. split; [done | by constructor].
    + intros [= <- <-]. split; [done | constructor].
Qed.

(** The attempt of the search at one position fails where no declaration
    starts. *)
Lemma match_here_None (t : string) :
  ~ declares_size t ->
  (if String.prefix "size=" t
   then match_number_unit (String.substring 5 (String.length t) t)
   else None) = None.
Proof.
  intros Hno. destruct (String.prefix "size=" t) eqn:Hp; [| done].
  apply prefix_inv in Hp as [r ->]. rewrite substring_5_size.
  unfold match_number_unit.
  destruct (span_num r) as [a b] eqn:E. apply span_num_spec in E as [-> Ha].
  destruct a as [|c a]; [done |]. destruct b as [|u b]; [done |].
  destruct (is_unit u) eqn:Hu; [| done].
  exfalso. apply Hno. by exists (String c a), u, b.
Qed.

(** The search passes over every position where no declaration starts. *)
Lemma search_size_before (pre t : string) :
  (forall p1 p2, pre = p1 +:+ p2 -> p2 <> EmptyString -> ~ declares_size (p2 +:+ t)) ->
  search_size (pre +:+ t) = search_size t.
Proof.
  induction pre as [|c pre IH]; intros H; [done |].
  change (String c pre +:+ t) with (String c (pre +:+ t)).
  cbn [search_size].
  rewrite (match_here_None (String c (pre +:+ t))).
  - apply IH. intros p1 p2 -> Hp2. by apply (H (String c p1) p2).
  - by apply (H EmptyString (String c pre)).
Qed.

Lemma search_size_absent (text : string) :
  (forall t1 t2, text = t1 +:+ t2 -> ~ declares_size t2) -> search_size text = None.
Proof.
  induction text as [|c text IH]; intros H; [done |].
  cbn [search_size]. rewrite match_here_None by (by apply (H EmptyString)).
  apply IH. intros t1 t2 ->. by apply (H (String c t1)).
Qed.

Lemma search_size_none (text : string) :
  contains "size=" text = false -> search_size text = None.
Proof.
  induction text as [|c text IH]; intros H; [done |].
  cbn [search_size]. cbn [contains] in H.
  apply orb_false_iff in H as [-> H]. by apply IH.
Qed.

Lemma contains_append (sub p r : string) : contains sub (p +:+ sub +:+ r) = true.
Proof.
  assert (forall s, String.prefix sub s = true -> contains sub s = true) as Hpre.
  { intros [|c s] Hs; cbn [contains]; by rewrite Hs. }
  induction p as [|c p IH].
  - apply Hpre. change (EmptyString +:+ sub +:+ r) with (sub +:+ r).
    clear Hpre. induction sub as [|x sub IHs]; [by destruct r |].
    unfold String.append; fold String.append. cbn [String.prefix].
    by destruct (ascii_dec x x).
  - change (String c p +:+ sub +:+ r) with (String c (p +:+ sub +:+ r)).
    cbn [contains]. rewrite IH. apply orb_true_r.
Qed.

(** Where the text before a declaration has no [size=], no declaration
    starts in it. *)
Lemma no_size_before (pre t : string) :
  contains "size=" pre = false ->
  forall p1 p2,
    pre = p1 +:+ p2 -> p2 <> EmptyString -> ~ declares_size (p2 +:+ "size=" +:+ t).
Proof.
  intros Hc p1 p2 -> Hp2 (num & u & rest & Heq & _).
  destruct p2 as [|c1 [|c2 [|c3 [|c4 [|c5 p2]]]]]; [done | | | | |];
    red_append Heq; try congruence.
  injection Heq as -> -> -> -> -> _.
  change (String "s" (String "i" (String "z" (String "e" (String "=" p2)))))
    with ("size=" +:+ p2) in Hc.
  by rewrite contains_append in Hc.
Qed.

(** X16. [parse_size_gb] is decided by the leftmost declaration
    [size=<number><unit>] of the text, whatever precedes and follows it:
    the number is multiplied by 1024 for [T], divided by 1024 for [M], kept
    for [G], and a number that [float] cannot read (no digit, or two
    points) is a [ValueError].  A text in which no declaration starts, and
    so a text without [size=], is worth 0.0. *)
Theorem parse_size_gb_first_declaration (pre num rest : string) (u : ascii) :
  (forall p1 p2,
     pre = p1 +:+ p2 -> p2 <> EmptyString ->
     ~ declares_size (p2 +:+ "size=" +:+ num +:+ String u rest)) ->
  num <> EmptyString ->
  Forall (fun c => is_numchar c = true) (list_ascii_of_string num) ->
  is_unit u = true ->
  parse_size_gb (pre +:+ "size=" +:+ num +:+ String u rest)
  = (val ← float_of_decimal num; Ok (scale_gb u val))
  /\ (forall text,
        (forall t1 t2, text = t1 +:+ t2 -> ~ declares_size t2) ->
        parse_size_gb text = Ok 0%float)
  /\ (forall text, contains "size=" text = false -> parse_size_gb text = Ok 0%float).
Proof.
  intros Hpre Hne Hnum Hu. split; [| split].
  - unfold parse_size_gb.
    rewrite search_size_before, search_size_here by done.
    destruct (float_of_decimal num) as [val|x]; [| done].
    cbn [mbind result_bind]. unfold scale_gb.
    destruct (Ascii.eqb u "T"); [done |]. by destruct (Ascii.eqb u "M").
  - intros text Ht. unfold parse_size_gb. by rewrite search_size_absent.
  - intros text Ht. unfold parse_size_gb. by rewrite search_size_none.
Qed.

(** A disk line with other options before its size; a line with two
    declarations, of which the first decides; and a declaration whose
    number has two points. *)
Lemma parse_size_gb_first_declaration_witness :
  parse_size_gb "scsi0: local-lvm:vm-100-disk-0,cache=writeback,size=32G,ssd=1"
  = Ok 32%float
  /\ parse_size_gb "scsi0: local-lvm:vm-100-disk-0,size=2T,ssd=1 size=9G"
     = Ok 2048%float
  /\ parse_size_gb "rootfs: local-lvm:vm-101-disk-0,mountoptions=noatime,size=1.2.3G"
     = Raise (Exn ValueError "could not convert string to float: '1.2.3'").
Proof.
  split; [| split].
  - etrans.
    + exact (proj1 (parse_size_gb_first_declaration
                      "scsi0: local-lvm:vm-100-disk-0,cache=writeback," "32" ",ssd=1" "G"
                      (no_size_before "scsi0: local-lvm:vm-100-disk-0,cache=writeback," _ eq_refl)
                      ltac:(discriminate)
                      ltac:(repeat constructor)
                      eq_refl)).
    + vm_compute. reflexivity.
  - etrans.
    + exact (proj1 (parse_size_gb_first_declaration
                      "scsi0: local-lvm:vm-100-disk-0," "2" ",ssd=1 size=9G" "T"
                      (no_size_before "scsi0: local-lvm:vm-100-disk-0," _ eq_refl)
                      ltac:(discriminate)
                      ltac:(repeat constructor)
                      eq_refl)).
    + vm_compute. reflexivity.
  - etrans.
    + exact (proj1 (parse_size_gb_first_declaration
                      "rootfs: local-lvm:vm-101-disk-0,mountoptions=noatime," "1.2.3" "" "G"
                      (no_size_before "rootfs: local-lvm:vm-101-disk-0,mountoptions=noatime," _ eq_refl)
                      ltac:(discriminate)
                      ltac:(repeat constructor)
                      eq_refl)).
    + vm_compute. reflexivity.
Defined.

Lemma disk_size_loop_no_size (lines : list string) (size : float) :
  Forall (fun ln => contains "size=" ln = false) lines ->
  disk_size_loop lines size = Ok size.
Proof.
  induction 1 as [|ln lines Hln _ IH]; cbn [disk_size_loop]; [done |].
  by rewrite Hln.
Qed.

(** X17. The disk size of a machine is 0.0 when its configuration cannot be
    read (the command fails) and when no line of it holds [size=]. *)
Theorem vm_disk_size_zero (r : cmd_result) :
  code r <> 0 \/ Forall (fun ln => contains "size=" ln = false) (splitlines (out r)) ->
  vm_disk_size r = Ok 0%float /\ ct_disk_size r = Ok 0%float.
Proof.
  unfold vm_disk_size, ct_disk_size.
  intros [Hc|Hl].
  - apply Z.eqb_neq in Hc. by rewrite Hc.
  - destruct (negb (code r =? 0)); [done |].
    by rewrite disk_size_loop_no_size.
Qed.

Lemma vm_disk_size_zero_witness :
  vm_disk_size (CmdResult 2 "" "Configuration file does not exist") = Ok 0%float
  /\ ct_disk_size (CmdResult 2 "" "Configuration file does not exist") = Ok 0%float.
Proof.
  apply vm_disk_size_zero. left. simpl. lia.
Defined.

Lemma qm_rows_stops (qm_config : string -> cmd_result) (ln : string)
    (vid name status : string) (more : list string) (lines2 : list string)
    (lines1 : list string) :
  split_whitespace ln = vid :: name :: status :: more ->
  raises (vm_disk_size (qm_config vid)) ->
  forall vms,
    qm_rows qm_config (lines1 ++ ln :: lines2) vms = qm_rows qm_config lines1 vms.
Proof.
  intros Hln Hr. induction lines1 as [|l lines1 IH]; intros vms.
  - cbn [app qm_rows]. rewrite Hln.
    by destruct (vm_disk_size (qm_config vid)).
  - cbn [app qm_rows].
    destruct (split_whitespace l) as [|v [|n [|s m]]]; try apply IH.
    destruct (vm_disk_size (qm_config v)); [apply IH | done].
Qed.

(** X18. A size that [float] cannot read in the configuration of one virtual
    machine raises inside the [try] of the machine listing: the machines
    listed before it are kept, that machine and every machine after it are
    missing, and the containers are still listed after them. *)
Theorem list_vms_and_cts_bad_size (qm_config pct_config : string -> cmd_result)
    (qm_list pct_list : cmd_result) (lines1 lines2 : list string) (ln : string)
    (vid name status : string) (more : list string) :
  code qm_list = 0 ->
  drop 1 (splitlines (out qm_list)) = lines1 ++ ln :: lines2 ->
  split_whitespace ln = vid :: name :: status :: more ->
  raises (vm_disk_size (qm_config vid)) ->
  list_vms_and_cts qm_config pct_config qm_list pct_list
  = let vms := qm_rows qm_config lines1 [] in
    if code pct_list =? 0
    then pct_rows pct_config (drop 1 (splitlines (out pct_list))) vms
    else vms.
Proof.
  intros Hc Hlines Hln Hr. unfold list_vms_and_cts.
  rewrite Hc, Hlines. cbn [Z.eqb].
  by rewrite (qm_rows_stops qm_config ln vid name status more lines2 lines1 Hln Hr).
Qed.

Lemma list_vms_and_cts_bad_size_witness :
  let qm_config (vid : string) :=
    if String.eqb vid "101" then CmdResult 0 "scsi0: local:101/disk.raw,size=1.2.3G" ""
    else CmdResult 0 "scsi0: local:100/disk.raw,size=32G" "" in
  let qm_list :=
    CmdResult 0 ("VMID NAME STATUS" +:+ nl +:+ "100 web running" +:+ nl
                 +:+ "101 db running" +:+ nl +:+ "102 mail stopped") "" in
  length (list_vms_and_cts qm_config (fun _ => CmdResult 1 "" "")
            qm_list (CmdResult 1 "" "")) = 1%nat.
Proof.
  intros qm_config qm_list.
  rewrite (list_vms_and_cts_bad_size qm_config _ qm_list _
             ["100 web running"] ["102 mail stopped"] "101 db running"
             "101" "db" "running" []);
    first [vm_compute; reflexivity | vm_compute; exact I].
Defined.

(** ** Authentication *)

Lemma str_eq_true (text : string) (v : pyval) : str_eq text v = true <-> v = VStr text.
Proof.
  destruct v; cbn; try (split; congruence).
  rewrite String.eqb_eq. split; congruence.
Qed.

Lemma basic_payload (payload : string) :
  String.prefix "Basic " ("Basic " +:+ payload) = true
  /\ List.nth 1 (split_space 1 ("Basic " +:+ payload)) EmptyString = payload.
Proof. split; [by destruct payload | reflexivity]. Qed.

Lemma basic_auth_true (b64decode_utf8 : string -> result string) (auth : dict)
    (header : option string) :
  basic_auth b64decode_utf8 auth header = Some true <->
  truthy (get auth "basic_enabled" VNone) = true
  /\ exists payload user pwd,
       header = Some ("Basic " +:+ payload)
       /\ b64decode_utf8 payload = Ok (user +:+ String ":" pwd)
       /\ Forall (fun x => x <> ":"%char) (list_ascii_of_string user)
       /\ get auth "username" (VStr "") = VStr user
       /\ get auth "password" (VStr "") = VStr pwd.
Proof.
  unfold basic_auth.
  destruct (truthy (get auth "basic_enabled" VNone)); cbn [negb];
    [| split; [done | by intros [? _]]].
  destruct (String.prefix "Basic " (default "" header)) eqn:Hp; cbn [negb].
  2: { split; [done |]. intros (_ & payload & user & pwd & -> & _).
       cbn in Hp. by rewrite (proj1 (basic_payload payload)) in Hp. }
  apply prefix_inv in Hp as [payload Hh]. rewrite Hh.
  rewrite (proj2 (basic_payload payload)).
  assert (header = Some ("Basic " +:+ payload)) as ->.
  { destruct header as [h|]; cbn in Hh; [by rewrite Hh |].
    vm_compute in Hh. destruct payload; discriminate. }
  unfold try_except.
  destruct (b64decode_utf8 payload) as [decoded|x] eqn:Hd; cbn [mbind result_bind].
  2: { split; [done |]. intros (_ & p' & u & w & [= Hp'] & Hd' & _).
       red_append Hp'. subst p'. congruence. }
  destruct (partition_char ":" decoded) as [[user pwd]|] eqn:Hpart.
  - apply partition_char_Some in Hpart as [-> Huser]. split.
    + intros [= Hb]. apply andb_true_iff in Hb as [Hu Hw].
      apply str_eq_true in Hu, Hw. split; [done |].
      by exists payload, user, pwd.
    + intros (_ & p' & u & w & [= Hp'] & Hd' & Hu' & Hun & Hpw).
      red_append Hp'. subst p'.
      rewrite Hd in Hd'. injection Hd' as Hd'.
      assert (partition_char ":" (user +:+ String ":" pwd) = Some (u, w)) as Hq
        by (apply partition_char_Some; by split).
      assert (partition_char ":" (user +:+ String ":" pwd) = Some (user, pwd)) as Hq'
        by (apply partition_char_Some; by split).
      rewrite Hq in Hq'. injection Hq' as -> ->.
      f_equal. apply andb_true_iff. split; by apply str_eq_true.
  - split; [done |].
    intros (_ & p' & u & w & [= Hp'] & Hd' & Hu' & _).
    red_append Hp'. subst p'.
    rewrite Hd in Hd'. injection Hd' as ->.
    assert (partition_char ":" (u +:+ String ":" w) = Some (u, w)) as Hq
      by (apply partition_char_Some; by split).
    congruence.
Qed.

Lemma basic_auth_None (b64decode_utf8 : string -> result string) (auth : dict)
    (header : option string) :
  basic_auth b64decode_utf8 auth header = None <->
  truthy (get auth "basic_enabled" VNone) = false.
Proof.
  unfold basic_auth.
  destruct (truthy (get auth "basic_enabled" VNone)); cbn [negb]; [| done].
  destruct (negb _); [done |]. by destruct (try_except _ _).
Qed.

Lemma enforce_auth_None (b64decode_utf8 : string -> result string) (auth : dict)
    (header : option string) :
  enforce_auth b64decode_utf8 auth header = None <->
  truthy (get auth "basic_enabled" VNone) = false
  \/ (truthy (get auth "basic_enabled" VNone) = true
      /\ exists payload user pwd,
           header = Some ("Basic " +:+ payload)
           /\ b64decode_utf8 payload = Ok (user +:+ String ":" pwd)
           /\ Forall (fun x => x <> ":"%char) (list_ascii_of_string user)
           /\ get auth "username" (VStr "") = VStr user
           /\ get auth "password" (VStr "") = VStr pwd).
Proof.
  unfold enforce_auth.
  pose proof (basic_auth_None b64decode_utf8 auth header) as HN.
  pose proof (basic_auth_true b64decode_utf8 auth header) as HT.
  destruct (basic_auth b64decode_utf8 auth header) as [[|]|]; cbn [negb].
  - split; [intros _; right; by apply HT | done].
  - split; [done |]. intros [Hd|He].
    + by apply HN in Hd.
    + by apply HT in He.
  - split; [intros _; left; by apply HN | done].
Qed.

(** X19. A request goes on to its handler exactly when basic authentication
    is not enabled, or when its [Authorization] header is [Basic] followed
    by a payload that decodes to [user:password], split at its first
    colon, with [user] and [password] the configured strings (both empty
    when the configuration names none); every other request is answered
    401. *)
Theorem enforce_auth_lets_through (b64decode_utf8 : string -> result string)
    (auth : dict) (header : option string) :
  (enforce_auth b64decode_utf8 auth header = None <->
   truthy (get auth "basic_enabled" VNone) = false
   \/ (truthy (get auth "basic_enabled" VNone) = true
       /\ exists payload user pwd,
            header = Some ("Basic " +:+ payload)
            /\ b64decode_utf8 payload = Ok (user +:+ String ":" pwd)
            /\ Forall (fun x => x <> ":"%char) (list_ascii_of_string user)
            /\ get auth "username" (VStr "") = VStr user
            /\ get auth "password" (VStr "") = VStr pwd))
  /\ (enforce_auth b64decode_utf8 auth header <> None ->
      enforce_auth b64decode_utf8 auth header = Some 401).
Proof.
  split; [apply enforce_auth_None |].
  unfold enforce_auth. destruct (basic_auth _ _ _) as [[|]|]; cbn; done.
Qed.

Lemma enforce_auth_lets_through_witness :
  enforce_auth (fun _ => Ok "admin:s3cret")
    {[ "basic_enabled" := VBool true; "username" := VStr "admin";
       "password" := VStr "hunter2" ]}
    (Some "Basic YWRtaW46czNjcmV0")
  = Some 401.
Proof.
  apply (proj2 (enforce_auth_lets_through (fun _ => Ok "admin:s3cret") _ _)).
  vm_compute. discriminate.
Defined.

(** X20. Enabling basic authentication without configuring a user name and a
    password does not close the dashboard: the credentials made of an
    empty name and an empty password, the payload that decodes to a single
    colon, are accepted. *)
Theorem enforce_auth_default_credentials
    (b64decode_utf8 : string -> result string) (auth : dict) (payload : string) :
  truthy (get auth "basic_enabled" VNone) = true ->
  auth !! "username" = None ->
  auth !! "password" = None ->
  b64decode_utf8 payload = Ok ":" ->
  enforce_auth b64decode_utf8 auth (Some ("Basic " +:+ payload)) = None.
Proof.
  intros He Hu Hp Hd. apply enforce_auth_None. right. split; [done |].
  exists payload, EmptyString, EmptyString. unfold get. rewrite Hu, Hp.
  repeat split; try done.
Qed.

Lemma enforce_auth_default_credentials_witness :
  enforce_auth (fun s => if String.eqb s "Og==" then Ok ":" else Ok "x")
    {[ "basic_enabled" := VBool true ]} (Some "Basic Og==") = None.
Proof.
  apply (enforce_auth_default_credentials _ _ "Og=="); reflexivity.
Defined.

(** ** The defaults of the delete handlers *)

Lemma rstrip_slash_keep (a : string) (c : ascii) (b : string) :
  c <> "/"%char ->
  rstrip_slash (a +:+ String c b) = a +:+ String c (rstrip_slash b).
Proof.
  intros Hc. induction a as [|x a IH].
  - change ("" +:+ String c b) with (String c b). cbn [rstrip_slash].
    destruct (rstrip_slash b); [| done].
    destruct (Ascii.eqb_spec c "/"); done.
  - change (String x a +:+ String c b) with (String x (a +:+ String c b)).
    cbn [rstrip_slash]. rewrite IH.
    change (String x a +:+ String c (rstrip_slash b))
      with (String x (a +:+ String c (rstrip_slash b))).
    by destruct a.
Qed.

(** X21. With no [prefix_vms] configured, the VM backups are listed under
    [proxmox/vms] and uploaded there, but the delete handler of the scope
    [vms] falls back to [proxmox/configs]: it asks [rclone] to delete a
    file of the configuration backups.  In the same way, with no
    [local_vms] configured, the local delete handler of the scope [vms]
    deletes from the directory of the configuration backups. *)
Theorem delete_defaults_to_configs (b2_cfg cfg_paths : gmap string string)
    (name local_path : string) :
  b2_cfg !! "prefix_vms" = None ->
  cfg_paths !! "local_vms" = None ->
  name <> EmptyString ->
  let store := cfg_get b2_cfg "remote" "proxmox-b2" +:+ ":"
               +:+ cfg_get b2_cfg "bucket" "" in
  b2_vms_list_target b2_cfg = store +:+ "/proxmox/vms"
  /\ upload_local_to_b2 b2_cfg "vms" local_path
     = ["rclone"; "copy"; local_path; store +:+ "/proxmox/vms";
        "--config"; rclone_conf; "--b2-hard-delete"]
  /\ api_delete_b2 b2_cfg (Some "vms") (Some name)
     = inl ["rclone"; "deletefile";
            store +:+ "/proxmox/configs" +:+ rstrip_slash ("/" +:+ name);
            "--config"; rclone_conf]
  /\ api_delete_local_base cfg_paths (Some "vms") = "/var/backups/proxmox-b2/configs"
  /\ cfg_get cfg_paths "local_vms" "/var/backups/proxmox-b2/vms"
     = "/var/backups/proxmox-b2/vms".
Proof.
  intros Hp Hl Hn. cbn zeta.
  set (R := cfg_get b2_cfg "remote" "proxmox-b2").
  set (B := cfg_get b2_cfg "bucket" "").
  assert (cfg_get b2_cfg "prefix_vms" "proxmox/vms" = "proxmox/vms") as Hvms
    by (unfold cfg_get; by rewrite Hp).
  assert (cfg_get b2_cfg "prefix_vms" "proxmox/configs" = "proxmox/configs") as Hcfg
    by (unfold cfg_get; by rewrite Hp).
  split; [| split; [| split; [| split]]].
  - unfold b2_vms_list_target. fold R B. rewrite Hvms.
    replace (R +:+ ":" +:+ B +:+ "/" +:+ "proxmox/vms")
      with ((R +:+ ":" +:+ B +:+ "/proxmox/vm") +:+ String "s" "")
      by (rewrite !append_assoc; reflexivity).
    rewrite rstrip_slash_keep by done. cbn [rstrip_slash].
    rewrite !append_assoc. reflexivity.
  - unfold upload_local_to_b2. fold R B. cbn [String.eqb Ascii.eqb Bool.eqb].
    rewrite Hvms. rewrite !append_assoc. reflexivity.
  - unfold api_delete_b2.
    change (default "configs" (Some "vms")) with "vms".
    change (default "" (Some name)) with name.
    destruct (String.eqb_spec name ""); [done |].
    change (String.eqb "vms" "configs") with false. cbv iota.
    fold R B. rewrite Hcfg. unfold delete_b2. do 3 f_equal.
    replace (R +:+ ":" +:+ B +:+ "/" +:+ "proxmox/configs" +:+ "/" +:+ name)
      with ((R +:+ ":" +:+ B +:+ "/proxmox/config") +:+ String "s" ("/" +:+ name))
      by (rewrite !append_assoc; reflexivity).
    rewrite rstrip_slash_keep by done. rewrite !append_assoc. reflexivity.
  - unfold api_delete_local_base, cfg_get. cbn. by rewrite Hl.
  - unfold cfg_get. by rewrite Hl.
Qed.

Lemma delete_defaults_to_configs_witness :
  api_delete_b2 ∅ (Some "vms") (Some "vzdump-qemu-100.vma.zst")
  = inl ["rclone"; "deletefile";
         "proxmox-b2:/proxmox/configs/vzdump-qemu-100.vma.zst";
         "--config"; rclone_conf].
Proof.
  pose proof (delete_defaults_to_configs ∅ ∅ "vzdump-qemu-100.vma.zst" ""
                eq_refl eq_refl ltac:(discriminate)) as (_ & _ & H & _).
  exact H.
Defined.
